(** * OTP issuance and verification service: model and verified properties

    A shallow embedding of [server.js] (the two request handlers, the rate
    limiter and the code generator) over the tables of [schema.sql].

    Conventions.
    - Timestamps are integers counting milliseconds, as JavaScript [Date]
      values do.  A request reads two clocks: the JavaScript clock
      ([new Date()], [Date.now()]) and the database clock ([NOW()],
      [CURRENT_TIMESTAMP]); both readings are inputs of the handlers.
      A column keeps the timestamp it is given: the rounding of a
      [TIMESTAMP] column to whole seconds is left out.
    - A table is the list of its rows in insertion order.  The core never
      deletes a row.  The [id] columns of the two rate-limit tables, which no
      statement reads, are left out.
    - Strings are compared character by character, in SQL as in JavaScript;
      the collation of the [VARCHAR] columns is left out.
    - A statement that violates a key of the schema raises; the handler's
      [catch] rolls the transaction back and answers 500.  Other failures of
      the connection are not modelled.
    - The driver (mysql2) hands the value of a [JSON] column decoded, as an
      object.
    - The generated code is logged for delivery; the log is not part of the
      state. *)

From Stdlib Require Import ZArith List String Ascii Bool Lia Permutation Finite.
Import ListNotations.
Open Scope string_scope.
Open Scope list_scope.
Open Scope Z_scope.

(** ** Decimal rendering: [String(n)] and [padStart] *)

Definition digit_char (d : Z) : ascii := ascii_of_nat (48 + Z.to_nat d).

Definition is_digit (c : ascii) : Prop :=
  (48 <= nat_of_ascii c <= 57)%nat.

(** Digits are produced from the least significant one, each pushed in front
    of the accumulator. *)
Fixpoint decimal_digits (fuel : nat) (n : Z) (acc : string) : string :=
  match fuel with
  | O => acc
  | S f =>
      let acc' := String (digit_char (n mod 10)) acc in
      if n / 10 =? 0 then acc' else decimal_digits f (n / 10) acc'
  end.

(** [String(n)] for a non-negative integer [n]: a number below [2^k] has at
    most [k] decimal digits, so the fuel never runs out. *)
Definition to_decimal (n : Z) : string :=
  decimal_digits (S (Z.to_nat (Z.log2 n))) n "".

Fixpoint pad_chars (k : nat) (c : ascii) (s : string) : string :=
  match k with
  | O => s
  | S k' => String c (pad_chars k' c s)
  end.

(** [s.padStart(len, c)] for a one-character filler. *)
Definition padStart (len : nat) (c : ascii) (s : string) : string :=
  pad_chars (len - String.length s) c s.

(** The number a string of decimal digits denotes. *)
Fixpoint decimal_value (s : string) : Z :=
  match s with
  | EmptyString => 0
  | String c s' =>
      (Z.of_nat (nat_of_ascii c) - 48) * 10 ^ Z.of_nat (String.length s')
      + decimal_value s'
  end.

Fixpoint all_chars (P : ascii -> Prop) (s : string) : Prop :=
  match s with
  | EmptyString => True
  | String c s' => P c /\ all_chars P s'
  end.

(** ** generateOTP

    [randomNumber] is the value of [crypto.randomBytes(4).readUInt32BE(0)],
    an integer in [0, 2^32). *)

Definition generateOTP (randomNumber : Z) : string :=
  padStart 6 "0"%char (to_decimal (randomNumber mod 1000000)).

(** The code whose numeric value is [c], written with six digits. *)
Definition code_string (c : Z) : string := padStart 6 "0"%char (to_decimal c).

(** 2^32 = 4294 * 10^6 + 967296. *)
Definition draw_count (c : Z) : Z := if c <? 967296 then 4295 else 4294.

(** The draws [c, c + 10^6, c + 2*10^6, ...] below [2^32]. *)
Definition draws_of_code (c : Z) : list Z :=
  map (fun k => c + Z.of_nat k * 1000000) (seq 0 (Z.to_nat (draw_count c))).

(** ** Tables of schema.sql *)

Record OtpRow := mkOtp {
  id : Z;                      (* BIGINT UNSIGNED AUTO_INCREMENT PRIMARY KEY *)
  user_id : string;
  purpose : string;
  code : string;
  created_at : Z;              (* DEFAULT CURRENT_TIMESTAMP *)
  expires_at : Z;
  is_used : bool;              (* DEFAULT FALSE *)
  is_locked : bool;            (* DEFAULT FALSE *)
  locked_until : option Z;     (* TIMESTAMP NULL *)
  attempt_count : Z            (* DEFAULT 0 *)
}.

Record RateRow := mkRate {
  rate_key : string;           (* user_id, or ip_address *)
  request_timestamp : Z
}.

(** The JSON object answered by a successful request; [JSON.stringify]
    followed by [JSON.parse] gives back the same three fields. *)
Record Response := mkResponse {
  otp_id : string;
  ttl : Z;
  remaining_requests : Z
}.

Record IdemRow := mkIdem {
  idempotency_key : string;    (* PRIMARY KEY *)
  idem_user_id : string;
  idem_purpose : string;
  response_data : Response;
  idem_created_at : Z;
  idem_expires_at : Z
}.

Record DB := mkDB {
  otps : list OtpRow;
  otps_auto_increment : Z;
  user_rate_limits : list RateRow;
  ip_rate_limits : list RateRow;
  idempotency_keys : list IdemRow
}.

Definition empty_db : DB := mkDB [] 1 [] [] [].

Definition with_otps (t : list OtpRow) (db : DB) : DB :=
  mkDB t (otps_auto_increment db) (user_rate_limits db) (ip_rate_limits db)
       (idempotency_keys db).

(** ** Statements on [otps]

    [UNIQUE KEY uk_user_purpose_active (user_id, purpose, is_used, is_locked)]:
    no two rows agree on these four columns. *)

Definition same_uk (a b : OtpRow) : bool :=
  (user_id a =? user_id b)%string && (purpose a =? purpose b)%string
  && Bool.eqb (is_used a) (is_used b) && Bool.eqb (is_locked a) (is_locked b).

Definition for_pair (u p : string) (r : OtpRow) : bool :=
  (user_id r =? u)%string && (purpose r =? p)%string.

(** [INSERT INTO otps ...]: [None] is ER_DUP_ENTRY on the unique key. *)
Definition insert_otp (r : OtpRow) (t : list OtpRow) : option (list OtpRow) :=
  if existsb (same_uk r) t then None else Some (t ++ [r]).

(** [UPDATE otps SET ... WHERE id = i AND guard]: the rows hit are rewritten
    by [set]; the result carries [affectedRows].  [None] is ER_DUP_ENTRY: a
    rewritten row would agree with another row on the unique key. *)
Definition hits (i : Z) (guard : OtpRow -> bool) (r : OtpRow) : bool :=
  (id r =? i) && guard r.

Definition update_otp (i : Z) (guard : OtpRow -> bool) (set : OtpRow -> OtpRow)
    (t : list OtpRow) : option (list OtpRow * nat) :=
  let clash r :=
    hits i guard r
    && existsb (fun o => negb (id o =? i) && same_uk (set r) o) t in
  if existsb clash t then None
  else Some (map (fun r => if hits i guard r then set r else r) t,
             List.length (filter (hits i guard) t)).

Definition set_used (r : OtpRow) : OtpRow :=
  mkOtp (id r) (user_id r) (purpose r) (code r) (created_at r) (expires_at r)
        true (is_locked r) (locked_until r) (attempt_count r).

Definition set_unlocked (r : OtpRow) : OtpRow :=
  mkOtp (id r) (user_id r) (purpose r) (code r) (created_at r) (expires_at r)
        (is_used r) false None 0.

Definition set_locked (n : Z) (until : Z) (r : OtpRow) : OtpRow :=
  mkOtp (id r) (user_id r) (purpose r) (code r) (created_at r) (expires_at r)
        (is_used r) true (Some until) n.

Definition set_attempts (n : Z) (r : OtpRow) : OtpRow :=
  mkOtp (id r) (user_id r) (purpose r) (code r) (created_at r) (expires_at r)
        (is_used r) (is_locked r) (locked_until r) n.

Definition any_row (r : OtpRow) : bool := true.
Definition still_unused (r : OtpRow) : bool := negb (is_used r).

(** ** Transactions

    A handler body runs against the connection's view of the database and
    either completes or throws.  Two kinds of exception occur: the object
    with a [status] field thrown by [checkRateLimits], and everything else
    (driver errors such as ER_DUP_ENTRY, runtime errors). *)

Inductive Thrown :=
| Rejected (remaining_cooldown_seconds : Z)   (* { status: 429, body: ... } *)
| Fault.

Inductive Outcome (A : Type) :=
| Done (a : A) (db : DB)
| Raised (e : Thrown).
Arguments Done {A} a db.
Arguments Raised {A} e.

Definition Tx (A : Type) : Type := DB -> Outcome A.

Definition ret {A} (a : A) : Tx A := fun db => Done a db.

Definition bind {A B} (m : Tx A) (k : A -> Tx B) : Tx B :=
  fun db => match m db with
            | Done a db' => k a db'
            | Raised e => Raised e
            end.

Definition throw {A} (e : Thrown) : Tx A := fun _ => Raised e.

Notation "x <- m ;; k" := (bind m (fun x => k))
  (at level 61, m at next level, right associativity).
Notation "m ;;; k" := (bind m (fun _ => k))
  (at level 61, right associativity).

(** A read-only query. *)
Definition query {A} (q : DB -> A) : Tx A := fun db => Done (q db) db.

(** [UPDATE otps SET ... WHERE id = ? (AND ...)], answering [affectedRows]. *)
Definition UPDATE_otps (i : Z) (guard : OtpRow -> bool) (set : OtpRow -> OtpRow)
  : Tx nat :=
  fun db => match update_otp i guard set (otps db) with
            | Some (t, n) => Done n (with_otps t db)
            | None => Raised Fault
            end.

(** [INSERT INTO otps (user_id, purpose, code, expires_at) VALUES (?, ?, ?, ?)],
    the other columns taking their defaults; answers [insertId]. *)
Definition INSERT_otps (u p c : string) (expiresAt : Z) (current_timestamp : Z)
  : Tx Z :=
  fun db =>
    let i := otps_auto_increment db in
    match insert_otp (mkOtp i u p c current_timestamp expiresAt false false None 0)
                     (otps db) with
    | Some t => Done i (mkDB t (i + 1) (user_rate_limits db) (ip_rate_limits db)
                             (idempotency_keys db))
    | None => Raised Fault
    end.

Definition INSERT_user_rate_limits (u : string) (ts : Z) : Tx unit :=
  fun db => Done tt (mkDB (otps db) (otps_auto_increment db)
                          (user_rate_limits db ++ [mkRate u ts])
                          (ip_rate_limits db) (idempotency_keys db)).

Definition INSERT_ip_rate_limits (ip : string) (ts : Z) : Tx unit :=
  fun db => Done tt (mkDB (otps db) (otps_auto_increment db)
                          (user_rate_limits db)
                          (ip_rate_limits db ++ [mkRate ip ts])
                          (idempotency_keys db)).

(** [INSERT INTO idempotency_keys ...]: the key column is the primary key, so
    a row with the same key, expired or not, makes the statement fail. *)
Definition INSERT_idempotency_keys (row : IdemRow) : Tx unit :=
  fun db =>
    if existsb (fun r => (idempotency_key r =? idempotency_key row)%string)
               (idempotency_keys db)
    then Raised Fault
    else Done tt (mkDB (otps db) (otps_auto_increment db) (user_rate_limits db)
                       (ip_rate_limits db) (idempotency_keys db ++ [row])).

(** ** checkRateLimits *)

Record Clock := mkClock {
  js_now : Z;     (* new Date(), Date.now() *)
  db_now : Z      (* NOW(), CURRENT_TIMESTAMP *)
}.

Record RateLimitInfo := mkInfo {
  user_remaining : Z;
  ip_remaining : Z
}.

(** [Math.ceil(ms / 1000)] *)
Definition ceil_seconds (ms : Z) : Z := - ((- ms) / 1000).

(** [WHERE <key column> = ? AND request_timestamp >= ?] *)
Definition in_window (key : string) (since : Z) (r : RateRow) : bool :=
  (rate_key r =? key)%string && (since <=? request_timestamp r).

(** [SELECT COUNT( * ) ...] *)
Definition count_requests (key : string) (since : Z) (t : list RateRow) : Z :=
  Z.of_nat (List.length (filter (in_window key since) t)).

(** [SELECT request_timestamp ... ORDER BY request_timestamp ASC LIMIT 1] *)
Definition oldest_request (key : string) (since : Z) (t : list RateRow)
  : option Z :=
  match map request_timestamp (filter (in_window key since) t) with
  | [] => None
  | ts :: rest => Some (fold_left Z.min rest ts)
  end.

(** What the [if (count >= limit) { ... throw ... }] block does for one
    table: nothing when under the limit. *)
Definition enforce_limit (limit count : Z) (key : string) (since now : Z)
    (t : list RateRow) : Tx unit :=
  if limit <=? count then
    match oldest_request key since t with
    | Some ts =>
        let cooldownUntil := ts + 15 * 60 * 1000 in
        throw (Rejected (ceil_seconds (cooldownUntil - now)))
    | None => throw Fault       (* oldestRequest[0] is undefined *)
    end
  else ret tt.

Definition checkRateLimits (userId ipAddress : string) (clk : Clock)
  : Tx RateLimitInfo :=
  let now := js_now clk in
  let fifteenMinutesAgo := now - 15 * 60 * 1000 in
  userCount <- query (fun db =>
     count_requests userId fifteenMinutesAgo (user_rate_limits db)) ;;
  (fun db => enforce_limit 3 userCount userId fifteenMinutesAgo now
                           (user_rate_limits db) db) ;;;
  ipCount <- query (fun db =>
     count_requests ipAddress fifteenMinutesAgo (ip_rate_limits db)) ;;
  (fun db => enforce_limit 8 ipCount ipAddress fifteenMinutesAgo now
                           (ip_rate_limits db) db) ;;;
  INSERT_user_rate_limits userId (db_now clk) ;;;
  INSERT_ip_rate_limits ipAddress (db_now clk) ;;;
  ret (mkInfo (3 - userCount - 1) (8 - ipCount - 1)).

(** ** POST /otp/request *)

Record IssueRequest := mkIssue {
  req_user_id : string;
  req_purpose : string;
  req_idempotency_key : string;
  req_ip : string
}.

Inductive IssueResult :=
| Created (response : Response)                  (* 201 *)
| Replayed (response : Response)                 (* 200 *)
| RateLimited (remaining_cooldown_seconds : Z)   (* 429 rate_limit_exceeded *)
| IssueMissingFields                             (* 400 *)
| IssueInternalError.                            (* 500 *)

(** [!s] for a string field of the request. *)
Definition missing (s : string) : bool := (s =? "")%string.

(** [SELECT response_data FROM idempotency_keys
     WHERE idempotency_key = ? AND expires_at > NOW()] *)
Definition select_idempotency (key : string) (now : Z) (db : DB)
  : list IdemRow :=
  filter (fun r => (idempotency_key r =? key)%string && (now <? idem_expires_at r))
         (idempotency_keys db).

(** [SELECT id FROM otps WHERE user_id = ? AND purpose = ? AND is_used = FALSE
     AND is_locked = FALSE AND expires_at > NOW() FOR UPDATE] *)
Definition select_active_otp (u p : string) (now : Z) (db : DB) : list OtpRow :=
  filter (fun r => for_pair u p r && negb (is_used r) && negb (is_locked r)
                   && (now <? expires_at r))
         (otps db).

(** "Lock and check for existing active OTP": the first row selected, if
    any, is invalidated by marking it used. *)
Definition invalidate_active_otp (u p : string) (now : Z) : Tx unit :=
  existingOTP <- query (select_active_otp u p now) ;;
  match existingOTP with
  | row :: _ => UPDATE_otps (id row) any_row set_used ;;; ret tt
  | [] => ret tt
  end.

(** [JSON.parse(existingIdempotency[0].response_data)].  The column
    [response_data] has type JSON, and mysql2 hands a JSON column decoded: the
    argument is the stored object, not its text.  [JSON.parse] first converts
    its argument to a string, which for an object is "[object Object]"; that
    is not JSON text, so a SyntaxError is thrown, whatever the object. *)
Definition JSON_parse_decoded (stored : Response) : Tx Response :=
  throw Fault.

Definition issue (req : IssueRequest) (clk : Clock) (randomNumber : Z)
  : Tx IssueResult :=
  let user_id := req_user_id req in
  let purpose := req_purpose req in
  let idempotencyKey := req_idempotency_key req in
  existingIdempotency <- query (select_idempotency idempotencyKey (db_now clk)) ;;
  match existingIdempotency with
  | row :: _ =>
      (* commit, of a transaction that has written nothing *)
      response <- JSON_parse_decoded (response_data row) ;;
      ret (Replayed response)
  | [] =>
      rateLimitInfo <- checkRateLimits user_id (req_ip req) clk ;;
      invalidate_active_otp user_id purpose (db_now clk) ;;;
      let otpCode := generateOTP randomNumber in
      let expiresAt := js_now clk + 5 * 60 * 1000 in
      insertId <- INSERT_otps user_id purpose otpCode expiresAt (db_now clk) ;;
      let response :=
        mkResponse (to_decimal insertId) 300 (user_remaining rateLimitInfo) in
      let idempotencyExpires := js_now clk + 10 * 60 * 1000 in
      INSERT_idempotency_keys
        (mkIdem idempotencyKey user_id purpose response (db_now clk)
                idempotencyExpires) ;;;
      ret (Created response)
  end.

(** The handler: validation, then the transaction; [commit] keeps the
    transaction's database, [rollback] restores the one it started from. *)
Definition otp_request (req : IssueRequest) (clk : Clock) (randomNumber : Z)
    (db : DB) : DB * IssueResult :=
  if missing (req_user_id req) || missing (req_purpose req)
     || missing (req_idempotency_key req)
  then (db, IssueMissingFields)
  else match issue req clk randomNumber db with
       | Done r db' => (db', r)
       | Raised (Rejected s) => (db, RateLimited s)
       | Raised Fault => (db, IssueInternalError)
       end.

(** ** POST /otp/verify *)

Record VerifyRequest := mkVerify {
  vreq_user_id : string;
  vreq_purpose : string;
  vreq_code : string
}.

Inductive VerifyResult :=
| VerificationSuccessful                    (* 200 *)
| OtpNotFound                               (* 404 otp_not_found *)
| OtpExpired                                (* 410 otp_expired *)
| CodeUsed                                  (* 410 code_used *)
| InvalidCode (attempts_remaining : Z)      (* 401 invalid_code *)
| TooManyAttempts (retry_after_seconds : Z) (* 429 too_many_attempts *)
| VerifyMissingFields                       (* 400 *)
| VerifyInternalError.                      (* 500 *)

(** [ORDER BY created_at DESC LIMIT 1]: the row with the greatest
    [created_at].  MySQL leaves the order among equal [created_at] open; here
    the row met first in the table is kept. *)
Definition newest (rows : list OtpRow) : option OtpRow :=
  fold_left (fun best r =>
               match best with
               | None => Some r
               | Some b => if created_at b <? created_at r then Some r else Some b
               end) rows None.

(** [SELECT ... FROM otps WHERE user_id = ? AND purpose = ? AND is_used = FALSE
     ORDER BY created_at DESC LIMIT 1 FOR UPDATE] *)
Definition select_latest_unused (u p : string) (db : DB) : option OtpRow :=
  newest (filter (fun r => for_pair u p r && negb (is_used r)) (otps db)).

(** The two-armed test on the lock columns. *)
Inductive LockTest := StillLocked (remainingSeconds : Z) | LockLapsed | NoLock.

Definition lock_test (otp : OtpRow) (now : Z) : LockTest :=
  match is_locked otp, locked_until otp with
  | true, Some until =>
      if now <? until then StillLocked (ceil_seconds (until - now))
      else LockLapsed
  | _, _ => NoLock
  end.

(** From "Check if OTP is already used" to the end of the [try] block, on the
    in-memory row [otp]. *)
Definition check_code (otp : OtpRow) (code_given : string) (now : Z)
  : Tx VerifyResult :=
  if is_used otp then ret CodeUsed
  else if (code otp =? code_given)%string then
    affectedRows <- UPDATE_otps (id otp) still_unused set_used ;;
    if Nat.eqb affectedRows 0 then ret CodeUsed
    else ret VerificationSuccessful
  else
    let newAttemptCount := attempt_count otp + 1 in
    if 3 <=? newAttemptCount then
      let lockedUntil := now + 10 * 60 * 1000 in
      UPDATE_otps (id otp) any_row (set_locked newAttemptCount lockedUntil) ;;;
      ret (TooManyAttempts 600)
    else
      UPDATE_otps (id otp) any_row (set_attempts newAttemptCount) ;;;
      ret (InvalidCode (3 - newAttemptCount)).

(** The handler body once the locking [SELECT] has answered the row [otp]. *)
Definition verify_found (otp : OtpRow) (code_given : string) (now : Z)
  : Tx VerifyResult :=
  if expires_at otp <? now then
    UPDATE_otps (id otp) any_row set_used ;;; ret OtpExpired
  else
    match lock_test otp now with
    | StillLocked remainingSeconds => ret (TooManyAttempts remainingSeconds)
    | LockLapsed =>
        UPDATE_otps (id otp) any_row set_unlocked ;;;
        (* otp.is_locked = false; otp.attempt_count = 0; *)
        check_code (mkOtp (id otp) (user_id otp) (purpose otp) (code otp)
                          (created_at otp) (expires_at otp) (is_used otp)
                          false (locked_until otp) 0)
                   code_given now
    | NoLock => check_code otp code_given now
    end.

Definition verify (req : VerifyRequest) (now : Z) : Tx VerifyResult :=
  otpRecords <- query (select_latest_unused (vreq_user_id req) (vreq_purpose req)) ;;
  match otpRecords with
  | None => ret OtpNotFound
  | Some otp => verify_found otp (vreq_code req) now
  end.

Definition otp_verify (req : VerifyRequest) (now : Z) (db : DB)
  : DB * VerifyResult :=
  if missing (vreq_user_id req) || missing (vreq_purpose req)
     || missing (vreq_code req)
  then (db, VerifyMissingFields)
  else match verify req now db with
       | Done r db' => (db', r)
       | Raised _ => (db, VerifyInternalError)
       end.

(** ** Histories *)

Inductive Event :=
| Issue (req : IssueRequest) (clk : Clock) (randomNumber : Z)
| Verify (req : VerifyRequest) (now : Z).

Definition step (db : DB) (e : Event) : DB :=
  match e with
  | Issue req clk rnd => fst (otp_request req clk rnd db)
  | Verify req now => fst (otp_verify req now db)
  end.

Definition run (events : list Event) (db : DB) : DB := fold_left step events db.

Definition reachable (db : DB) : Prop := exists events, run events empty_db = db.

(** ** Counting the draws behind a code *)

(** [l] lists, without repetition, exactly the 32-bit draws that
    [generateOTP] turns into the code numbered [c]. *)
Definition enumerates_draws (c : Z) (l : list Z) : Prop :=
  NoDup l /\
  forall n, In n l <-> (0 <= n < 2 ^ 32 /\ generateOTP n = code_string c).

(** Every six-digit code is produced by the same number of draws. *)
Definition generateOTP_unbiased : Prop :=
  exists K : Z,
    forall c l, 0 <= c < 1000000 -> enumerates_draws c l ->
                Z.of_nat (List.length l) = K.

(** ** Properties of the stored tables *)

(** At most one unconsumed record per (user, purpose). *)
Definition single_unused (db : DB) : Prop :=
  forall r1 r2,
    In r1 (otps db) -> In r2 (otps db) ->
    user_id r1 = user_id r2 -> purpose r1 = purpose r2 ->
    is_used r1 = false -> is_used r2 = false ->
    r1 = r2.

(** At most one unconsumed record per (user, purpose) and lock flag: one
    unlocked, one locked. *)
Definition single_active (db : DB) : Prop :=
  forall r1 r2,
    In r1 (otps db) -> In r2 (otps db) ->
    user_id r1 = user_id r2 -> purpose r1 = purpose r2 ->
    is_used r1 = false -> is_used r2 = false ->
    is_locked r1 = is_locked r2 ->
    r1 = r2.

(** A locked record carries the end of its lock. *)
Definition lock_coherent (r : OtpRow) : Prop :=
  is_locked r = true -> locked_until r <> None.

(** What the keys of the schema and the handlers maintain. *)
Record table_ok (db : DB) : Prop := {
  ok_unique_key :
    forall r1 r2, In r1 (otps db) -> In r2 (otps db) ->
                  same_uk r1 r2 = true -> id r1 = id r2;
  ok_primary_key : NoDup (map id (otps db));
  ok_auto_increment :
    forall r, In r (otps db) -> id r < otps_auto_increment db;
  ok_lock : forall r, In r (otps db) -> lock_coherent r;
  ok_idempotency_key : NoDup (map idempotency_key (idempotency_keys db))
}.

(** [m] keeps [I] whenever it completes. *)
Definition preserves {A} (I : DB -> Prop) (m : Tx A) : Prop :=
  forall db, I db ->
    match m db with
    | Done _ db' => I db'
    | Raised _ => True
    end.

(** ** A history that ends in a lockout followed by a new request *)

Definition U1_login (key : string) : IssueRequest :=
  mkIssue "U1" "login" key "1.1.1.1".

Definition U1_code (c : string) : VerifyRequest := mkVerify "U1" "login" c.

Definition at_ms (t : Z) : Clock := mkClock t t.

Definition lockout_history : list Event :=
  [ Issue (U1_login "k1") (at_ms 0) 123456;
    Verify (U1_code "000000") 1000;
    Verify (U1_code "000000") 2000;
    Verify (U1_code "000000") 3000 ].

Definition reissue_history : list Event :=
  lockout_history ++ [ Issue (U1_login "k2") (at_ms 4000) 654321 ].

Definition locked_record : OtpRow :=
  mkOtp 1 "U1" "login" "123456" 0 300000 false true (Some 603000) 3.

Definition second_record : OtpRow :=
  mkOtp 2 "U1" "login" "654321" 4000 304000 false false None 0.

(** ** Vocabulary of the rate limiter's contract *)

(** [q] is [ms / 1000] rounded up to a whole number. *)
Definition rounds_up_to (ms q : Z) : Prop := 1000 * (q - 1) < ms <= 1000 * q.

(** [ts] is the timestamp of the oldest entry of [key] at or after [since]. *)
Definition oldest_in_window (key : string) (since : Z) (t : list RateRow)
    (ts : Z) : Prop :=
  (exists r, In r t /\ rate_key r = key /\ since <= request_timestamp r
             /\ request_timestamp r = ts) /\
  (forall r, In r t -> rate_key r = key -> since <= request_timestamp r ->
             ts <= request_timestamp r).

(** The database after one entry was recorded in each rate-limit table. *)
Definition record_request (userId ipAddress : string) (ts : Z) (db : DB) : DB :=
  mkDB (otps db) (otps_auto_increment db)
       (user_rate_limits db ++ [mkRate userId ts])
       (ip_rate_limits db ++ [mkRate ipAddress ts])
       (idempotency_keys db).

(** The request carries the three fields the handler insists on. *)
Definition well_formed (req : IssueRequest) : Prop :=
  req_user_id req <> "" /\ req_purpose req <> "" /\ req_idempotency_key req <> "".

Definition well_formed_verify (req : VerifyRequest) : Prop :=
  vreq_user_id req <> "" /\ vreq_purpose req <> "" /\ vreq_code req <> "".

(** ** What a successful request writes *)

Definition issued_row (req : IssueRequest) (clk : Clock) (rnd i : Z) : OtpRow :=
  mkOtp i (req_user_id req) (req_purpose req) (generateOTP rnd) (db_now clk)
        (js_now clk + 5 * 60 * 1000) false false None 0.

Definition issued_response (i remaining : Z) : Response :=
  mkResponse (to_decimal i) 300 remaining.

Definition issued_key (req : IssueRequest) (clk : Clock) (resp : Response)
  : IdemRow :=
  mkIdem (req_idempotency_key req) (req_user_id req) (req_purpose req) resp
         (db_now clk) (js_now clk + 10 * 60 * 1000).

(** The record a request supersedes: unconsumed, unlocked and unexpired. *)
Definition active_for (req : IssueRequest) (clk : Clock) (r : OtpRow) : Prop :=
  user_id r = req_user_id req /\ purpose r = req_purpose req /\
  is_used r = false /\ is_locked r = false /\ db_now clk < expires_at r.

(** The table after an [UPDATE ... WHERE id = i] that rewrites with [set]. *)
Definition rewrite_row (i : Z) (set : OtpRow -> OtpRow) (t : list OtpRow)
  : list OtpRow :=
  map (fun r => if id r =? i then set r else r) t.

(** [t] with the row numbered [i] marked used. *)
Definition mark_used (i : Z) (t : list OtpRow) : list OtpRow :=
  rewrite_row i set_used t.

(** Every unconsumed record of the pair, whatever its lock state or expiry,
    is marked used by a successful request. *)
Definition issue_supersedes_every_unused : Prop :=
  forall req clk rnd db db' resp r,
    reachable db ->
    otp_request req clk rnd db = (db', Created resp) ->
    In r (otps db) ->
    user_id r = req_user_id req -> purpose r = req_purpose req ->
    is_used r = false ->
    forall r', In r' (otps db') -> id r' = id r -> is_used r' = true.

(** ** Three requests of one user, for three purposes *)

Definition three_requests : list Event :=
  [ Issue (mkIssue "U1" "login" "a1" "1.1.1.1") (at_ms 0) 111111;
    Issue (mkIssue "U1" "payment" "a2" "1.1.1.1") (at_ms 60000) 222222;
    Issue (mkIssue "U1" "reset" "a3" "1.1.1.1") (at_ms 120000) 333333 ].

Definition fourth_request : IssueRequest := mkIssue "U1" "login" "a4" "1.1.1.1".

(** ** A request repeated after its key expired *)

Definition first_issue_db : DB :=
  fst (otp_request (U1_login "k1") (at_ms 0) 123456 empty_db).

(** ** Transcripts: the answers of a history, in order *)

Inductive Answer :=
| ToIssue (r : IssueResult)
| ToVerify (r : VerifyResult).

Definition respond (db : DB) (e : Event) : Answer :=
  match e with
  | Issue req clk rnd => ToIssue (snd (otp_request req clk rnd db))
  | Verify req now => ToVerify (snd (otp_verify req now db))
  end.

Fixpoint transcript (events : list Event) (db : DB) : list Answer :=
  match events with
  | [] => []
  | e :: rest => respond db e :: transcript rest (step db e)
  end.

(** ** Vocabulary of the verification properties *)

(** [otp] is the only unconsumed record of the pair. *)
Definition only_unused (u p : string) (otp : OtpRow) (db : DB) : Prop :=
  forall o, In o (otps db) -> for_pair u p o = true -> is_used o = false ->
            o = otp.

(** The unique key lets the rows numbered [id otp] become [otp']: no other
    row of the table agrees with [otp'] on the key columns. *)
Definition key_free (otp' : OtpRow) (db : DB) : Prop :=
  forall o, In o (otps db) -> id o <> id otp' -> same_uk otp' o = false.

(** Once a verification has retired an expired record, and no other
    unconsumed record is stored for the pair, later verifications for the
    pair answer [answer]. *)
Definition retired_record_answers (answer : VerifyResult) : Prop :=
  forall req now db db1 otp req' now',
    reachable db ->
    well_formed_verify req -> well_formed_verify req' ->
    vreq_user_id req' = vreq_user_id req ->
    vreq_purpose req' = vreq_purpose req ->
    select_latest_unused (vreq_user_id req) (vreq_purpose req) db = Some otp ->
    only_unused (vreq_user_id req) (vreq_purpose req) otp db ->
    otp_verify req now db = (db1, OtpExpired) ->
    snd (otp_verify req' now' db1) = answer.

(** ** Histories in which the JavaScript clock never runs backwards *)

Definition event_time (e : Event) : Z :=
  match e with
  | Issue _ clk _ => js_now clk
  | Verify _ now => now
  end.

(** [history t db]: [db] is reached by events read at non-decreasing times,
    the last of them at [t] or before. *)
Inductive history : Z -> DB -> Prop :=
| history_start : forall t, history t empty_db
| history_step : forall t db e,
    history t db -> t <= event_time e -> history (event_time e) (step db e).

(** A record issued at [t] or before expires 300 s after [t] at the latest. *)
Definition issued_by (t : Z) (r : OtpRow) : Prop :=
  expires_at r <= t + 5 * 60 * 1000.

(** The lock of a locked record ends after the record has expired. *)
Definition lock_outlives_expiry (r : OtpRow) : Prop :=
  forall until, is_locked r = true -> locked_until r = Some until ->
                expires_at r < until.

Definition rows_timed (t : Z) (db : DB) : Prop :=
  forall r, In r (otps db) -> issued_by t r /\ lock_outlives_expiry r.

(** The lockout of ("U1", "login"), then a correct code during the lock and
    a wrong code when the lock has ended. *)
Definition round_trip_history : list Event :=
  lockout_history ++
  [ Verify (U1_code "123456") 4000;
    Verify (U1_code "000000") 603000 ].

(** ** Concurrent verifications

    Every call runs in a transaction of its own.  Its first statement is the
    locking read [SELECT ... FOR UPDATE]: it answers a row only while no other
    open transaction holds that row, and the call then holds the row until it
    commits or rolls back; otherwise the call waits.  The rest of the handler
    runs on the row read, against the database as it is when the call
    proceeds. *)

Inductive Call :=
| Pending (req : VerifyRequest) (now : Z)
| Holding (otp : OtpRow) (req : VerifyRequest) (now : Z)
| Answered (r : VerifyResult).

Definition holds_row (i : Z) (c : Call) : bool :=
  match c with
  | Holding otp _ _ => id otp =? i
  | _ => false
  end.

Definition is_holding (c : Call) : bool :=
  match c with
  | Holding _ _ _ => true
  | _ => false
  end.

Definition is_success (c : Call) : bool :=
  match c with
  | Answered VerificationSuccessful => true
  | _ => false
  end.

(** One move of the call [c], the other calls being [others]; [None] when
    the call waits or has answered. *)
Definition advance (db : DB) (others : list Call) (c : Call)
  : option (DB * Call) :=
  match c with
  | Pending req now =>
      if missing (vreq_user_id req) || missing (vreq_purpose req)
         || missing (vreq_code req)
      then Some (db, Answered VerifyMissingFields)
      else
        match select_latest_unused (vreq_user_id req) (vreq_purpose req) db with
        | None => Some (db, Answered OtpNotFound)
        | Some otp =>
            if existsb (holds_row (id otp)) others then None
            else Some (db, Holding otp req now)
        end
  | Holding otp req now =>
      match verify_found otp (vreq_code req) now db with
      | Done r db' => Some (db', Answered r)
      | Raised _ => Some (db, Answered VerifyInternalError)
      end
  | Answered _ => None
  end.

Inductive pool_step : DB * list Call -> DB * list Call -> Prop :=
| pool_step_at : forall db db' before c c' after,
    advance db (before ++ after) c = Some (db', c') ->
    pool_step (db, before ++ c :: after) (db', before ++ c' :: after).

Inductive pool_steps : DB * list Call -> DB * list Call -> Prop :=
| pool_steps_refl : forall s, pool_steps s s
| pool_steps_step : forall s1 s2 s3,
    pool_step s1 s2 -> pool_steps s2 s3 -> pool_steps s1 s3.

(** The calls are all for the record [otp], with its code, before it expires;
    either nobody has consumed the record yet and at most one call holds it,
    or one call has succeeded and no call holds anything. *)
Definition racing (db0 : DB) (otp : OtpRow) (req : VerifyRequest)
    (times : list Z) (s : DB * list Call) : Prop :=
  (fst s = db0 /\
   (List.length (filter is_holding (snd s)) <= 1)%nat /\
   forall c, In c (snd s) ->
     exists now, In now times /\ (c = Pending req now \/ c = Holding otp req now))
  \/
  (fst s = with_otps (mark_used (id otp) (otps db0)) db0 /\
   List.length (filter is_success (snd s)) = 1%nat /\
   forall c, In c (snd s) ->
     c = Answered VerificationSuccessful \/ c = Answered OtpNotFound \/
     exists now, c = Pending req now).

(** ** The sequence of the test script, up to the correct code

    Two requests of "U1" for "login", two wrong codes, then the code of the
    second request. *)
Definition test_sequence : list Event :=
  [ Issue (U1_login "k1") (at_ms 0) 123456;
    Issue (U1_login "k2") (at_ms 180000) 654321;
    Verify (U1_code "000000") 240000;
    Verify (U1_code "000000") 260000;
    Verify (U1_code "654321") 280000 ].

(** ** A clock set back

    A request read at 1000 s, then three wrong codes read at 0 s: the record
    expires at 1300 s and its lock ends at 600 s. *)
Definition clock_set_back : list Event :=
  [ Issue (U1_login "k1") (at_ms 1000000) 123456;
    Verify (U1_code "000000") 0;
    Verify (U1_code "000000") 0;
    Verify (U1_code "000000") 0 ].

(** ** A key presented again after its code was used

    The request of "U1", and its code entered one second later. *)
Definition used_code_history : list Event :=
  [ Issue (U1_login "k1") (at_ms 0) 123456;
    Verify (U1_code "123456") 1000 ].

Definition used_code_db : DB := run used_code_history empty_db.

(** ** The admission contract as the specification states it

    Every call whose key the idempotency lookup does not find and which is
    below both limits has its two entries recorded and is answered the quota
    limit - count - 1. *)
Definition admitted_below_limits : Prop :=
  forall req clk rnd db,
    reachable db ->
    well_formed req ->
    select_idempotency (req_idempotency_key req) (db_now clk) db = [] ->
    count_requests (req_user_id req) (js_now clk - 900000) (user_rate_limits db)
      < 3 ->
    count_requests (req_ip req) (js_now clk - 900000) (ip_rate_limits db) < 8 ->
    exists db' resp,
      otp_request req clk rnd db = (db', Created resp) /\
      remaining_requests resp
      = 3 - count_requests (req_user_id req) (js_now clk - 900000)
                           (user_rate_limits db) - 1 /\
      user_rate_limits db'
      = user_rate_limits db ++ [mkRate (req_user_id req) (db_now clk)] /\
      ip_rate_limits db'
      = ip_rate_limits db ++ [mkRate (req_ip req) (db_now clk)].

(** ** The lockout round trip as the specification states it *)

(** A wrong code on an unconsumed, unlocked, unexpired record is counted:
    below three the call fails [InvalidCode], at three the record is locked
    for 600 s and the call fails [TooManyAttempts 600]. *)
Definition wrong_code_counts_or_locks : Prop :=
  forall req now db otp,
    reachable db ->
    well_formed_verify req ->
    select_latest_unused (vreq_user_id req) (vreq_purpose req) db = Some otp ->
    now <= expires_at otp ->
    is_locked otp = false ->
    code otp <> vreq_code req ->
    (attempt_count otp + 1 < 3 ->
     snd (otp_verify req now db) = InvalidCode (3 - (attempt_count otp + 1))) /\
    (3 <= attempt_count otp + 1 ->
     snd (otp_verify req now db) = TooManyAttempts 600 /\
     exists r, In r (otps (fst (otp_verify req now db))) /\ id r = id otp /\
               is_locked r = true /\ locked_until r = Some (now + 600000)).

(** The first wrong code after the lock has ended finds the lock cleared and
    the counter reset, and is answered with two attempts left. *)
Definition elapsed_lock_is_cleared : Prop :=
  forall t db req now otp until,
    history t db -> t <= now ->
    well_formed_verify req ->
    select_latest_unused (vreq_user_id req) (vreq_purpose req) db = Some otp ->
    is_locked otp = true -> locked_until otp = Some until -> until <= now ->
    code otp <> vreq_code req ->
    snd (otp_verify req now db) = InvalidCode 2.

(** The lockout of ("U1", "login"), a new request for the pair, and two
    wrong codes for the new record. *)
Definition relock_history : list Event :=
  reissue_history ++
  [ Verify (U1_code "000000") 5000;
    Verify (U1_code "000000") 6000 ].

(** The request of "U1" and two wrong codes. *)
Definition two_wrong_history : list Event :=
  [ Issue (U1_login "k1") (at_ms 0) 123456;
    Verify (U1_code "000000") 1000;
    Verify (U1_code "000000") 2000 ].

(** * The rest of the code: client address, housekeeping *)

(** ** getClientIP

    The three places the address is read from; a value is absent
    ([undefined]) or a string, and [a || b] keeps [a] unless it is absent or
    the empty string. *)

Record Transport := mkTransport {
  ip : option string;                 (* req.ip *)
  remoteAddress : option string;      (* req.connection.remoteAddress *)
  x_forwarded_for : option string     (* req.headers['x-forwarded-for'] *)
}.

Definition truthy (v : option string) : bool :=
  match v with
  | Some s => negb (s =? "")%string
  | None => false
  end.

Definition js_or (a b : option string) : option string :=
  if truthy a then a else b.

(** [s.split(',')[0]]: the characters before the first comma. *)
Fixpoint first_segment (s : string) : string :=
  match s with
  | EmptyString => EmptyString
  | String c rest =>
      if Ascii.eqb c ","%char then EmptyString
      else String c (first_segment rest)
  end.

Definition getClientIP (req : Transport) : option string :=
  js_or (js_or (js_or (ip req) (remoteAddress req))
               (option_map first_segment (x_forwarded_for req)))
        (Some "127.0.0.1").

Fixpoint has_char (c : ascii) (s : string) : bool :=
  match s with
  | EmptyString => false
  | String d rest => Ascii.eqb d c || has_char c rest
  end.

(** ** CleanupExpiredData (schema.sql)

    The four [DELETE] statements, [now] being the [NOW()] of the call. *)

Definition otp_is_garbage (now : Z) (r : OtpRow) : bool :=
  (expires_at r <? now)
  || (is_used r && (created_at r <? now - 24 * 60 * 60 * 1000)).

Definition rate_is_garbage (now : Z) (r : RateRow) : bool :=
  request_timestamp r <? now - 15 * 60 * 1000.

Definition key_is_garbage (now : Z) (r : IdemRow) : bool :=
  idem_expires_at r <? now.

Definition CleanupExpiredData (now : Z) (db : DB) : DB :=
  mkDB (filter (fun r => negb (otp_is_garbage now r)) (otps db))
       (otps_auto_increment db)
       (filter (fun r => negb (rate_is_garbage now r)) (user_rate_limits db))
       (filter (fun r => negb (rate_is_garbage now r)) (ip_rate_limits db))
       (filter (fun r => negb (key_is_garbage now r)) (idempotency_keys db)).

(** Histories with housekeeping. *)
Inductive Operation :=
| Handle (e : Event)
| Housekeeping (now : Z).

Definition operate (db : DB) (op : Operation) : DB :=
  match op with
  | Handle e => step db e
  | Housekeeping now => CleanupExpiredData now db
  end.

Definition maintained (db : DB) : Prop :=
  exists ops, fold_left operate ops empty_db = db.

(** ** Vocabulary of the further properties *)

(** The attempt counter of a stored record: three when locked, below three
    otherwise. *)
Definition counter_ok (r : OtpRow) : Prop :=
  if is_locked r then attempt_count r = 3 else 0 <= attempt_count r < 3.

(** The columns no statement of the handlers assigns. *)
Definition same_identity (r r' : OtpRow) : Prop :=
  id r' = id r /\ user_id r' = user_id r /\ purpose r' = purpose r /\
  code r' = code r /\ created_at r' = created_at r /\
  expires_at r' = expires_at r.

(** What a verification writes to the record it selected, and what it
    answers, when it writes at all. *)
Inductive verify_case (otp : OtpRow) (code_given : string) (now : Z)
  : (OtpRow -> OtpRow) -> VerifyResult -> Prop :=
| case_expired :
    expires_at otp < now ->
    verify_case otp code_given now set_used OtpExpired
| case_success :
    now <= expires_at otp -> lock_test otp now = NoLock ->
    code otp = code_given ->
    verify_case otp code_given now set_used VerificationSuccessful
| case_success_unlocking :
    now <= expires_at otp -> lock_test otp now = LockLapsed ->
    code otp = code_given ->
    verify_case otp code_given now (fun r => set_used (set_unlocked r))
                VerificationSuccessful
| case_wrong :
    now <= expires_at otp -> lock_test otp now = NoLock ->
    code otp <> code_given -> attempt_count otp + 1 < 3 ->
    verify_case otp code_given now (set_attempts (attempt_count otp + 1))
                (InvalidCode (3 - (attempt_count otp + 1)))
| case_wrong_locking :
    now <= expires_at otp -> lock_test otp now = NoLock ->
    code otp <> code_given -> 3 <= attempt_count otp + 1 ->
    verify_case otp code_given now
                (set_locked (attempt_count otp + 1) (now + 600000))
                (TooManyAttempts 600)
| case_wrong_unlocking :
    now <= expires_at otp -> lock_test otp now = LockLapsed ->
    code otp <> code_given ->
    verify_case otp code_given now (fun r => set_attempts 1 (set_unlocked r))
                (InvalidCode 2).

(** Entries of [key] with a timestamp in [a, b]. *)
Definition entries_between (key : string) (a b : Z) (t : list RateRow) : Z :=
  Z.of_nat (List.length
    (filter (fun r => (rate_key r =? key)%string
                      && (a <=? request_timestamp r)
                      && (request_timestamp r <=? b)) t)).

(** No key has more than [limit] entries in any span of 900 s. *)
Definition window_bounded (limit : Z) (t : list RateRow) : Prop :=
  forall key a, entries_between key a (a + 900000) t <= limit.

(** The request records its rate-limit entries at the time it counts from:
    the database clock and the JavaScript clock agree. *)
Definition synchronized (op : Operation) : Prop :=
  match op with
  | Handle (Issue _ clk _) => db_now clk = js_now clk
  | _ => True
  end.

(** The writes of a request are admitted by the keys of the schema: its
    idempotency key is not stored, every unconsumed unlocked record of its
    pair is unexpired, and if there is one then no consumed unlocked record
    of the pair is stored. *)
Definition keys_admit (req : IssueRequest) (clk : Clock) (db : DB) : Prop :=
  (forall row, In row (idempotency_keys db) ->
               idempotency_key row <> req_idempotency_key req) /\
  (forall r, In r (otps db) ->
             for_pair (req_user_id req) (req_purpose req) r = true ->
             is_used r = false -> is_locked r = false ->
             db_now clk < expires_at r) /\
  (forall r o, In r (otps db) -> In o (otps db) ->
               for_pair (req_user_id req) (req_purpose req) r = true ->
               for_pair (req_user_id req) (req_purpose req) o = true ->
               is_used r = false -> is_locked r = false ->
               is_used o = true -> is_locked o = true).

(** A record locked at [t] or before is locked until 600 s after [t] at the
    latest. *)
Definition locked_by (t : Z) (r : OtpRow) : Prop :=
  forall until, locked_until r = Some until -> until <= t + 10 * 60 * 1000.

(** [Q] holds of every stored record. *)
Definition all_rows (Q : OtpRow -> Prop) (db : DB) : Prop :=
  forall r, In r (otps db) -> Q r.

(** No entry of [t] carries a timestamp later than [now]. *)
Definition none_later (now : Z) (t : list RateRow) : Prop :=
  forall r, In r t -> request_timestamp r <= now.

(** The newest row of a table and the newest row of its part satisfying [Q],
    as the scan of [newest] proceeds: the latter is never newer, and is the
    former whenever the former satisfies [Q]. *)
Definition tracks (Q : OtpRow -> bool) (b b' : option OtpRow) : Prop :=
  match b, b' with
  | None, None => True
  | Some x, None => Q x = false
  | Some x, Some y =>
      created_at y <= created_at x /\ Q y = true /\ (Q x = true -> y = x)
  | None, Some _ => False
  end.
(** * Code generation *)

Section Decimal.

Lemma digit_char_code (d : Z) :
  0 <= d < 10 -> nat_of_ascii (digit_char d) = (48 + Z.to_nat d)%nat.
Proof.
  intros Hd. unfold digit_char. apply nat_ascii_embedding. lia.
Qed.

Lemma digit_char_is_digit (d : Z) : 0 <= d < 10 -> is_digit (digit_char d).
Proof.
  intros Hd. unfold is_digit. rewrite digit_char_code by assumption. lia.
Qed.

Lemma decimal_digits_all_digits (fuel : nat) :
  forall n acc, all_chars is_digit acc ->
                all_chars is_digit (decimal_digits fuel n acc).
Proof.
  induction fuel as [|f IH]; intros n acc Hacc; simpl; [assumption|].
  assert (Hd : is_digit (digit_char (n mod 10)))
    by (apply digit_char_is_digit, Z.mod_pos_bound; lia).
  destruct (n / 10 =? 0); [simpl; auto|].
  apply IH. simpl. auto.
Qed.

Lemma decimal_digits_length (fuel : nat) :
  forall (k : nat) n acc,
    (1 <= k)%nat -> 0 <= n < 10 ^ Z.of_nat k ->
    (String.length (decimal_digits fuel n acc) <= k + String.length acc)%nat.
Proof.
  induction fuel as [|f IH]; intros k n acc Hk Hn; simpl; [lia|].
  destruct (n / 10 =? 0) eqn:Hq; [simpl; lia|].
  apply Z.eqb_neq in Hq.
  destruct k as [|[|k']]; [lia| |].
  - exfalso. apply Hq. apply Z.div_small. simpl in Hn. lia.
  - specialize (IH (S k') (n / 10) (String (digit_char (n mod 10)) acc)).
    simpl String.length in IH.
    assert (0 <= n / 10 < 10 ^ Z.of_nat (S k')).
    { split; [apply Z.div_pos; lia|].
      apply Z.div_lt_upper_bound; [lia|].
      replace (Z.of_nat (S (S k'))) with (Z.succ (Z.of_nat (S k'))) in Hn by lia.
      rewrite Z.pow_succ_r in Hn by lia. lia. }
    specialize (IH ltac:(lia) H). lia.
Qed.

Lemma decimal_digits_value (fuel : nat) :
  forall n acc,
    0 <= n < 10 ^ Z.of_nat fuel ->
    decimal_value (decimal_digits fuel n acc)
    = n * 10 ^ Z.of_nat (String.length acc) + decimal_value acc.
Proof.
  induction fuel as [|f IH]; intros n acc Hn.
  - simpl in *. assert (n = 0) by lia. subst. reflexivity.
  - cbn [decimal_digits].
    assert (Hmod : 0 <= n mod 10 < 10) by (apply Z.mod_pos_bound; lia).
    assert (Hsplit : n = 10 * (n / 10) + n mod 10) by (apply Z.div_mod; lia).
    assert (Hhead : forall s,
               decimal_value (String (digit_char (n mod 10)) s)
               = (n mod 10) * 10 ^ Z.of_nat (String.length s) + decimal_value s).
    { intros s. cbn [decimal_value]. rewrite digit_char_code by assumption.
      f_equal. f_equal. lia. }
    destruct (n / 10 =? 0) eqn:Hq.
    + apply Z.eqb_eq in Hq. rewrite Hhead. f_equal. f_equal. lia.
    + rewrite IH.
      * rewrite Hhead. cbn [String.length].
        rewrite Nat2Z.inj_succ, Z.pow_succ_r by lia.
        set (P := 10 ^ Z.of_nat (String.length acc)). 
        rewrite Hsplit at 3. ring.
      * split; [apply Z.div_pos; lia|].
        apply Z.div_lt_upper_bound; [lia|].
        rewrite Nat2Z.inj_succ, Z.pow_succ_r in Hn by lia. lia.
Qed.

Lemma to_decimal_value (n : Z) : 0 <= n -> decimal_value (to_decimal n) = n.
Proof.
  intros Hn. unfold to_decimal. rewrite decimal_digits_value.
  - simpl. ring.
  - split; [assumption|].
    destruct (Z.eq_dec n 0) as [->|Hnz]; [reflexivity|].
    assert (Hlog : 0 <= Z.log2 n) by apply Z.log2_nonneg.
    rewrite Nat2Z.inj_succ, Z2Nat.id by assumption.
    apply Z.lt_le_trans with (2 ^ Z.succ (Z.log2 n)).
    + apply Z.log2_spec. lia.
    + apply Z.pow_le_mono_l. lia.
Qed.

Lemma pad_chars_length (k : nat) (c : ascii) (s : string) :
  String.length (pad_chars k c s) = (k + String.length s)%nat.
Proof. induction k; simpl; congruence. Qed.

Lemma pad_chars_all (P : ascii -> Prop) (k : nat) (c : ascii) (s : string) :
  P c -> all_chars P s -> all_chars P (pad_chars k c s).
Proof. intros Hc Hs. induction k; simpl; auto. Qed.

Lemma pad_zero_value (k : nat) (s : string) :
  decimal_value (pad_chars k "0"%char s) = decimal_value s.
Proof. induction k; simpl pad_chars; [reflexivity|]. cbn [decimal_value]. rewrite IHk. simpl. ring. Qed.

Lemma code_string_value (c : Z) : 0 <= c -> decimal_value (code_string c) = c.
Proof.
  intros Hc. unfold code_string, padStart.
  rewrite pad_zero_value. apply to_decimal_value. assumption.
Qed.

Lemma code_string_shape (c : Z) :
  0 <= c < 1000000 ->
  String.length (code_string c) = 6%nat /\ all_chars is_digit (code_string c).
Proof.
  intros Hc. unfold code_string, padStart. split.
  - rewrite pad_chars_length.
    pose proof (decimal_digits_length (S (Z.to_nat (Z.log2 c))) 6 c ""
                  ltac:(lia) ltac:(simpl; lia)) as Hlen.
    fold (to_decimal c) in Hlen. simpl in Hlen. lia.
  - apply pad_chars_all.
    + unfold is_digit. change (nat_of_ascii "0") with 48%nat. lia.
    + apply decimal_digits_all_digits. exact I.
Qed.

End Decimal.
Section Uniformity.

Lemma generateOTP_is_code_string (n : Z) :
  generateOTP n = code_string (n mod 1000000).
Proof. reflexivity. Qed.

Lemma generateOTP_hits_code (n c : Z) :
  0 <= c < 1000000 -> (generateOTP n = code_string c <-> n mod 1000000 = c).
Proof.
  intros Hc. rewrite generateOTP_is_code_string. split.
  - intros H. apply (f_equal decimal_value) in H.
    rewrite !code_string_value in H; [assumption|lia|].
    apply Z.mod_pos_bound. lia.
  - intros ->. reflexivity.
Qed.

Lemma draws_of_code_spec (c n : Z) :
  0 <= c < 1000000 ->
  (In n (draws_of_code c) <-> 0 <= n < 2 ^ 32 /\ generateOTP n = code_string c).
Proof.
  intros Hc. rewrite generateOTP_hits_code by assumption.
  unfold draws_of_code. rewrite in_map_iff.
  change (2 ^ 32) with 4294967296. split.
  - intros (k & <- & Hk). apply in_seq in Hk.
    rewrite Z_mod_plus_full, Z.mod_small by lia.
    unfold draw_count in Hk.
    destruct (c <? 967296) eqn:E; [apply Z.ltb_lt in E | apply Z.ltb_ge in E]; lia.
  - intros (Hn & Hmod).
    pose proof (Z.div_mod n 1000000 ltac:(lia)) as Hsplit.
    exists (Z.to_nat (n / 1000000)).
    assert (0 <= n / 1000000) by (apply Z.div_pos; lia).
    split; [rewrite Z2Nat.id by assumption; lia|].
    apply in_seq. unfold draw_count.
    destruct (c <? 967296) eqn:E; [apply Z.ltb_lt in E | apply Z.ltb_ge in E]; lia.
Qed.

Lemma draws_of_code_NoDup (c : Z) : NoDup (draws_of_code c).
Proof.
  unfold draws_of_code.
  apply Finite.Injective_map_NoDup; [|apply seq_NoDup].
  intros a b H. lia.
Qed.

Lemma draws_of_code_length (c : Z) :
  Z.of_nat (List.length (draws_of_code c)) = draw_count c.
Proof.
  unfold draws_of_code. rewrite length_map, length_seq.
  unfold draw_count. destruct (c <? 967296); lia.
Qed.

(** Two duplicate-free enumerations of the same set have the same length. *)
Lemma enumeration_length (P : Z -> Prop) (l1 l2 : list Z) :
  NoDup l1 -> NoDup l2 ->
  (forall n, In n l1 <-> P n) -> (forall n, In n l2 <-> P n) ->
  List.length l1 = List.length l2.
Proof.
  intros N1 N2 H1 H2. apply Permutation_length.
  apply NoDup_Permutation; try assumption.
  intros n. rewrite H1, H2. reflexivity.
Qed.

End Uniformity.

Lemma draws_of_code_enumerates (c : Z) :
  0 <= c < 1000000 -> enumerates_draws c (draws_of_code c).
Proof.
  intros Hc. split; [apply draws_of_code_NoDup|].
  intros n. apply draws_of_code_spec. assumption.
Qed.

Lemma enumerates_draws_length (c : Z) (l : list Z) :
  0 <= c < 1000000 -> enumerates_draws c l ->
  Z.of_nat (List.length l) = draw_count c.
Proof.
  intros Hc [Hnd Hl]. rewrite <- draws_of_code_length. f_equal.
  destruct (draws_of_code_enumerates c Hc) as [Hnd' Hl'].
  apply (enumeration_length
           (fun n => 0 <= n < 2 ^ 32 /\ generateOTP n = code_string c));
    assumption.
Qed.

(** C9, as stated, fails: code 000000 is produced by 4295 of the 2^32 draws
    and code 999999 by 4294 of them, so the codes are not equally likely. *)
Lemma C9_modulo_bias :
  enumerates_draws 0 (draws_of_code 0) /\
  Z.of_nat (List.length (draws_of_code 0)) = 4295 /\
  enumerates_draws 999999 (draws_of_code 999999) /\
  Z.of_nat (List.length (draws_of_code 999999)) = 4294 /\
  ~ generateOTP_unbiased.
Proof.
  assert (H0 : enumerates_draws 0 (draws_of_code 0))
    by (apply draws_of_code_enumerates; lia).
  assert (H9 : enumerates_draws 999999 (draws_of_code 999999))
    by (apply draws_of_code_enumerates; lia).
  split; [exact H0|]. split; [rewrite draws_of_code_length; reflexivity|].
  split; [exact H9|]. split; [rewrite draws_of_code_length; reflexivity|].
  intros [K HK].
  pose proof (HK 0 _ ltac:(lia) H0) as E0.
  pose proof (HK 999999 _ ltac:(lia) H9) as E9.
  rewrite draws_of_code_length in E0, E9. unfold draw_count in E0, E9.
  simpl in E0, E9. lia.
Qed.

(** C9, amended: [generateOTP] reduces its 32-bit draw modulo 10^6 and pads
    to six digits.  Every result is a six-character numeric string; a code
    below 967296 comes from exactly 4295 draws, any other code from exactly
    4294. *)
Theorem C9_generateOTP_distribution :
  (forall n, 0 <= n < 2 ^ 32 ->
     String.length (generateOTP n) = 6%nat /\
     all_chars is_digit (generateOTP n)) /\
  (forall c, 0 <= c < 1000000 ->
     enumerates_draws c (draws_of_code c) /\
     forall l, enumerates_draws c l ->
       Z.of_nat (List.length l) = if c <? 967296 then 4295 else 4294).
Proof.
  split.
  - intros n _. rewrite generateOTP_is_code_string.
    apply code_string_shape, Z.mod_pos_bound. lia.
  - intros c Hc. split.
    + apply draws_of_code_enumerates. assumption.
    + intros l Hl. apply enumerates_draws_length; assumption.
Qed.

(** The largest draw gives a six-character code; code 967296, the first one
    past the remainder of 2^32, has 4294 draws. *)
Lemma C9_generateOTP_distribution_witness :
  (0 <= 4294967295 < 2 ^ 32) /\
  String.length (generateOTP 4294967295) = 6%nat /\
  (0 <= 967296 < 1000000) /\
  Z.of_nat (List.length (draws_of_code 967296)) = 4294.
Proof.
  assert (Hn : 0 <= 4294967295 < 2 ^ 32) by (simpl; lia).
  assert (Hc : 0 <= 967296 < 1000000) by lia.
  split; [exact Hn|]. split.
  - exact (proj1 (proj1 C9_generateOTP_distribution 4294967295 Hn)).
  - split; [exact Hc|].
    destruct (proj2 C9_generateOTP_distribution 967296 Hc) as [He Hlen].
    exact (Hlen _ He).
Defined.
(** * Table invariants *)

Section Preservation.

Context {A B : Type} (I : DB -> Prop).

Lemma preserves_ret (a : A) : preserves I (ret a).
Proof. intros db H. exact H. Qed.

Lemma preserves_throw (e : Thrown) : preserves I (@throw A e).
Proof. intros db H. exact Logic.I. Qed.

Lemma preserves_query (q : DB -> A) : preserves I (query q).
Proof. intros db H. exact H. Qed.

Lemma preserves_bind (m : Tx A) (k : A -> Tx B) :
  preserves I m -> (forall a, preserves I (k a)) -> preserves I (bind m k).
Proof.
  intros Hm Hk db H. unfold bind. specialize (Hm db H).
  destruct (m db) as [a db'|e]; [apply Hk; assumption|exact Logic.I].
Qed.

End Preservation.

Lemma same_uk_true (a b : OtpRow) :
  same_uk a b = true <->
  user_id a = user_id b /\ purpose a = purpose b /\
  is_used a = is_used b /\ is_locked a = is_locked b.
Proof.
  unfold same_uk. rewrite !andb_true_iff, !String.eqb_eq, !Bool.eqb_true_iff.
  tauto.
Qed.

Lemma same_id_same_row (t : list OtpRow) (r1 r2 : OtpRow) :
  NoDup (map id t) -> In r1 t -> In r2 t -> id r1 = id r2 -> r1 = r2.
Proof.
  induction t as [|x t IH]; simpl; intros Hnd H1 H2 E; [contradiction|].
  inversion Hnd as [|? ? Hx Hnd']; subst.
  destruct H1 as [->|H1], H2 as [->|H2]; auto.
  - exfalso. apply Hx. rewrite E. apply in_map. assumption.
  - exfalso. apply Hx. rewrite <- E. apply in_map. assumption.
Qed.

Section Update.

Variables (i : Z) (guard : OtpRow -> bool) (set : OtpRow -> OtpRow).
Hypothesis set_id : forall r, id (set r) = id r.
Hypothesis set_lock : forall r, lock_coherent r -> lock_coherent (set r).

Local Abbreviation hit := (hits i guard).

Lemma update_otp_Some (t t' : list OtpRow) (n : nat) :
  update_otp i guard set t = Some (t', n) ->
  t' = map (fun r => if hit r then set r else r) t /\
  n = List.length (filter hit t) /\
  forall r o, In r t -> hit r = true -> In o t -> id o <> i ->
              same_uk (set r) o = false.
Proof.
  unfold update_otp.
  destruct (existsb _ t) eqn:E; [discriminate|].
  intros H. inversion H; subst. split; [reflexivity|]. split; [reflexivity|].
  intros r o Hr Hhit Ho Hne.
  rewrite <- not_true_iff_false in E. rewrite existsb_exists in E.
  destruct (same_uk (set r) o) eqn:S; [|reflexivity].
  exfalso. apply E. exists r. split; [assumption|].
  rewrite Hhit. simpl. apply existsb_exists. exists o. split; [assumption|].
  rewrite S. apply Z.eqb_neq in Hne. rewrite Hne. reflexivity.
Qed.

Lemma updated_ids (t : list OtpRow) :
  map id (map (fun r => if hit r then set r else r) t) = map id t.
Proof.
  rewrite map_map. apply map_ext. intros r. destruct (hit r); auto.
Qed.

Lemma UPDATE_otps_table_ok : preserves table_ok (UPDATE_otps i guard set).
Proof.
  intros db [Huk Hpk Hai Hlk Hik]. unfold UPDATE_otps.
  destruct (update_otp i guard set (otps db)) as [[t' n]|] eqn:E; [|exact I].
  apply update_otp_Some in E. destruct E as (-> & _ & Hclash).
  constructor; simpl.
  - intros r1' r2' H1 H2 S.
    apply in_map_iff in H1, H2.
    destruct H1 as (r1 & <- & H1), H2 as (r2 & <- & H2).
    assert (Hid : forall r, hit r = true -> id r = i).
    { intros r Hr. unfold hits in Hr. apply andb_true_iff in Hr.
      apply Z.eqb_eq, Hr. }
    destruct (hit r1) eqn:E1, (hit r2) eqn:E2.
    + rewrite !set_id, (Hid r1), (Hid r2); auto.
    + rewrite set_id. destruct (Z.eq_dec (id r2) i) as [->|Hne]; [auto|].
      rewrite (Hclash r1 r2) in S; auto. discriminate.
    + rewrite set_id. destruct (Z.eq_dec (id r1) i) as [->|Hne]; [symmetry; auto|].
      assert (S' : same_uk (set r2) r1 = true).
      { apply same_uk_true. apply same_uk_true in S. intuition congruence. }
      rewrite (Hclash r2 r1) in S'; auto. discriminate.
    + auto.
  - rewrite updated_ids. assumption.
  - intros r' Hr'. apply in_map_iff in Hr'. destruct Hr' as (r & <- & Hr).
    destruct (hit r); [rewrite set_id|]; auto.
  - intros r' Hr'. apply in_map_iff in Hr'. destruct Hr' as (r & <- & Hr).
    destruct (hit r); auto.
  - assumption.
Qed.

End Update.

Lemma INSERT_otps_table_ok (u p c : string) (e ts : Z) :
  preserves table_ok (INSERT_otps u p c e ts).
Proof.
  intros db [Huk Hpk Hai Hlk Hik]. unfold INSERT_otps, insert_otp.
  set (fresh := mkOtp _ u p c ts e false false None 0).
  destruct (existsb (same_uk fresh) (otps db)) eqn:E; [exact I|].
  rewrite <- not_true_iff_false in E. rewrite existsb_exists in E.
  constructor; simpl.
  - intros r1 r2 H1 H2 S. apply in_app_iff in H1, H2. simpl in H1, H2.
    destruct H1 as [H1|[<-|[]]], H2 as [H2|[<-|[]]]; auto.
    + exfalso. apply E. exists r1. split; [assumption|].
      apply same_uk_true. apply same_uk_true in S. intuition congruence.
    + exfalso. apply E. exists r2. split; assumption.
  - rewrite map_app. simpl. apply NoDup_app; [assumption|repeat constructor; simpl; tauto|].
    intros x Hx [<-|[]]. apply in_map_iff in Hx. destruct Hx as (r & Hr & Hin).
    specialize (Hai r Hin). lia.
  - intros r Hr. apply in_app_iff in Hr. simpl in Hr.
    destruct Hr as [Hr|[<-|[]]]; [specialize (Hai r Hr)|simpl]; lia.
  - intros r Hr. apply in_app_iff in Hr. simpl in Hr.
    destruct Hr as [Hr|[<-|[]]]; [auto|]. intros Hl. discriminate.
  - assumption.
Qed.

Lemma INSERT_user_rate_limits_table_ok (u : string) (ts : Z) :
  preserves table_ok (INSERT_user_rate_limits u ts).
Proof. intros db [Huk Hpk Hai Hlk Hik]. constructor; assumption. Qed.

Lemma INSERT_ip_rate_limits_table_ok (u : string) (ts : Z) :
  preserves table_ok (INSERT_ip_rate_limits u ts).
Proof. intros db [Huk Hpk Hai Hlk Hik]. constructor; assumption. Qed.

Lemma INSERT_idempotency_keys_table_ok (row : IdemRow) :
  preserves table_ok (INSERT_idempotency_keys row).
Proof.
  intros db [Huk Hpk Hai Hlk Hik]. unfold INSERT_idempotency_keys.
  destruct (existsb _ (idempotency_keys db)) eqn:E; [exact I|].
  rewrite <- not_true_iff_false in E. rewrite existsb_exists in E.
  constructor; simpl; try assumption.
  rewrite map_app. simpl. apply NoDup_app; [assumption|repeat constructor; simpl; tauto|].
  intros k Hk [<-|[]]. apply in_map_iff in Hk. destruct Hk as (r & Hr & Hin).
  apply E. exists r. split; [assumption|]. apply String.eqb_eq. assumption.
Qed.

(** The four rewrites of a row used by the handlers. *)
Lemma set_used_lock r : lock_coherent r -> lock_coherent (set_used r).
Proof. unfold lock_coherent. simpl. auto. Qed.

Lemma set_unlocked_lock r : lock_coherent r -> lock_coherent (set_unlocked r).
Proof. unfold lock_coherent. simpl. discriminate. Qed.

Lemma set_locked_lock n u r : lock_coherent r -> lock_coherent (set_locked n u r).
Proof. unfold lock_coherent. simpl. discriminate. Qed.

Lemma set_attempts_lock n r : lock_coherent r -> lock_coherent (set_attempts n r).
Proof. unfold lock_coherent. simpl. auto. Qed.

Create HintDb otp_inv.
#[local] Hint Resolve preserves_ret preserves_throw preserves_query
  INSERT_otps_table_ok INSERT_user_rate_limits_table_ok
  INSERT_ip_rate_limits_table_ok INSERT_idempotency_keys_table_ok
  set_used_lock set_unlocked_lock set_locked_lock set_attempts_lock : otp_inv.

Ltac preserve_step :=
  first [ apply preserves_bind; [|intros ?]
        | apply UPDATE_otps_table_ok; [reflexivity | auto with otp_inv]
        | solve [auto with otp_inv] ].

Lemma enforce_limit_table_ok limit count key since now t :
  preserves table_ok (enforce_limit limit count key since now t).
Proof.
  unfold enforce_limit.
  destruct (limit <=? count); [|auto with otp_inv].
  destruct (oldest_request key since t); auto with otp_inv.
Qed.

Lemma checkRateLimits_table_ok u ip clk :
  preserves table_ok (checkRateLimits u ip clk).
Proof.
  unfold checkRateLimits. repeat preserve_step.
  - intros db H. apply enforce_limit_table_ok. assumption.
  - intros db H. apply enforce_limit_table_ok. assumption.
Qed.

Lemma invalidate_active_otp_table_ok u p now :
  preserves table_ok (invalidate_active_otp u p now).
Proof.
  unfold invalidate_active_otp. preserve_step; [preserve_step|].
  destruct a as [|row rest]; repeat preserve_step.
Qed.

Lemma issue_table_ok req clk rnd : preserves table_ok (issue req clk rnd).
Proof.
  unfold issue. preserve_step; [preserve_step|].
  destruct a as [|row rest];
    [|preserve_step; [apply preserves_throw|preserve_step]].
  preserve_step; [apply checkRateLimits_table_ok|].
  preserve_step; [apply invalidate_active_otp_table_ok|].
  repeat preserve_step.
Qed.

Lemma check_code_table_ok otp c now : preserves table_ok (check_code otp c now).
Proof.
  unfold check_code.
  destruct (is_used otp); [preserve_step|].
  destruct (code otp =? c)%string.
  - preserve_step; [preserve_step|]. destruct (Nat.eqb a 0); preserve_step.
  - destruct (3 <=? attempt_count otp + 1); repeat preserve_step.
Qed.

Lemma verify_found_table_ok otp c now :
  preserves table_ok (verify_found otp c now).
Proof.
  unfold verify_found.
  destruct (expires_at otp <? now); [repeat preserve_step|].
  destruct (lock_test otp now); repeat preserve_step;
    apply check_code_table_ok.
Qed.

Lemma verify_table_ok req now : preserves table_ok (verify req now).
Proof.
  unfold verify. preserve_step; [preserve_step|].
  destruct a as [otp|]; [apply verify_found_table_ok|preserve_step].
Qed.

Lemma step_table_ok (db : DB) (e : Event) : table_ok db -> table_ok (step db e).
Proof.
  intros H. destruct e as [req clk rnd|req now]; simpl.
  - unfold otp_request.
    destruct (_ || _); [assumption|].
    pose proof (issue_table_ok req clk rnd db H) as P.
    destruct (issue req clk rnd db) as [r db'|[s|]]; assumption.
  - unfold otp_verify.
    destruct (_ || _); [assumption|].
    pose proof (verify_table_ok req now db H) as P.
    destruct (verify req now db) as [r db'|e]; assumption.
Qed.

Lemma empty_db_table_ok : table_ok empty_db.
Proof.
  constructor; simpl; try contradiction; constructor.
Qed.

Lemma run_table_ok (events : list Event) (db : DB) :
  table_ok db -> table_ok (run events db).
Proof.
  revert db. induction events as [|e events IH]; intros db H; simpl; [assumption|].
  apply IH, step_table_ok, H.
Qed.

Lemma reachable_table_ok (db : DB) : reachable db -> table_ok db.
Proof.
  intros [events <-]. apply run_table_ok, empty_db_table_ok.
Qed.
(** * Rate limiter *)

Lemma ceil_seconds_rounds_up (ms : Z) : rounds_up_to ms (ceil_seconds ms).
Proof.
  unfold rounds_up_to, ceil_seconds.
  pose proof (Z.div_mod (- ms) 1000 ltac:(lia)) as E.
  pose proof (Z.mod_pos_bound (- ms) 1000 ltac:(lia)) as B.
  lia.
Qed.

Lemma rounds_up_to_unique (ms q1 q2 : Z) :
  rounds_up_to ms q1 -> rounds_up_to ms q2 -> q1 = q2.
Proof. unfold rounds_up_to. lia. Qed.

Lemma fold_min_le (l : list Z) (x : Z) :
  fold_left Z.min l x <= x /\ forall y, In y l -> fold_left Z.min l x <= y.
Proof.
  revert x. induction l as [|a l IH]; intros x; simpl.
  - split; [lia|contradiction].
  - destruct (IH (Z.min x a)) as [H1 H2]. split; [lia|].
    intros y [<-|Hy]; [lia|auto].
Qed.

Lemma fold_min_in (l : list Z) (x : Z) :
  fold_left Z.min l x = x \/ In (fold_left Z.min l x) l.
Proof.
  revert x. induction l as [|a l IH]; intros x; simpl; [auto|].
  destruct (IH (Z.min x a)) as [H|H]; [|auto].
  rewrite H. destruct (Z.min_spec x a) as [[_ ->]|[_ ->]]; auto.
Qed.

Lemma in_window_true (key : string) (since : Z) (r : RateRow) :
  in_window key since r = true <->
  rate_key r = key /\ since <= request_timestamp r.
Proof.
  unfold in_window. rewrite andb_true_iff, String.eqb_eq, Z.leb_le. tauto.
Qed.

Lemma oldest_request_spec (key : string) (since : Z) (t : list RateRow) :
  0 < count_requests key since t ->
  exists ts, oldest_request key since t = Some ts /\
             oldest_in_window key since t ts.
Proof.
  unfold count_requests, oldest_request, oldest_in_window.
  intros Hpos.
  assert (Hmem : forall ts,
             In ts (map request_timestamp (filter (in_window key since) t)) <->
             exists r, In r t /\ rate_key r = key /\ since <= request_timestamp r
                       /\ request_timestamp r = ts).
  { intros ts. rewrite in_map_iff. split.
    - intros (r & E & Hr). apply filter_In in Hr. destruct Hr as [Hr W].
      apply in_window_true in W. exists r. tauto.
    - intros (r & Hr & K & S & E). exists r. split; [assumption|].
      apply filter_In. split; [assumption|]. apply in_window_true. tauto. }
  destruct (map request_timestamp (filter (in_window key since) t))
    as [|x xs] eqn:E.
  - apply (f_equal (@List.length Z)) in E. rewrite length_map in E.
    simpl in E. lia.
  - exists (fold_left Z.min xs x). split; [reflexivity|].
    destruct (fold_min_le xs x) as [Hx Hxs]. split.
    + apply Hmem. destruct (fold_min_in xs x) as [->|H]; simpl; auto.
    + intros r Hr K S.
      assert (Hin : In (request_timestamp r) (x :: xs))
        by (apply Hmem; exists r; tauto).
      destruct Hin as [<-|Hin]; auto.
Qed.

Lemma checkRateLimits_eq (u ip : string) (clk : Clock) (db : DB) :
  checkRateLimits u ip clk db =
  let now := js_now clk in
  let since := now - 15 * 60 * 1000 in
  let ucount := count_requests u since (user_rate_limits db) in
  let icount := count_requests ip since (ip_rate_limits db) in
  if 3 <=? ucount then
    match oldest_request u since (user_rate_limits db) with
    | Some ts => Raised (Rejected (ceil_seconds (ts + 15 * 60 * 1000 - now)))
    | None => Raised Fault
    end
  else if 8 <=? icount then
    match oldest_request ip since (ip_rate_limits db) with
    | Some ts => Raised (Rejected (ceil_seconds (ts + 15 * 60 * 1000 - now)))
    | None => Raised Fault
    end
  else Done (mkInfo (3 - ucount - 1) (8 - icount - 1))
            (record_request u ip (db_now clk) db).
Proof.
  unfold checkRateLimits, bind, query, enforce_limit, throw, ret. cbv zeta.
  destruct (3 <=? _); [destruct (oldest_request _ _ _); reflexivity|].
  destruct (8 <=? _); [destruct (oldest_request _ _ _); reflexivity|].
  reflexivity.
Qed.

(** The limiter either rejects and leaves the database alone, or admits and
    records exactly one entry per table. *)
Lemma checkRateLimits_Done (u ip : string) (clk : Clock) (db db1 : DB) info :
  checkRateLimits u ip clk db = Done info db1 ->
  db1 = record_request u ip (db_now clk) db /\
  info = mkInfo (3 - count_requests u (js_now clk - 15 * 60 * 1000)
                                    (user_rate_limits db) - 1)
                (8 - count_requests ip (js_now clk - 15 * 60 * 1000)
                                    (ip_rate_limits db) - 1) /\
  count_requests u (js_now clk - 15 * 60 * 1000) (user_rate_limits db) < 3 /\
  count_requests ip (js_now clk - 15 * 60 * 1000) (ip_rate_limits db) < 8.
Proof.
  rewrite checkRateLimits_eq. cbv zeta.
  destruct (3 <=? _) eqn:E3; [destruct (oldest_request _ _ _); discriminate|].
  destruct (8 <=? _) eqn:E8; [destruct (oldest_request _ _ _); discriminate|].
  intros H. inversion H; subst. apply Z.leb_gt in E3, E8. auto.
Qed.
(** * The request handler, case by case *)

Lemma missing_false (s : string) : s <> "" -> missing s = false.
Proof. intros H. unfold missing. apply String.eqb_neq. assumption. Qed.

Lemma otp_request_well_formed req clk rnd db :
  well_formed req ->
  otp_request req clk rnd db =
  match issue req clk rnd db with
  | Done r db' => (db', r)
  | Raised (Rejected s) => (db, RateLimited s)
  | Raised Fault => (db, IssueInternalError)
  end.
Proof.
  intros (Hu & Hp & Hk). unfold otp_request.
  rewrite !missing_false by assumption. reflexivity.
Qed.

(** A key that the lookup finds: the handler commits, then [JSON.parse]
    throws. *)
Lemma issue_replay req clk rnd db row rest :
  select_idempotency (req_idempotency_key req) (db_now clk) db = row :: rest ->
  issue req clk rnd db = Raised Fault.
Proof.
  intros H. unfold issue, bind, query. rewrite H. reflexivity.
Qed.

Lemma invalidate_active_otp_Done u p now db db2 :
  invalidate_active_otp u p now db = Done tt db2 ->
  match select_active_otp u p now db with
  | row :: _ =>
      existsb (fun r => hits (id row) any_row r
                        && existsb (fun o => negb (id o =? id row)
                                             && same_uk (set_used r) o) (otps db))
              (otps db) = false /\
      db2 = with_otps (mark_used (id row) (otps db)) db
  | [] => db2 = db
  end.
Proof.
  unfold invalidate_active_otp, bind, query, ret.
  destruct (select_active_otp u p now db) as [|row rest].
  - intros H. inversion H. reflexivity.
  - unfold UPDATE_otps, update_otp.
    destruct (existsb _ (otps db)) eqn:E; [discriminate|].
    intros H. inversion H. split; [reflexivity|].
    unfold mark_used, rewrite_row. f_equal. apply map_ext. intros r.
    unfold hits, any_row. rewrite andb_true_r. reflexivity.
Qed.

Lemma issue_Created req clk rnd db db' resp :
  issue req clk rnd db = Done (Created resp) db' ->
  select_idempotency (req_idempotency_key req) (db_now clk) db = [] /\
  exists info db1 db2,
    checkRateLimits (req_user_id req) (req_ip req) clk db = Done info db1 /\
    invalidate_active_otp (req_user_id req) (req_purpose req) (db_now clk) db1
      = Done tt db2 /\
    existsb (same_uk (issued_row req clk rnd (otps_auto_increment db2)))
            (otps db2) = false /\
    existsb (fun r => (idempotency_key r =? req_idempotency_key req)%string)
            (idempotency_keys db2) = false /\
    resp = issued_response (otps_auto_increment db2) (user_remaining info) /\
    db' = mkDB (otps db2 ++ [issued_row req clk rnd (otps_auto_increment db2)])
               (otps_auto_increment db2 + 1)
               (user_rate_limits db2) (ip_rate_limits db2)
               (idempotency_keys db2 ++ [issued_key req clk resp]).
Proof.
  unfold issue, bind, query.
  destruct (select_idempotency _ _ db) as [|row rest]; [|discriminate].
  destruct (checkRateLimits _ _ clk db) as [info db1|e] eqn:EC; [|discriminate].
  destruct (invalidate_active_otp _ _ _ db1) as [[] db2|e] eqn:EI; [|discriminate].
  unfold INSERT_otps, insert_otp. fold (issued_row req clk rnd (otps_auto_increment db2)).
  destruct (existsb (same_uk _) (otps db2)) eqn:E1; [discriminate|].
  unfold INSERT_idempotency_keys. cbn [idempotency_keys idempotency_key].
  destruct (existsb _ (idempotency_keys db2)) eqn:E2; [discriminate|].
  unfold ret. intros H. inversion H; subst.
  split; [reflexivity|]. exists info, db1, db2.
  split; [reflexivity|]. split; [assumption|]. split; [assumption|].
  split; [assumption|]. split; reflexivity.
Qed.

(** Any failure, and any rejection, leaves the database as it was. *)
Lemma otp_request_unchanged_unless_created req clk rnd db db' r :
  otp_request req clk rnd db = (db', r) ->
  (forall resp, r <> Created resp) -> db' = db.
Proof.
  unfold otp_request. destruct (_ || _).
  - intros H _. inversion H. reflexivity.
  - unfold issue, bind, query.
    destruct (select_idempotency _ _ db) as [|row rest].
    + destruct (checkRateLimits _ _ clk db) as [info db1|[s|]];
        try (intros H _; inversion H; reflexivity).
      destruct (invalidate_active_otp _ _ _ db1) as [[] db2|[s|]];
        try (intros H _; inversion H; reflexivity).
      destruct (INSERT_otps _ _ _ _ _ db2) as [i db3|[s|]];
        try (intros H _; inversion H; reflexivity).
      destruct (INSERT_idempotency_keys _ db3) as [[] db4|[s|]];
        try (intros H _; inversion H; reflexivity).
      unfold ret. intros H Hn. inversion H; subst. exfalso. eapply Hn. reflexivity.
    + unfold ret. intros H _. inversion H. reflexivity.
Qed.
(** * Claims on issuance *)

Lemma filter_absent_key (t : list IdemRow) (k : string) (P : IdemRow -> bool) :
  ~ In k (map idempotency_key t) ->
  filter (fun r => (idempotency_key r =? k)%string && P r) t = [].
Proof.
  induction t as [|x t IH]; simpl; intros Hk; [reflexivity|].
  destruct (idempotency_key x =? k)%string eqn:E.
  - exfalso. apply Hk. apply String.eqb_eq in E. auto.
  - simpl. apply IH. intros H. apply Hk. auto.
Qed.

Lemma filter_unique_key (t : list IdemRow) (row : IdemRow) (P : IdemRow -> bool) :
  NoDup (map idempotency_key t) -> In row t -> P row = true ->
  filter (fun r => (idempotency_key r =? idempotency_key row)%string && P r) t
  = [row].
Proof.
  induction t as [|x t IH]; simpl; intros Hnd Hin HP; [contradiction|].
  inversion Hnd as [|? ? Hx Hnd']; subst.
  destruct Hin as [->|Hin].
  - rewrite String.eqb_refl, HP. simpl. f_equal.
    apply filter_absent_key. assumption.
  - destruct (idempotency_key x =? idempotency_key row)%string eqn:E.
    + exfalso. apply Hx. apply String.eqb_eq in E. rewrite E.
      apply in_map. assumption.
    + simpl. apply IH; assumption.
Qed.

Lemma select_idempotency_finds (key : string) (now : Z) (db : DB) (row : IdemRow) :
  In row (idempotency_keys db) ->
  idempotency_key row = key ->
  now < idem_expires_at row ->
  exists first rest, select_idempotency key now db = first :: rest.
Proof.
  intros Hin Hkey Hlive.
  assert (H : In row (select_idempotency key now db)).
  { unfold select_idempotency. apply filter_In. split; [assumption|].
    apply andb_true_iff. split; [apply String.eqb_eq|apply Z.ltb_lt]; assumption. }
  destruct (select_idempotency key now db) as [|first rest];
    [contradiction|eauto].
Qed.

Lemma otp_request_never_replays req clk rnd db resp :
  snd (otp_request req clk rnd db) <> Replayed resp.
Proof.
  unfold otp_request. destruct (_ || _); [discriminate|].
  unfold issue, bind, query.
  destruct (select_idempotency _ _ db) as [|row rest]; [|discriminate].
  destruct (checkRateLimits _ _ clk db) as [info db1|[s|]]; try discriminate.
  destruct (invalidate_active_otp _ _ _ db1) as [[] db2|[s|]]; try discriminate.
  destruct (INSERT_otps _ _ _ _ _ db2) as [i db3|[s|]]; try discriminate.
  destruct (INSERT_idempotency_keys _ db3) as [[] db4|[s|]]; discriminate.
Qed.

(** C6 at its failing input: the request of "U1" is served at time 0 and
    repeated with the same key one second later; the lookup finds the stored
    record, and the answer is an internal error, not the stored payload.
    In general a request with the three fields whose key has a stored record
    with [expires_at > NOW()] is answered an internal error, whatever its
    user and purpose, and the database is left as it was: no OTP record, no
    invalidation, no rate-limit entry.  No request is ever answered from the
    stored payload. *)
Theorem C6_replay_answers_internal_error :
  (transcript [ Issue (U1_login "k1") (at_ms 0) 123456;
                Issue (U1_login "k1") (at_ms 1000) 42 ] empty_db
   = [ ToIssue (Created (mkResponse "1" 300 2));
       ToIssue IssueInternalError ] /\
   select_idempotency "k1" 1000 first_issue_db
   = [ mkIdem "k1" "U1" "login" (mkResponse "1" 300 2) 0 600000 ]) /\
  (forall req clk rnd db row,
     well_formed req ->
     In row (idempotency_keys db) ->
     idempotency_key row = req_idempotency_key req ->
     db_now clk < idem_expires_at row ->
     otp_request req clk rnd db = (db, IssueInternalError)) /\
  (forall req clk rnd db resp,
     snd (otp_request req clk rnd db) <> Replayed resp).
Proof.
  split; [split; vm_compute; reflexivity|]. split.
  - intros req clk rnd db row Hwf Hin Hkey Hlive.
    rewrite otp_request_well_formed by assumption.
    destruct (select_idempotency_finds _ _ _ _ Hin Hkey Hlive)
      as (first & rest & Hsel).
    rewrite (issue_replay req clk rnd db first rest Hsel). reflexivity.
  - intros req clk rnd db resp. apply otp_request_never_replays.
Qed.

(** The request of "U1" repeated with its key just before the key expires. *)
Lemma C6_replay_answers_internal_error_witness :
  otp_request (U1_login "k1") (at_ms 599999) 42 first_issue_db
  = (first_issue_db, IssueInternalError).
Proof.
  apply (proj1 (proj2 C6_replay_answers_internal_error)
           (U1_login "k1") (at_ms 599999) 42 first_issue_db
           (mkIdem "k1" "U1" "login" (mkResponse "1" 300 2) 0 600000)).
  - repeat split; discriminate.
  - left. reflexivity.
  - reflexivity.
  - reflexivity.
Defined.

(** A key that is stored but no longer answered by the lookup makes the
    recording fail: the request is never served and nothing is written. *)
Lemma stale_key_blocks_issuance
    (req : IssueRequest) (clk : Clock) (rnd : Z) (db : DB) (row : IdemRow) :
  In row (idempotency_keys db) ->
  idempotency_key row = req_idempotency_key req ->
  select_idempotency (req_idempotency_key req) (db_now clk) db = [] ->
  fst (otp_request req clk rnd db) = db /\
  forall resp, snd (otp_request req clk rnd db) <> Created resp /\
               snd (otp_request req clk rnd db) <> Replayed resp.
Proof.
  intros Hin Hkey Hmiss.
  destruct (otp_request req clk rnd db) as [db' r] eqn:E. simpl.
  assert (Hnc : forall resp, r <> Created resp).
  { intros resp ->. unfold otp_request in E.
    destruct (_ || _); [discriminate|].
    destruct (issue req clk rnd db) as [r dbx|[s|]] eqn:Ei; inversion E; subst.
    apply issue_Created in Ei.
    destruct Ei as (_ & info & db1 & db2 & Hck & Hinv & _ & Hk & _ & _).
    apply checkRateLimits_Done in Hck. destruct Hck as (-> & _).
    apply invalidate_active_otp_Done in Hinv.
    assert (Hsame : idempotency_keys db2 = idempotency_keys db).
    { destruct (select_active_otp _ _ _ _) as [|x rest];
        [subst db2|destruct Hinv as [_ ->]]; reflexivity. }
    rewrite Hsame in Hk.
    rewrite <- not_true_iff_false in Hk. apply Hk.
    apply existsb_exists. exists row. split; [assumption|].
    apply String.eqb_eq. assumption. }
  split.
  - eapply otp_request_unchanged_unless_created; eassumption.
  - intros resp. split; [apply Hnc|].
    intros ->. unfold otp_request in E.
    destruct (_ || _); [discriminate|].
    unfold issue, bind, query in E. rewrite Hmiss in E.
    destruct (checkRateLimits _ _ clk db) as [info db1|[s|]]; try discriminate.
    destruct (invalidate_active_otp _ _ _ db1) as [[] db2|[s|]]; try discriminate.
    destruct (INSERT_otps _ _ _ _ _ db2) as [i db3|[s|]]; try discriminate.
    destruct (INSERT_idempotency_keys _ db3) as [[] db4|[s|]]; discriminate.
Qed.

Lemma filter_expired_key (t : list IdemRow) (row : IdemRow) (P : IdemRow -> bool) :
  NoDup (map idempotency_key t) -> In row t -> P row = false ->
  filter (fun r => (idempotency_key r =? idempotency_key row)%string && P r) t
  = [].
Proof.
  induction t as [|x t IH]; simpl; intros Hnd Hin HP; [reflexivity|].
  inversion Hnd as [|? ? Hx Hnd']; subst.
  destruct Hin as [->|Hin].
  - rewrite String.eqb_refl, HP. simpl.
    apply filter_absent_key. assumption.
  - destruct (idempotency_key x =? idempotency_key row)%string eqn:E.
    + exfalso. apply Hx. apply String.eqb_eq in E. rewrite E.
      apply in_map. assumption.
    + simpl. apply IH; assumption.
Qed.

(** C8 at its failing input: the key "k1" was recorded at time 0 with the
    request of "U1", whose code was then used; the key expired at 600 s.  The
    same request at 601 s is not answered from the stored key, passes the
    limiter, supersedes nothing and inserts its OTP record; the recording of
    its key then fails on the stored, expired key: internal error, nothing
    written.  With a key that is not stored the same request is served.
    In general, in every reachable state, a request whose key is stored and
    has expired is neither served nor answered from the stored payload, and
    writes nothing. *)
Theorem C8_expired_key_blocks_recording :
  (transcript used_code_history empty_db
   = [ ToIssue (Created (mkResponse "1" 300 2));
       ToVerify VerificationSuccessful ] /\
   select_idempotency "k1" 601000 used_code_db = [] /\
   checkRateLimits "U1" "1.1.1.1" (at_ms 601000) used_code_db
   = Done (mkInfo 1 6) (record_request "U1" "1.1.1.1" 601000 used_code_db) /\
   invalidate_active_otp "U1" "login" 601000
     (record_request "U1" "1.1.1.1" 601000 used_code_db)
   = Done tt (record_request "U1" "1.1.1.1" 601000 used_code_db) /\
   (exists db3,
       INSERT_otps "U1" "login" (generateOTP 654321) 901000 601000
         (record_request "U1" "1.1.1.1" 601000 used_code_db)
       = Done 2 db3 /\
       INSERT_idempotency_keys
         (mkIdem "k1" "U1" "login" (mkResponse "2" 300 1) 601000 1201000) db3
       = Raised Fault) /\
   otp_request (U1_login "k1") (at_ms 601000) 654321 used_code_db
   = (used_code_db, IssueInternalError) /\
   snd (otp_request (U1_login "k2") (at_ms 601000) 654321 used_code_db)
   = Created (mkResponse "2" 300 1)) /\
  (forall req clk rnd db row,
     reachable db ->
     In row (idempotency_keys db) ->
     idempotency_key row = req_idempotency_key req ->
     idem_expires_at row <= db_now clk ->
     fst (otp_request req clk rnd db) = db /\
     forall resp, snd (otp_request req clk rnd db) <> Created resp /\
                  snd (otp_request req clk rnd db) <> Replayed resp).
Proof.
  split.
  { split; [vm_compute; reflexivity|]. split; [vm_compute; reflexivity|].
    split; [vm_compute; reflexivity|]. split; [vm_compute; reflexivity|].
    split.
    { eexists. split; [reflexivity|]. vm_compute. reflexivity. }
    split; vm_compute; reflexivity. }
  intros req clk rnd db row Hr Hin Hkey Hexp.
  apply (stale_key_blocks_issuance req clk rnd db row); try assumption.
  apply reachable_table_ok in Hr. destruct Hr as [_ _ _ _ Hpk].
  unfold select_idempotency. rewrite <- Hkey.
  apply (filter_expired_key _ row (fun r => db_now clk <? idem_expires_at r));
    try assumption.
  apply Z.ltb_ge. assumption.
Qed.

(** The request of "U1" repeated one second after its key expired, its code
    having been used. *)
Lemma C8_expired_key_blocks_recording_witness :
  fst (otp_request (U1_login "k1") (at_ms 601000) 654321 used_code_db)
  = used_code_db /\
  forall resp,
    snd (otp_request (U1_login "k1") (at_ms 601000) 654321 used_code_db)
      <> Created resp /\
    snd (otp_request (U1_login "k1") (at_ms 601000) 654321 used_code_db)
      <> Replayed resp.
Proof.
  apply (proj2 C8_expired_key_blocks_recording
           (U1_login "k1") (at_ms 601000) 654321 used_code_db
           (mkIdem "k1" "U1" "login" (mkResponse "1" 300 2) 0 600000)).
  - exists used_code_history. reflexivity.
  - left. reflexivity.
  - reflexivity.
  - simpl. lia.
Defined.

Lemma select_active_otp_In (u p : string) (now : Z) (db : DB) (r : OtpRow) :
  In r (select_active_otp u p now db) <->
  In r (otps db) /\ user_id r = u /\ purpose r = p /\ is_used r = false /\
  is_locked r = false /\ now < expires_at r.
Proof.
  unfold select_active_otp, for_pair. rewrite filter_In.
  rewrite !andb_true_iff, !negb_true_iff, !String.eqb_eq, Z.ltb_lt. tauto.
Qed.

(** C3, as stated, fails: after three wrong codes the record of ("U1",
    "login") is locked and unconsumed; the next request for the pair succeeds
    and the locked record is still stored, unconsumed, next to the new one. *)
Lemma C3_locked_record_not_superseded :
  otp_request (U1_login "k2") (at_ms 4000) 654321 (run lockout_history empty_db)
    = (run reissue_history empty_db, Created (mkResponse "2" 300 1)) /\
  otps (run lockout_history empty_db) = [locked_record] /\
  otps (run reissue_history empty_db) = [locked_record; second_record] /\
  ~ issue_supersedes_every_unused.
Proof.
  assert (E : otp_request (U1_login "k2") (at_ms 4000) 654321
                          (run lockout_history empty_db)
              = (run reissue_history empty_db, Created (mkResponse "2" 300 1)))
    by (vm_compute; reflexivity).
  assert (E1 : otps (run lockout_history empty_db) = [locked_record])
    by (vm_compute; reflexivity).
  assert (E2 : otps (run reissue_history empty_db)
               = [locked_record; second_record])
    by (vm_compute; reflexivity).
  split; [exact E|]. split; [exact E1|]. split; [exact E2|].
  intros H.
  assert (Hused : is_used locked_record = true).
  { apply (H _ _ _ _ _ _ locked_record
             (ex_intro _ lockout_history eq_refl) E).
    - rewrite E1. left. reflexivity.
    - reflexivity.
    - reflexivity.
    - reflexivity.
    - rewrite E2. left. reflexivity.
    - reflexivity. }
  discriminate Hused.
Qed.

(** C3, amended: a successful request marks used the record of its pair that
    is unconsumed, unlocked and unexpired; the rest of the table is kept and
    the new record is appended. *)
Theorem C3_issue_supersedes_active_record
    (req : IssueRequest) (clk : Clock) (rnd : Z) (db db' : DB)
    (resp : Response) (r : OtpRow) :
  reachable db ->
  otp_request req clk rnd db = (db', Created resp) ->
  In r (otps db) ->
  active_for req clk r ->
  (forall r', In r' (otps db') -> id r' = id r -> is_used r' = true) /\
  otps db' = mark_used (id r) (otps db)
             ++ [issued_row req clk rnd (otps_auto_increment db)].
Proof.
  intros Hr Hc Hin (Hu & Hp & Hused & Hlocked & Hlive).
  apply reachable_table_ok in Hr. destruct Hr as [Huk Hpk Hai _ _].
  unfold otp_request in Hc. destruct (_ || _); [discriminate|].
  destruct (issue req clk rnd db) as [x dbx|[s|]] eqn:Ei; inversion Hc; subst.
  apply issue_Created in Ei.
  destruct Ei as (_ & info & db1 & db2 & Hck & Hinv & Hfresh & _ & _ & ->).
  apply checkRateLimits_Done in Hck. destruct Hck as (-> & _).
  apply invalidate_active_otp_Done in Hinv.
  assert (Hsel : In r (select_active_otp (req_user_id req) (req_purpose req)
                         (db_now clk)
                         (record_request (req_user_id req) (req_ip req)
                                         (db_now clk) db)))
    by (apply select_active_otp_In; simpl; tauto).
  destruct (select_active_otp _ _ _ _) as [|row rest]; [contradiction|].
  destruct Hinv as [_ ->]. simpl in Hfresh |- *.
  assert (Hrow : id row = id r).
  { destruct (Z.eq_dec (id row) (id r)) as [e|ne]; [exact e|exfalso].
    rewrite <- not_true_iff_false in Hfresh. apply Hfresh.
    apply existsb_exists. exists r. split.
    - unfold mark_used, rewrite_row. apply in_map_iff. exists r.
      split; [|assumption].
      destruct (id r =? id row) eqn:E; [apply Z.eqb_eq in E; congruence|reflexivity].
    - apply same_uk_true. simpl. auto. }
  rewrite Hrow. split; [|reflexivity].
  intros r' Hr' Hid. apply in_app_iff in Hr'. destruct Hr' as [Hr'|[<-|[]]].
  - unfold mark_used, rewrite_row in Hr'. apply in_map_iff in Hr'.
    destruct Hr' as (x & <- & Hx).
    destruct (id x =? id r) eqn:E; [reflexivity|].
    apply Z.eqb_neq in E. contradiction.
  - simpl in Hid. specialize (Hai r Hin). lia.
Qed.

(** A second request of "U1" for "login" at 180 s supersedes the record of
    the first. *)
Lemma C3_issue_supersedes_active_record_witness :
  (forall r', In r' (otps (run [Issue (U1_login "k1") (at_ms 0) 123456;
                                Issue (U1_login "k2") (at_ms 180000) 654321]
                               empty_db)) ->
              id r' = 1 -> is_used r' = true) /\
  otps (run [Issue (U1_login "k1") (at_ms 0) 123456;
             Issue (U1_login "k2") (at_ms 180000) 654321] empty_db)
  = mark_used 1 (otps first_issue_db)
    ++ [issued_row (U1_login "k2") (at_ms 180000) 654321 2].
Proof.
  apply (C3_issue_supersedes_active_record
           (U1_login "k2") (at_ms 180000) 654321 first_issue_db _
           (mkResponse "2" 300 1)
           (mkOtp 1 "U1" "login" "123456" 0 300000 false false None 0)).
  - exists [Issue (U1_login "k1") (at_ms 0) 123456]. reflexivity.
  - vm_compute. reflexivity.
  - vm_compute. left. reflexivity.
  - vm_compute. repeat split.
Defined.

(** * Claims on the stored records *)

(** C1, as stated, fails: the history "request, three wrong codes, request"
    ends with two unconsumed records for ("U1", "login"), the locked one and
    the new one. *)
Lemma C1_two_unused_records_reachable :
  reachable (run reissue_history empty_db) /\
  otps (run reissue_history empty_db) = [locked_record; second_record] /\
  ~ single_unused (run reissue_history empty_db).
Proof.
  assert (E : otps (run reissue_history empty_db)
              = [locked_record; second_record])
    by (vm_compute; reflexivity).
  split; [exists reissue_history; reflexivity|]. split; [exact E|].
  intros H.
  assert (Hsame : locked_record = second_record).
  { apply (H locked_record second_record);
      [ rewrite E; left; reflexivity
      | rewrite E; right; left; reflexivity
      | reflexivity .. ]. }
  discriminate Hsame.
Qed.

(** C1, amended: in every state reachable by requests and verifications, a
    pair has at most one unconsumed unlocked record and at most one
    unconsumed locked record. *)
Theorem C1_single_active_invariant (db : DB) :
  reachable db -> single_active db.
Proof.
  intros Hr. apply reachable_table_ok in Hr. destruct Hr as [Huk Hpk _ _ _].
  intros r1 r2 H1 H2 Hu Hp U1 U2 Hl.
  apply (same_id_same_row (otps db)); try assumption.
  apply Huk; try assumption.
  apply same_uk_true. repeat split; congruence.
Qed.

(** The state with a locked and a fresh record satisfies it. *)
Lemma C1_single_active_invariant_witness :
  single_active (run reissue_history empty_db).
Proof.
  apply C1_single_active_invariant. exists reissue_history. reflexivity.
Defined.

(** C10: every stored record that is locked carries the end of its lock, in
    every reachable state; and a locked record without one would pass the
    lock test as if it were not locked. *)
Theorem C10_lock_fields_coherent :
  (forall db r, reachable db -> In r (otps db) ->
                is_locked r = true -> locked_until r <> None) /\
  (forall otp now, is_locked otp = true -> locked_until otp = None ->
                   lock_test otp now = NoLock /\
                   forall c, ~ (expires_at otp < now) ->
                             verify_found otp c now = check_code otp c now).
Proof.
  split.
  - intros db r Hr Hin. apply reachable_table_ok in Hr.
    apply (ok_lock db Hr r Hin).
  - intros otp now Hl Hn.
    assert (G : lock_test otp now = NoLock)
      by (unfold lock_test; rewrite Hl, Hn; reflexivity).
    split; [exact G|].
    intros c Hlive. unfold verify_found. rewrite G.
    destruct (expires_at otp <? now) eqn:E; [|reflexivity].
    apply Z.ltb_lt in E. contradiction.
Qed.

(** The record locked by three wrong codes carries its lock end; the same
    record without one would pass the lock test. *)
Lemma C10_lock_fields_coherent_witness :
  locked_until locked_record <> None /\
  lock_test (mkOtp 1 "U1" "login" "123456" 0 300000 false true None 3) 4000
  = NoLock.
Proof.
  split.
  - apply (proj1 C10_lock_fields_coherent (run lockout_history empty_db)).
    + exists lockout_history. reflexivity.
    + vm_compute. left. reflexivity.
    + reflexivity.
  - apply (proj2 C10_lock_fields_coherent); reflexivity.
Defined.
(** * The verification handler, case by case *)

Lemma newest_from (rows : list OtpRow) (b : option OtpRow) (r : OtpRow) :
  fold_left (fun best x =>
               match best with
               | None => Some x
               | Some b => if created_at b <? created_at x then Some x else Some b
               end) rows b = Some r ->
  b = Some r \/ In r rows.
Proof.
  revert b. induction rows as [|x rows IH]; simpl; intros b H; [auto|].
  apply IH in H. destruct H as [H|H]; [|auto].
  destruct b as [b|].
  - destruct (created_at b <? created_at x); inversion H; subst; auto.
  - inversion H; subst; auto.
Qed.

Lemma newest_In (rows : list OtpRow) (r : OtpRow) :
  newest rows = Some r -> In r rows.
Proof.
  intros H. apply newest_from in H. destruct H as [H|H]; [discriminate|assumption].
Qed.

Lemma newest_None (rows : list OtpRow) : newest rows = None -> rows = [].
Proof.
  destruct rows as [|x rows]; [reflexivity|].
  unfold newest. simpl. intros H. exfalso.
  assert (G : forall l b, fold_left (fun best x =>
               match best with
               | None => Some x
               | Some b => if created_at b <? created_at x then Some x else Some b
               end) l (Some b) <> None).
  { induction l as [|y l IHl]; simpl; intros b; [discriminate|].
    destruct (created_at b <? created_at y); apply IHl. }
  exact (G _ _ H).
Qed.

Lemma select_latest_unused_Some (u p : string) (db : DB) (otp : OtpRow) :
  select_latest_unused u p db = Some otp ->
  In otp (otps db) /\ for_pair u p otp = true /\ is_used otp = false.
Proof.
  unfold select_latest_unused. intros H. apply newest_In in H.
  apply filter_In in H. destruct H as [Hin H].
  apply andb_true_iff in H. destruct H as [Hp Hu].
  apply negb_true_iff in Hu. auto.
Qed.

Lemma select_latest_unused_None (u p : string) (db : DB) :
  (forall r, In r (otps db) -> for_pair u p r = true -> is_used r = true) ->
  select_latest_unused u p db = None.
Proof.
  intros H. unfold select_latest_unused.
  replace (filter _ (otps db)) with (@nil OtpRow); [reflexivity|].
  symmetry. induction (otps db) as [|x t IH]; [reflexivity|]. simpl.
  destruct (for_pair u p x) eqn:E; simpl.
  - rewrite (H x (or_introl eq_refl) E). simpl. apply IH.
    intros r Hr. apply H. right. assumption.
  - apply IH. intros r Hr. apply H. right. assumption.
Qed.

Lemma select_only_unused (u p : string) (db : DB) (otp otp' : OtpRow) :
  only_unused u p otp db ->
  select_latest_unused u p db = Some otp' -> otp' = otp.
Proof.
  intros Ho H. apply select_latest_unused_Some in H.
  destruct H as (Hin & Hp & Hu). apply Ho; assumption.
Qed.

Lemma otp_verify_well_formed req now db :
  well_formed_verify req ->
  otp_verify req now db =
  match verify req now db with
  | Done r db' => (db', r)
  | Raised _ => (db, VerifyInternalError)
  end.
Proof.
  intros (Hu & Hp & Hc). unfold otp_verify.
  rewrite !missing_false by assumption. reflexivity.
Qed.

Lemma verify_selected req now db otp :
  select_latest_unused (vreq_user_id req) (vreq_purpose req) db = Some otp ->
  verify req now db = verify_found otp (vreq_code req) now db.
Proof. intros H. unfold verify, bind, query. rewrite H. reflexivity. Qed.

Lemma verify_nothing_selected req now db :
  select_latest_unused (vreq_user_id req) (vreq_purpose req) db = None ->
  verify req now db = Done OtpNotFound db.
Proof. intros H. unfold verify, bind, query. rewrite H. reflexivity. Qed.

Lemma no_row_hit (t : list OtpRow) (i : Z) :
  ~ In i (map id t) -> filter (hits i any_row) t = [].
Proof.
  induction t as [|y t IH]; simpl; intros Hi; [reflexivity|].
  unfold hits at 1, any_row. rewrite andb_true_r.
  destruct (id y =? i) eqn:Ey.
  - exfalso. apply Hi. apply Z.eqb_eq in Ey. auto.
  - apply IH. intros Hc. apply Hi. auto.
Qed.

Lemma one_row_hit (t : list OtpRow) (otp : OtpRow) :
  NoDup (map id t) -> In otp t ->
  List.length (filter (hits (id otp) any_row) t) = 1%nat.
Proof.
  induction t as [|x t IH]; simpl; intros Hpk Hin; [contradiction|].
  inversion Hpk as [|? ? Hx Hnd]; subst.
  unfold hits at 1, any_row. rewrite andb_true_r.
  destruct Hin as [->|Hin].
  - rewrite Z.eqb_refl. simpl. rewrite no_row_hit by assumption. reflexivity.
  - destruct (id x =? id otp) eqn:Ex.
    + exfalso. apply Hx. apply Z.eqb_eq in Ex. rewrite Ex.
      apply in_map. assumption.
    + apply IH; assumption.
Qed.

(** An update by id alone is accepted when the key of the rewritten row is
    free. *)
Lemma update_otp_accepted (otp : OtpRow) (set : OtpRow -> OtpRow) (db : DB) :
  table_ok db -> In otp (otps db) ->
  key_free (set otp) db -> id (set otp) = id otp ->
  UPDATE_otps (id otp) any_row set db
  = Done 1%nat (with_otps (rewrite_row (id otp) set (otps db)) db).
Proof.
  intros [_ Hpk _ _ _] Hin Hfree Hid. unfold UPDATE_otps, update_otp.
  assert (Hhit : forall r, In r (otps db) -> hits (id otp) any_row r = true ->
                           r = otp).
  { intros r Hr Hh. unfold hits, any_row in Hh. rewrite andb_true_r in Hh.
    apply Z.eqb_eq in Hh. apply (same_id_same_row (otps db)); assumption. }
  destruct (existsb _ (otps db)) eqn:E.
  - exfalso. apply existsb_exists in E. destruct E as (r & Hr & Hc).
    apply andb_true_iff in Hc. destruct Hc as [Hh Hc].
    apply Hhit in Hh; [subst r|assumption].
    apply existsb_exists in Hc. destruct Hc as (o & Ho & Hc).
    apply andb_true_iff in Hc. destruct Hc as [Hne Hs].
    apply negb_true_iff, Z.eqb_neq in Hne.
    rewrite Hfree in Hs; [discriminate|assumption|congruence].
  - rewrite one_row_hit by assumption. f_equal.
    unfold with_otps, rewrite_row. f_equal. apply map_ext. intros r.
    unfold hits, any_row. rewrite andb_true_r. reflexivity.
Qed.

Lemma existsb_agree {A : Type} (f g : A -> bool) (l : list A) :
  (forall x, In x l -> f x = g x) -> existsb f l = existsb g l.
Proof.
  induction l as [|x l IH]; simpl; intros H; [reflexivity|].
  rewrite (H x) by auto. rewrite IH; [reflexivity|]. intros y Hy. apply H. auto.
Qed.

Lemma existsb_never {A : Type} (l : list A) : existsb (fun _ => false) l = false.
Proof. induction l; simpl; auto. Qed.

Lemma filter_never {A : Type} (l : list A) : filter (fun _ => false) l = [].
Proof. induction l; simpl; auto. Qed.

Lemma with_otps_same (db : DB) : with_otps (otps db) db = db.
Proof. destruct db. reflexivity. Qed.

(** The guarded update of the success path: one row when the stored row is
    still unconsumed, none when it has been consumed meanwhile. *)
Lemma mark_used_if_unused (otp : OtpRow) (db : DB) :
  table_ok db -> In otp (otps db) -> is_used otp = false ->
  key_free (set_used otp) db ->
  UPDATE_otps (id otp) still_unused set_used db
  = Done 1%nat (with_otps (mark_used (id otp) (otps db)) db).
Proof.
  intros Hok Hin Hu Hfree.
  pose proof (update_otp_accepted otp set_used db Hok Hin Hfree eq_refl) as E.
  destruct Hok as [_ Hpk _ _ _].
  unfold UPDATE_otps in *. unfold update_otp in *.
  assert (Hsame : forall r, In r (otps db) ->
                            hits (id otp) still_unused r = hits (id otp) any_row r).
  { intros r Hr. unfold hits, still_unused, any_row.
    destruct (id r =? id otp) eqn:Er; [|reflexivity]. simpl.
    apply Z.eqb_eq in Er.
    rewrite (same_id_same_row (otps db) r otp Hpk Hr Hin Er), Hu. reflexivity. }
  rewrite (existsb_agree _ (fun r => hits (id otp) any_row r &&
             existsb (fun o => negb (id o =? id otp) && same_uk (set_used r) o)
                     (otps db))).
  2:{ intros r Hr. rewrite Hsame by assumption. reflexivity. }
  destruct (existsb _ (otps db)); [discriminate|].
  rewrite (filter_ext_in _ (hits (id otp) any_row)) by assumption.
  rewrite one_row_hit by assumption. f_equal. f_equal.
  unfold mark_used, rewrite_row. apply map_ext_in. intros r Hr. rewrite Hsame by assumption.
  unfold hits, any_row. rewrite andb_true_r. reflexivity.
Qed.

Lemma mark_used_already_used (i : Z) (db : DB) :
  (forall r, In r (otps db) -> id r = i -> is_used r = true) ->
  UPDATE_otps i still_unused set_used db = Done 0%nat db.
Proof.
  intros H. unfold UPDATE_otps, update_otp.
  assert (Hmiss : forall r, In r (otps db) -> hits i still_unused r = false).
  { intros r Hr. unfold hits, still_unused.
    destruct (id r =? i) eqn:E; [|reflexivity].
    apply Z.eqb_eq in E. rewrite (H r Hr E). reflexivity. }
  rewrite (existsb_agree _ (fun _ => false)).
  2:{ intros r Hr. rewrite Hmiss by assumption. reflexivity. }
  rewrite existsb_never.
  rewrite (filter_ext_in _ (fun _ => false)) by assumption.
  rewrite filter_never.
  rewrite (map_ext_in _ (fun r => r)).
  2:{ intros r Hr. rewrite Hmiss by assumption. reflexivity. }
  rewrite map_id, with_otps_same. reflexivity.
Qed.

(** The compare-and-set of the success path: a call that read the record
    before another call consumed it affects no row and answers [CodeUsed]. *)
Lemma stale_snapshot_answers_code_used (otp : OtpRow) (now : Z) (db : DB) :
  is_used otp = false ->
  (forall r, In r (otps db) -> id r = id otp -> is_used r = true) ->
  check_code otp (code otp) now db = Done CodeUsed db.
Proof.
  intros Hu Hdb. unfold check_code. rewrite Hu, String.eqb_refl.
  unfold bind. rewrite mark_used_already_used by assumption. reflexivity.
Qed.

(** * Claims on verification *)

Lemma check_code_never_code_used (otp : OtpRow) (c : string) (now : Z) (db : DB) :
  is_used otp = false ->
  (exists r, In r (otps db) /\ id r = id otp /\ is_used r = false) ->
  forall db', check_code otp c now db <> Done CodeUsed db'.
Proof.
  intros Hu (r & Hr & Hid & Hru) db'. unfold check_code. rewrite Hu.
  destruct (code otp =? c)%string.
  - unfold bind, UPDATE_otps, update_otp.
    destruct (existsb _ (otps db)); [discriminate|].
    assert (Hf : In r (filter (hits (id otp) still_unused) (otps db))).
    { apply filter_In. split; [assumption|].
      unfold hits, still_unused. rewrite Hid, Z.eqb_refl, Hru. reflexivity. }
    destruct (filter _ (otps db)); [contradiction|]. simpl. discriminate.
  - destruct (3 <=? attempt_count otp + 1); unfold bind, UPDATE_otps;
      destruct (update_otp _ _ _ _) as [[t n]|]; discriminate.
Qed.

(** Whatever the stored state and the request, one verification run as a
    whole never answers [CodeUsed]: the record it selects is unconsumed, and
    it stays so until the guarded update. *)
Lemma verify_never_answers_code_used (req : VerifyRequest) (now : Z) (db : DB) :
  snd (otp_verify req now db) <> CodeUsed.
Proof.
  unfold otp_verify. destruct (_ || _); [discriminate|].
  unfold verify, bind, query.
  destruct (select_latest_unused _ _ db) as [otp|] eqn:Es; [|discriminate].
  apply select_latest_unused_Some in Es. destruct Es as (Hin & _ & Hu).
  unfold verify_found.
  destruct (expires_at otp <? now).
  { unfold bind, UPDATE_otps.
    destruct (update_otp _ _ _ _) as [[t n]|]; discriminate. }
  destruct (lock_test otp now); [discriminate| |].
  - unfold bind, UPDATE_otps, update_otp.
    destruct (existsb _ (otps db)); [discriminate|].
    match goal with
    | |- snd match ?m with _ => _ end <> _ => destruct m as [x dbx|e] eqn:Ec
    end; [|discriminate].
    simpl. intros ->.
    refine (check_code_never_code_used _ _ _ _ _ _ dbx Ec); [exact Hu|].
    exists (set_unlocked otp). split; [|split; [reflexivity|exact Hu]].
    simpl. apply in_map_iff. exists otp. split; [|assumption].
    unfold hits, any_row. rewrite Z.eqb_refl. reflexivity.
  - destruct (check_code otp (vreq_code req) now db) as [x dbx|e] eqn:Ec;
      [|discriminate].
    simpl. intros ->.
    refine (check_code_never_code_used _ _ _ _ _ _ dbx Ec); [exact Hu|].
    exists otp. auto.
Qed.

(** C5, as stated, fails in its second half: the record of ("U1", "login")
    expires at 300 s; the verification at 300.001 s retires it and answers
    [OtpExpired]; the next one answers [OtpNotFound], not [CodeUsed]. *)
Lemma C5_retired_record_is_not_found :
  transcript [ Issue (U1_login "k1") (at_ms 0) 123456;
               Verify (U1_code "123456") 300001;
               Verify (U1_code "123456") 300002 ] empty_db
  = [ ToIssue (Created (mkResponse "1" 300 2));
      ToVerify OtpExpired;
      ToVerify OtpNotFound ] /\
  ~ retired_record_answers CodeUsed.
Proof.
  split; [vm_compute; reflexivity|].
  intros H.
  specialize (H (U1_code "123456") 300001 first_issue_db
                (fst (otp_verify (U1_code "123456") 300001 first_issue_db))
                (mkOtp 1 "U1" "login" "123456" 0 300000 false false None 0)
                (U1_code "123456") 300002).
  pose proof (verify_never_answers_code_used (U1_code "123456") 300002
                (fst (otp_verify (U1_code "123456") 300001 first_issue_db)))
    as Hn.
  apply Hn, H.
  - exists [Issue (U1_login "k1") (at_ms 0) 123456]. reflexivity.
  - repeat split; discriminate.
  - repeat split; discriminate.
  - reflexivity.
  - reflexivity.
  - vm_compute. reflexivity.
  - intros o Ho _ _. vm_compute in Ho. destruct Ho as [<-|[]]. reflexivity.
  - vm_compute. reflexivity.
Qed.

(** C5, amended: when the record a verification selects is past its expiry,
    and the unique key admits marking it used, the verification marks it used
    and answers [OtpExpired]; if it was the only unconsumed record of the
    pair, every later verification for the pair answers [OtpNotFound] and
    changes nothing. *)
Theorem C5_expired_record_reclaimed
    (req : VerifyRequest) (now : Z) (db : DB) (otp : OtpRow) :
  reachable db ->
  well_formed_verify req ->
  select_latest_unused (vreq_user_id req) (vreq_purpose req) db = Some otp ->
  expires_at otp < now ->
  key_free (set_used otp) db ->
  let db1 := with_otps (mark_used (id otp) (otps db)) db in
  otp_verify req now db = (db1, OtpExpired) /\
  (only_unused (vreq_user_id req) (vreq_purpose req) otp db ->
   forall req' now',
     well_formed_verify req' ->
     vreq_user_id req' = vreq_user_id req ->
     vreq_purpose req' = vreq_purpose req ->
     otp_verify req' now' db1 = (db1, OtpNotFound)).
Proof.
  intros Hr Hwf Hsel Hexp Hfree db1.
  apply reachable_table_ok in Hr.
  pose proof (select_latest_unused_Some _ _ _ _ Hsel) as (Hin & Hpair & Hu).
  split.
  - rewrite otp_verify_well_formed by assumption.
    rewrite (verify_selected _ _ _ _ Hsel). unfold verify_found.
    apply Z.ltb_lt in Hexp. rewrite Hexp. unfold bind.
    rewrite update_otp_accepted by (auto; reflexivity). reflexivity.
  - intros Honly req' now' Hwf' Hu' Hp'.
    rewrite otp_verify_well_formed by assumption.
    rewrite verify_nothing_selected; [reflexivity|].
    rewrite Hu', Hp'. apply select_latest_unused_None.
    intros r' Hr' Hpair'. simpl in Hr'. unfold mark_used, rewrite_row in Hr'.
    apply in_map_iff in Hr'. destruct Hr' as (x & <- & Hx).
    destruct (id x =? id otp) eqn:E; [reflexivity|].
    destruct (is_used x) eqn:Ex; [reflexivity|exfalso].
    apply Z.eqb_neq in E. apply E.
    rewrite (Honly x Hx Hpair' Ex). reflexivity.
Qed.

(** The record issued at 0 is verified one millisecond after its expiry. *)
Lemma C5_expired_record_reclaimed_witness :
  otp_verify (U1_code "123456") 300001 first_issue_db
  = (with_otps (mark_used 1 (otps first_issue_db)) first_issue_db, OtpExpired).
Proof.
  apply (C5_expired_record_reclaimed (U1_code "123456") 300001 first_issue_db
           (mkOtp 1 "U1" "login" "123456" 0 300000 false false None 0)).
  - exists [Issue (U1_login "k1") (at_ms 0) 123456]. reflexivity.
  - repeat split; discriminate.
  - vm_compute. reflexivity.
  - reflexivity.
  - intros o Ho Hne. vm_compute in Ho. destruct Ho as [<-|[]].
    exfalso. apply Hne. reflexivity.
Defined.

(** ** The lock and the expiry *)

Lemma rows_timed_later (t t' : Z) (db : DB) :
  t <= t' -> rows_timed t db -> rows_timed t' db.
Proof.
  intros Ht H r Hr. destruct (H r Hr) as [Hi Hl]. split; [|assumption].
  unfold issued_by in *. lia.
Qed.

Lemma UPDATE_otps_rows_timed (t i : Z) guard (set : OtpRow -> OtpRow) :
  (forall r, issued_by t r /\ lock_outlives_expiry r ->
             issued_by t (set r) /\ lock_outlives_expiry (set r)) ->
  preserves (rows_timed t) (UPDATE_otps i guard set).
Proof.
  intros Hset db H. unfold UPDATE_otps, update_otp.
  destruct (existsb _ (otps db)); [exact I|].
  intros r' Hr'. simpl in Hr'. apply in_map_iff in Hr'.
  destruct Hr' as (r & <- & Hr). destruct (hits i guard r); auto.
Qed.

Lemma set_used_timed t r :
  issued_by t r /\ lock_outlives_expiry r ->
  issued_by t (set_used r) /\ lock_outlives_expiry (set_used r).
Proof. auto. Qed.

Lemma set_attempts_timed t n r :
  issued_by t r /\ lock_outlives_expiry r ->
  issued_by t (set_attempts n r) /\ lock_outlives_expiry (set_attempts n r).
Proof. auto. Qed.

Lemma set_unlocked_timed t r :
  issued_by t r /\ lock_outlives_expiry r ->
  issued_by t (set_unlocked r) /\ lock_outlives_expiry (set_unlocked r).
Proof.
  intros [Hi _]. split; [exact Hi|]. intros u Hl. discriminate.
Qed.

Lemma set_locked_timed t n r :
  issued_by t r /\ lock_outlives_expiry r ->
  issued_by t (set_locked n (t + 10 * 60 * 1000) r) /\
  lock_outlives_expiry (set_locked n (t + 10 * 60 * 1000) r).
Proof.
  intros [Hi _]. split; [exact Hi|]. intros u _ Hu. simpl in *.
  inversion Hu; subst. unfold issued_by in Hi. lia.
Qed.

Lemma otps_only_rows_timed {A} (t : Z) (m : Tx A) :
  (forall db, match m db with
              | Done _ db' => otps db' = otps db
              | Raised _ => True
              end) ->
  preserves (rows_timed t) m.
Proof.
  intros Hm db H. specialize (Hm db).
  destruct (m db) as [a db'|e]; [|exact I].
  unfold rows_timed. rewrite Hm. assumption.
Qed.

Lemma checkRateLimits_rows_timed t u ip clk :
  preserves (rows_timed t) (checkRateLimits u ip clk).
Proof.
  apply otps_only_rows_timed. intros db. rewrite checkRateLimits_eq. cbv zeta.
  destruct (3 <=? _); [destruct (oldest_request _ _ _); exact I|].
  destruct (8 <=? _); [destruct (oldest_request _ _ _); exact I|].
  reflexivity.
Qed.

Lemma issue_rows_timed req clk rnd :
  preserves (rows_timed (js_now clk)) (issue req clk rnd).
Proof.
  unfold issue. apply preserves_bind; [apply preserves_query|]. intros sel.
  destruct sel as [|row rest];
    [|apply preserves_bind; [apply preserves_throw|intros; apply preserves_ret]].
  apply preserves_bind; [apply checkRateLimits_rows_timed|]. intros info.
  apply preserves_bind.
  { unfold invalidate_active_otp.
    apply preserves_bind; [apply preserves_query|]. intros l.
    destruct l as [|row rest]; [apply preserves_ret|].
    apply preserves_bind; [|intros; apply preserves_ret].
    apply UPDATE_otps_rows_timed, set_used_timed. }
  intros _. apply preserves_bind.
  { intros db H. unfold INSERT_otps, insert_otp.
    destruct (existsb _ (otps db)); [exact I|].
    intros r Hr. simpl in Hr. apply in_app_iff in Hr.
    destruct Hr as [Hr|[<-|[]]]; [auto|].
    split; [unfold issued_by; simpl; lia|]. intros u Hl. discriminate. }
  intros i. apply preserves_bind; [|intros; apply preserves_ret].
  apply otps_only_rows_timed. intros db. unfold INSERT_idempotency_keys.
  destruct (existsb _ _); [exact I|reflexivity].
Qed.

Lemma check_code_rows_timed otp c now :
  preserves (rows_timed now) (check_code otp c now).
Proof.
  unfold check_code.
  destruct (is_used otp); [apply preserves_ret|].
  destruct (code otp =? c)%string.
  - apply preserves_bind; [apply UPDATE_otps_rows_timed, set_used_timed|].
    intros n. destruct (Nat.eqb n 0); apply preserves_ret.
  - destruct (3 <=? attempt_count otp + 1);
      (apply preserves_bind; [|intros; apply preserves_ret]).
    + apply UPDATE_otps_rows_timed, set_locked_timed.
    + apply UPDATE_otps_rows_timed, set_attempts_timed.
Qed.

Lemma verify_rows_timed req now :
  preserves (rows_timed now) (verify req now).
Proof.
  unfold verify. apply preserves_bind; [apply preserves_query|]. intros sel.
  destruct sel as [otp|]; [|apply preserves_ret].
  unfold verify_found. destruct (expires_at otp <? now).
  - apply preserves_bind; [|intros; apply preserves_ret].
    apply UPDATE_otps_rows_timed, set_used_timed.
  - destruct (lock_test otp now);
      [apply preserves_ret| |apply check_code_rows_timed].
    apply preserves_bind; [|intros; apply check_code_rows_timed].
    apply UPDATE_otps_rows_timed, set_unlocked_timed.
Qed.

Lemma step_rows_timed (db : DB) (e : Event) :
  rows_timed (event_time e) db -> rows_timed (event_time e) (step db e).
Proof.
  intros H. destruct e as [req clk rnd|req now]; simpl in *.
  - unfold otp_request. destruct (_ || _); [assumption|].
    pose proof (issue_rows_timed req clk rnd db H) as P.
    destruct (issue req clk rnd db) as [r db'|[s|]]; assumption.
  - unfold otp_verify. destruct (_ || _); [assumption|].
    pose proof (verify_rows_timed req now db H) as P.
    destruct (verify req now db) as [r db'|e]; assumption.
Qed.

Lemma history_rows_timed (t : Z) (db : DB) : history t db -> rows_timed t db.
Proof.
  induction 1 as [t|t db e Hh IH Ht].
  - intros r [].
  - apply step_rows_timed. apply (rows_timed_later t); assumption.
Qed.

Lemma history_reachable (t : Z) (db : DB) : history t db -> reachable db.
Proof.
  induction 1 as [t|t db e Hh [events IH] Ht].
  - exists []. reflexivity.
  - exists (events ++ [e]). unfold run. rewrite fold_left_app. simpl.
    unfold run in IH. rewrite IH. reflexivity.
Qed.

(** In a history whose clock never runs backwards, a lock that has ended
    belongs to a record that has expired: the arm "Unlock if lock period has
    expired" is never entered, the verification answers [OtpExpired] (or fails
    on the unique key) and never [InvalidCode]. *)
Lemma lapsed_lock_is_expired
    (t : Z) (db : DB) (req : VerifyRequest) (now : Z) (otp : OtpRow) (until : Z) :
  history t db ->
  well_formed_verify req ->
  select_latest_unused (vreq_user_id req) (vreq_purpose req) db = Some otp ->
  is_locked otp = true -> locked_until otp = Some until -> until <= now ->
  expires_at otp < now /\
  (snd (otp_verify req now db) = OtpExpired \/
   snd (otp_verify req now db) = VerifyInternalError).
Proof.
  intros Hh Hwf Hsel Hl Hu Hnow.
  pose proof (select_latest_unused_Some _ _ _ _ Hsel) as (Hin & _ & _).
  destruct (history_rows_timed t db Hh otp Hin) as [_ Hout].
  specialize (Hout until Hl Hu).
  assert (Hexp : expires_at otp < now) by lia.
  split; [exact Hexp|].
  rewrite otp_verify_well_formed by assumption.
  rewrite (verify_selected _ _ _ _ Hsel). unfold verify_found.
  apply Z.ltb_lt in Hexp. rewrite Hexp. unfold bind, UPDATE_otps.
  destruct (update_otp _ _ _ _) as [[t' n]|]; simpl; auto.
Qed.

(** A wrong code on an unlocked, unexpired record is counted; below three it
    answers the attempts left, at three it locks the record for 600 s, when
    the unique key admits the locked row. *)
Lemma wrong_code_is_counted
    (req : VerifyRequest) (now : Z) (db : DB) (otp : OtpRow) :
  reachable db ->
  well_formed_verify req ->
  select_latest_unused (vreq_user_id req) (vreq_purpose req) db = Some otp ->
  ~ expires_at otp < now ->
  is_locked otp = false ->
  code otp <> vreq_code req ->
  let n := attempt_count otp + 1 in
  (n < 3 ->
   otp_verify req now db
   = (with_otps (rewrite_row (id otp) (set_attempts n) (otps db)) db,
      InvalidCode (3 - n))) /\
  (3 <= n ->
   key_free (set_locked n (now + 600000) otp) db ->
   otp_verify req now db
   = (with_otps (rewrite_row (id otp) (set_locked n (now + 600000)) (otps db)) db,
      TooManyAttempts 600)).
Proof.
  intros Hr Hwf Hsel Hlive Hl Hc n.
  apply reachable_table_ok in Hr.
  pose proof (select_latest_unused_Some _ _ _ _ Hsel) as (Hin & _ & Hu).
  assert (E : otp_verify req now db =
              match check_code otp (vreq_code req) now db with
              | Done r db' => (db', r)
              | Raised _ => (db, VerifyInternalError)
              end).
  { rewrite otp_verify_well_formed by assumption.
    rewrite (verify_selected _ _ _ _ Hsel). unfold verify_found.
    destruct (expires_at otp <? now) eqn:Ee;
      [apply Z.ltb_lt in Ee; contradiction|].
    unfold lock_test. rewrite Hl. reflexivity. }
  rewrite E. unfold check_code. rewrite Hu.
  apply String.eqb_neq in Hc. rewrite Hc. fold n.
  split.
  - intros Hn. apply Z.leb_gt in Hn. rewrite Hn. unfold bind.
    rewrite update_otp_accepted; [reflexivity|assumption|assumption| |reflexivity].
    intros o Ho Hne. simpl in Hne.
    destruct (same_uk (set_attempts n otp) o) eqn:S; [|reflexivity].
    exfalso. apply Hne. symmetry.
    apply (ok_unique_key db Hr otp o Hin Ho). exact S.
  - intros Hn Hfree. apply Z.leb_le in Hn. rewrite Hn. unfold bind.
    change (10 * 60 * 1000) with 600000.
    rewrite update_otp_accepted; [reflexivity|assumption|assumption|assumption|reflexivity].
Qed.

(** What the arm "Unlock if lock period has expired" does where it is
    entered, on a record whose lock has ended and which has not expired: the
    lock columns are cleared, the counter restarts, and a wrong code is
    answered with two attempts left.  No history whose clock runs forward
    leads to such a record (lemma [lapsed_lock_is_expired]). *)
Lemma unlock_arm_resets_counter
    (req : VerifyRequest) (now : Z) (db : DB) (otp : OtpRow) (until : Z) :
  reachable db ->
  well_formed_verify req ->
  select_latest_unused (vreq_user_id req) (vreq_purpose req) db = Some otp ->
  ~ expires_at otp < now ->
  is_locked otp = true -> locked_until otp = Some until -> until <= now ->
  code otp <> vreq_code req ->
  key_free (set_unlocked otp) db ->
  otp_verify req now db
  = (with_otps (rewrite_row (id otp) (set_attempts 1)
                  (rewrite_row (id otp) set_unlocked (otps db))) db,
     InvalidCode 2).
Proof.
  intros Hr Hwf Hsel Hlive Hl Hu Hnow Hc Hfree.
  apply reachable_table_ok in Hr.
  pose proof (select_latest_unused_Some _ _ _ _ Hsel) as (Hin & _ & Hused).
  rewrite otp_verify_well_formed by assumption.
  rewrite (verify_selected _ _ _ _ Hsel). unfold verify_found.
  destruct (expires_at otp <? now) eqn:Ee;
    [apply Z.ltb_lt in Ee; contradiction|].
  unfold lock_test. rewrite Hl, Hu.
  destruct (now <? until) eqn:En; [apply Z.ltb_lt in En; lia|].
  unfold bind at 1.
  pose proof (UPDATE_otps_table_ok (id otp) any_row set_unlocked
                (fun _ => eq_refl) set_unlocked_lock db Hr) as Hok2.
  rewrite update_otp_accepted in Hok2 |- * by (auto; reflexivity).
  set (db2 := with_otps (rewrite_row (id otp) set_unlocked (otps db)) db) in *.
  assert (Hin2 : In (set_unlocked otp) (otps db2)).
  { simpl. unfold rewrite_row. apply in_map_iff. exists otp.
    rewrite Z.eqb_refl. auto. }
  unfold check_code. cbn [is_used code attempt_count id]. rewrite Hused.
  apply String.eqb_neq in Hc. rewrite Hc.
  change (3 <=? 0 + 1) with false. cbv iota. unfold bind.
  change (id otp) with (id (set_unlocked otp)) at 1.
  rewrite update_otp_accepted; [reflexivity|assumption|assumption| |reflexivity].
  intros o Ho Hne.
  destruct (same_uk (set_attempts (0 + 1) (set_unlocked otp)) o) eqn:S;
    [|reflexivity].
  exfalso. apply Hne. symmetry.
  apply (ok_unique_key db2 Hok2 (set_unlocked otp) o Hin2 Ho). exact S.
Qed.

Lemma lockout_history_is_chronological :
  history 3000 (run lockout_history empty_db).
Proof.
  change (run lockout_history empty_db)
    with (step (step (step (step empty_db
                                 (Issue (U1_login "k1") (at_ms 0) 123456))
                           (Verify (U1_code "000000") 1000))
                     (Verify (U1_code "000000") 2000))
               (Verify (U1_code "000000") 3000)).
  apply (history_step 2000 _ (Verify (U1_code "000000") 3000)); [|simpl; lia].
  apply (history_step 1000 _ (Verify (U1_code "000000") 2000)); [|simpl; lia].
  apply (history_step 0 _ (Verify (U1_code "000000") 1000)); [|simpl; lia].
  apply (history_step 0 _ (Issue (U1_login "k1") (at_ms 0) 123456));
    [|simpl; lia].
  apply history_start.
Qed.

(** C4, as stated, fails in both halves.  Second half: three wrong codes lock
    the record of ("U1", "login") until 603 s; at 603 s the lock has ended,
    but the record, issued at 0 with 300 s to live, has expired, and the
    wrong code is answered [OtpExpired], not [InvalidCode 2].  First half:
    after the lockout and a new request for the pair, the third wrong code
    for the new record is answered an internal error and locks nothing. *)
Lemma C4_elapsed_lock_not_cleared :
  transcript round_trip_history empty_db
  = [ ToIssue (Created (mkResponse "1" 300 2));
      ToVerify (InvalidCode 2);
      ToVerify (InvalidCode 1);
      ToVerify (TooManyAttempts 600);
      ToVerify (TooManyAttempts 599);
      ToVerify OtpExpired ] /\
  ~ elapsed_lock_is_cleared /\
  transcript (relock_history ++ [Verify (U1_code "000000") 7000]) empty_db
  = [ ToIssue (Created (mkResponse "1" 300 2));
      ToVerify (InvalidCode 2);
      ToVerify (InvalidCode 1);
      ToVerify (TooManyAttempts 600);
      ToIssue (Created (mkResponse "2" 300 1));
      ToVerify (InvalidCode 2);
      ToVerify (InvalidCode 1);
      ToVerify VerifyInternalError ] /\
  ~ wrong_code_counts_or_locks.
Proof.
  split; [vm_compute; reflexivity|]. split; [|split; [vm_compute; reflexivity|]].
  - intros H.
    assert (E : snd (otp_verify (U1_code "000000") 603000
                       (run lockout_history empty_db)) = OtpExpired)
      by (vm_compute; reflexivity).
    assert (Hsel : select_latest_unused "U1" "login"
                     (run lockout_history empty_db) = Some locked_record)
      by (vm_compute; reflexivity).
    specialize (H 3000 (run lockout_history empty_db) (U1_code "000000")
                  603000 locked_record 603000).
    rewrite E in H. discriminate H.
    + apply lockout_history_is_chronological.
    + lia.
    + repeat split; discriminate.
    + exact Hsel.
    + reflexivity.
    + reflexivity.
    + lia.
    + discriminate.
  - intros H.
    assert (E : snd (otp_verify (U1_code "000000") 7000
                       (run relock_history empty_db)) = VerifyInternalError)
      by (vm_compute; reflexivity).
    assert (Hsel : select_latest_unused "U1" "login"
                     (run relock_history empty_db)
                   = Some (mkOtp 2 "U1" "login" "654321" 4000 304000
                                 false false None 2))
      by (vm_compute; reflexivity).
    destruct (H (U1_code "000000") 7000 (run relock_history empty_db)
                (mkOtp 2 "U1" "login" "654321" 4000 304000 false false None 2))
      as [_ Hlock].
    + exists relock_history. reflexivity.
    + repeat split; discriminate.
    + exact Hsel.
    + simpl. lia.
    + reflexivity.
    + discriminate.
    + destruct Hlock as [Hans _]; [simpl; lia|].
      rewrite E in Hans. discriminate Hans.
Qed.

(** C4, amended.  A wrong code for the unconsumed, unlocked, unexpired record
    that the verification selects is counted: below three the count is stored
    and the call fails [InvalidCode] with the attempts left; at three, when
    the unique key admits the locked row, the record is locked until 600 s
    later and the call fails [TooManyAttempts 600].  A lock never ends before
    its record expires: in every history whose clock does not run backwards,
    the verification of a record whose lock has ended finds it expired,
    never answers [InvalidCode], and, when the unique key admits the consumed
    row, retires the record and answers [OtpExpired]. *)
Theorem C4_wrong_code_counted_lock_outlives_record :
  (forall req now db otp,
     reachable db ->
     well_formed_verify req ->
     select_latest_unused (vreq_user_id req) (vreq_purpose req) db = Some otp ->
     ~ expires_at otp < now ->
     is_locked otp = false ->
     code otp <> vreq_code req ->
     let n := attempt_count otp + 1 in
     (n < 3 ->
      otp_verify req now db
      = (with_otps (rewrite_row (id otp) (set_attempts n) (otps db)) db,
         InvalidCode (3 - n))) /\
     (3 <= n ->
      key_free (set_locked n (now + 600000) otp) db ->
      otp_verify req now db
      = (with_otps (rewrite_row (id otp) (set_locked n (now + 600000)) (otps db))
                   db,
         TooManyAttempts 600))) /\
  (forall t db req now otp until,
     history t db ->
     well_formed_verify req ->
     select_latest_unused (vreq_user_id req) (vreq_purpose req) db = Some otp ->
     is_locked otp = true -> locked_until otp = Some until -> until <= now ->
     expires_at otp < now /\
     (forall n, snd (otp_verify req now db) <> InvalidCode n) /\
     (key_free (set_used otp) db ->
      otp_verify req now db
      = (with_otps (mark_used (id otp) (otps db)) db, OtpExpired))).
Proof.
  split.
  - intros req now db otp. apply wrong_code_is_counted.
  - intros t db req now otp until Hh Hwf Hsel Hl Hu Hnow.
    destruct (lapsed_lock_is_expired t db req now otp until Hh Hwf Hsel Hl Hu Hnow)
      as [Hexp Hans].
    split; [exact Hexp|]. split.
    + intros n Hn. rewrite Hn in Hans. destruct Hans; discriminate.
    + intros Hfree.
      pose proof (reachable_table_ok _ (history_reachable _ _ Hh)) as Hok.
      pose proof (select_latest_unused_Some _ _ _ _ Hsel) as (Hin & _ & _).
      rewrite otp_verify_well_formed by assumption.
      rewrite (verify_selected _ _ _ _ Hsel). unfold verify_found.
      apply Z.ltb_lt in Hexp. rewrite Hexp. unfold bind.
      rewrite update_otp_accepted by (auto; reflexivity). reflexivity.
Qed.

(** The third wrong code for the record of "U1", at 3 s, and the wrong code
    at 603 s, after the lockout. *)
Lemma C4_wrong_code_counted_lock_outlives_record_witness :
  otp_verify (U1_code "000000") 3000 (run two_wrong_history empty_db)
  = (with_otps (rewrite_row 1 (set_locked 3 603000)
                  (otps (run two_wrong_history empty_db)))
       (run two_wrong_history empty_db),
     TooManyAttempts 600) /\
  expires_at locked_record < 603000 /\
  forall n,
    snd (otp_verify (U1_code "000000") 603000 (run lockout_history empty_db))
    <> InvalidCode n.
Proof.
  assert (E2 : otps (run two_wrong_history empty_db)
               = [mkOtp 1 "U1" "login" "123456" 0 300000 false false None 2])
    by (vm_compute; reflexivity).
  split.
  - destruct (proj1 C4_wrong_code_counted_lock_outlives_record
                (U1_code "000000") 3000 (run two_wrong_history empty_db)
                (mkOtp 1 "U1" "login" "123456" 0 300000 false false None 2))
      as [_ Hlock].
    + exists two_wrong_history. reflexivity.
    + repeat split; discriminate.
    + vm_compute. reflexivity.
    + simpl. lia.
    + reflexivity.
    + discriminate.
    + apply Hlock; [simpl; lia|].
      intros o Ho Hne. rewrite E2 in Ho. destruct Ho as [<-|[]].
      exfalso. apply Hne. reflexivity.
  - destruct (proj2 C4_wrong_code_counted_lock_outlives_record
                3000 (run lockout_history empty_db) (U1_code "000000") 603000
                locked_record 603000)
      as (Hexp & Hnever & _).
    + apply lockout_history_is_chronological.
    + repeat split; discriminate.
    + vm_compute. reflexivity.
    + reflexivity.
    + reflexivity.
    + lia.
    + split; assumption.
Defined.

(** ** Two verifications of the same code *)

(** A call alone makes two moves, and they amount to the handler. *)
Lemma advance_alone (req : VerifyRequest) (now : Z) (db : DB) :
  match advance db [] (Pending req now) with
  | Some (db1, Answered r) => otp_verify req now db = (db1, r)
  | Some (db1, c) =>
      match advance db1 [] c with
      | Some (db2, Answered r) => otp_verify req now db = (db2, r)
      | _ => False
      end
  | None => False
  end.
Proof.
  unfold advance, otp_verify. destruct (_ || _); [reflexivity|].
  unfold verify, bind, query.
  destruct (select_latest_unused _ _ db) as [otp|]; [|reflexivity].
  simpl. destruct (verify_found otp (vreq_code req) now db) as [r db'|e];
    reflexivity.
Qed.

Lemma filter_none {A : Type} (f : A -> bool) (l : list A) :
  List.length (filter f l) = 0%nat <-> forall x, In x l -> f x = false.
Proof.
  induction l as [|a l IH]; simpl.
  - split; [intros _ x []|reflexivity].
  - destruct (f a) eqn:E; simpl.
    + split; [discriminate|]. intros H. rewrite (H a) in E by auto. discriminate.
    + rewrite IH. split.
      * intros H x [<-|Hx]; auto.
      * intros H x Hx. apply H. auto.
Qed.

Lemma filter_split_length {A : Type} (f : A -> bool) (l1 l2 : list A) (c : A) :
  List.length (filter f (l1 ++ c :: l2))
  = (List.length (filter f (l1 ++ l2)) + (if f c then 1 else 0))%nat.
Proof.
  rewrite !filter_app, !length_app. simpl. destruct (f c); simpl; lia.
Qed.

Lemma in_split_cases {A : Type} (l1 l2 : list A) (c x : A) :
  In x (l1 ++ c :: l2) <-> x = c \/ In x (l1 ++ l2).
Proof.
  rewrite !in_app_iff. simpl. intuition congruence.
Qed.

Section Race.

Variables (db0 : DB) (otp : OtpRow) (req : VerifyRequest) (times : list Z).

Hypothesis db0_reachable : reachable db0.
Hypothesis req_well_formed : well_formed_verify req.
Hypothesis otp_stored : In otp (otps db0).
Hypothesis otp_user : user_id otp = vreq_user_id req.
Hypothesis otp_purpose : purpose otp = vreq_purpose req.
Hypothesis otp_unused : is_used otp = false.
Hypothesis otp_unlocked : is_locked otp = false.
Hypothesis otp_code : code otp = vreq_code req.
Hypothesis otp_only :
  only_unused (vreq_user_id req) (vreq_purpose req) otp db0.
Hypothesis otp_live : forall now, In now times -> ~ expires_at otp < now.
Hypothesis otp_key_free : key_free (set_used otp) db0.

Local Abbreviation consumed := (with_otps (mark_used (id otp) (otps db0)) db0).

Lemma race_selects_otp :
  select_latest_unused (vreq_user_id req) (vreq_purpose req) db0 = Some otp.
Proof.
  destruct (select_latest_unused _ _ db0) as [otp'|] eqn:E.
  - f_equal. eapply select_only_unused; eassumption.
  - exfalso. unfold select_latest_unused in E. apply newest_None in E.
    assert (H : In otp (filter (fun r => for_pair (vreq_user_id req)
                                           (vreq_purpose req) r
                                         && negb (is_used r)) (otps db0))).
    { apply filter_In. split; [assumption|].
      unfold for_pair. rewrite otp_user, otp_purpose, !String.eqb_refl, otp_unused.
      reflexivity. }
    rewrite E in H. exact H.
Qed.

Lemma race_winner (now : Z) :
  In now times ->
  verify_found otp (vreq_code req) now db0
  = Done VerificationSuccessful consumed.
Proof.
  intros Hnow. unfold verify_found.
  destruct (expires_at otp <? now) eqn:E;
    [apply Z.ltb_lt in E; exfalso; exact (otp_live now Hnow E)|].
  unfold lock_test. rewrite otp_unlocked.
  unfold check_code. rewrite otp_unused, otp_code, String.eqb_refl.
  unfold bind. rewrite mark_used_if_unused; auto using reachable_table_ok.
Qed.

Lemma race_nothing_left :
  select_latest_unused (vreq_user_id req) (vreq_purpose req) consumed = None.
Proof.
  apply select_latest_unused_None.
  intros r' Hr' Hpair. simpl in Hr'. unfold mark_used, rewrite_row in Hr'.
  apply in_map_iff in Hr'. destruct Hr' as (x & <- & Hx).
  destruct (id x =? id otp) eqn:E; [reflexivity|].
  destruct (is_used x) eqn:Ex; [reflexivity|exfalso].
  apply Z.eqb_neq in E. apply E.
  rewrite (otp_only x Hx Hpair Ex). reflexivity.
Qed.

Lemma race_missing :
  missing (vreq_user_id req) || missing (vreq_purpose req)
  || missing (vreq_code req) = false.
Proof.
  destruct req_well_formed as (Hu & Hp & Hc).
  rewrite !missing_false by assumption. reflexivity.
Qed.

Lemma racing_start : racing db0 otp req times (db0, map (Pending req) times).
Proof.
  left. simpl. split; [reflexivity|]. split.
  - replace (List.length _) with 0%nat; [lia|]. symmetry. apply filter_none.
    intros c Hc. apply in_map_iff in Hc. destruct Hc as (now & <- & _).
    reflexivity.
  - intros c Hc. apply in_map_iff in Hc. destruct Hc as (now & <- & Hnow).
    exists now. auto.
Qed.

Lemma racing_step (s s' : DB * list Call) :
  pool_step s s' -> racing db0 otp req times s -> racing db0 otp req times s'.
Proof.
  intros Hstep Hr. destruct Hstep as [db db' before c c' after Hadv].
  unfold racing in Hr |- *. simpl in Hr |- *.
  destruct Hr as [(-> & Hcount & Hall)|(-> & Hcount & Hall)].
  - (* nobody has consumed the record yet *)
    destruct (Hall c) as (now & Hnow & [-> | ->]);
      [apply in_split_cases; auto| |].
    + (* the locking read *)
      simpl in Hadv. rewrite race_missing, race_selects_otp in Hadv.
      destruct (existsb _ (before ++ after)) eqn:Ew; [discriminate|].
      inversion Hadv; subst. left. simpl. split; [reflexivity|]. split.
      * rewrite filter_split_length. simpl.
        replace (List.length (filter is_holding (before ++ after))) with 0%nat;
          [lia|].
        symmetry. apply filter_none. intros x Hx.
        destruct (Hall x) as (t & _ & [-> | ->]);
          [apply in_split_cases; auto|reflexivity|].
        rewrite <- not_true_iff_false in Ew. exfalso. apply Ew.
        apply existsb_exists. eexists. split; [exact Hx|].
        simpl. apply Z.eqb_refl.
      * intros x Hx. apply in_split_cases in Hx. destruct Hx as [->|Hx].
        -- exists now. auto.
        -- apply Hall. apply in_split_cases. auto.
    + (* the holder proceeds and commits *)
      simpl in Hadv. rewrite (race_winner now Hnow) in Hadv.
      inversion Hadv; subst. right. simpl. split; [reflexivity|].
      rewrite filter_split_length in Hcount. simpl in Hcount.
      assert (Hnone : forall x, In x (before ++ after) -> is_holding x = false)
        by (apply filter_none; lia).
      assert (Hpending : forall x, In x (before ++ after) ->
                                   exists t, x = Pending req t).
      { intros x Hx. destruct (Hall x) as (t & _ & [-> | ->]);
          [apply in_split_cases; auto|eauto|].
        specialize (Hnone _ Hx). discriminate. }
      split.
      * rewrite filter_split_length. simpl.
        replace (List.length (filter is_success (before ++ after))) with 0%nat;
          [reflexivity|].
        symmetry. apply filter_none. intros x Hx.
        destruct (Hpending x Hx) as (t & ->). reflexivity.
      * intros x Hx. apply in_split_cases in Hx. destruct Hx as [->|Hx]; auto.
  - (* the record has been consumed *)
    destruct (Hall c) as [-> | [-> | (now & ->)]];
      [apply in_split_cases; auto|discriminate|discriminate|].
    simpl in Hadv. rewrite race_missing, race_nothing_left in Hadv.
    inversion Hadv; subst. right. simpl. split; [reflexivity|]. split.
    + rewrite filter_split_length in Hcount |- *. simpl in Hcount |- *.
      assumption.
    + intros x Hx. apply in_split_cases in Hx. destruct Hx as [->|Hx]; auto.
      apply Hall. apply in_split_cases. auto.
Qed.

Lemma racing_steps (s s' : DB * list Call) :
  pool_steps s s' -> racing db0 otp req times s -> racing db0 otp req times s'.
Proof.
  induction 1 as [s|s1 s2 s3 Hstep _ IH]; [auto|].
  intros H. apply IH. eapply racing_step; eassumption.
Qed.

(** However the calls interleave, when all have answered exactly one has
    answered [VerificationSuccessful] and every other one [OtpNotFound]. *)
Lemma concurrent_verifications_outcome (db' : DB) (pool' : list Call) :
  times <> [] ->
  pool_steps (db0, map (Pending req) times) (db', pool') ->
  (forall c, In c pool' -> exists r, c = Answered r) ->
  List.length (filter is_success pool') = 1%nat /\
  (forall c, In c pool' ->
             c = Answered VerificationSuccessful \/ c = Answered OtpNotFound) /\
  List.length pool' = List.length times.
Proof.
  intros Hne Hsteps Hans.
  assert (Hlen : forall s s', pool_steps s s' ->
                              List.length (snd s') = List.length (snd s)).
  { induction 1 as [s|s1 s2 s3 Hstep _ IH]; [reflexivity|].
    rewrite IH. destruct Hstep. simpl. rewrite !length_app. reflexivity. }
  pose proof (Hlen _ _ Hsteps) as Hl. simpl in Hl. rewrite length_map in Hl.
  pose proof (racing_steps _ _ Hsteps racing_start) as Hr.
  unfold racing in Hr. simpl in Hr.
  destruct Hr as [(_ & _ & Hall)|(_ & Hcount & Hall)].
  - exfalso. destruct pool' as [|c pool'].
    + destruct times; [congruence|discriminate].
    + destruct (Hall c (or_introl eq_refl)) as (now & _ & Hc).
      destruct (Hans c (or_introl eq_refl)) as (r & ->).
      destruct Hc; discriminate.
  - split; [assumption|]. split; [|assumption].
    intros c Hc. destruct (Hall c Hc) as [H|[H|(now & ->)]]; auto.
    destruct (Hans _ Hc) as (r & Hr). discriminate.
Qed.

End Race.

(** C2 at its failing input: the record of ("U1", "login") is active with
    code 123456 and two calls verify that code.  Run one after the other, as
    the row lock orders them, the first answers [VerificationSuccessful] and
    the second finds no unconsumed record and answers [OtpNotFound].  In
    general, for every active record that is the only unconsumed one of its
    pair, and any number of calls with its code before it expires: however
    the calls interleave under the row lock, once all have answered exactly
    one answer is [VerificationSuccessful] and every other one is
    [OtpNotFound]; none is [CodeUsed]. *)
Theorem C2_second_verifier_gets_not_found :
  transcript [ Issue (U1_login "k1") (at_ms 0) 123456;
               Verify (U1_code "123456") 1000;
               Verify (U1_code "123456") 1000 ] empty_db
  = [ ToIssue (Created (mkResponse "1" 300 2));
      ToVerify VerificationSuccessful;
      ToVerify OtpNotFound ] /\
  forall db0 otp req times db' pool',
    reachable db0 ->
    well_formed_verify req ->
    In otp (otps db0) ->
    user_id otp = vreq_user_id req -> purpose otp = vreq_purpose req ->
    is_used otp = false -> is_locked otp = false ->
    code otp = vreq_code req ->
    only_unused (vreq_user_id req) (vreq_purpose req) otp db0 ->
    (forall now, In now times -> ~ expires_at otp < now) ->
    key_free (set_used otp) db0 ->
    times <> [] ->
    pool_steps (db0, map (Pending req) times) (db', pool') ->
    (forall c, In c pool' -> exists r, c = Answered r) ->
    List.length (filter is_success pool') = 1%nat /\
    (forall c, In c pool' ->
               c = Answered VerificationSuccessful \/ c = Answered OtpNotFound) /\
    List.length pool' = List.length times.
Proof.
  split; [vm_compute; reflexivity|].
  intros db0 otp req times db' pool' Hr Hwf Hin Hu Hp Hused Hl Hc Ho Hlive Hk
         Hne Hsteps Hans.
  eapply (concurrent_verifications_outcome db0 otp req times); eassumption.
Qed.

(** Two calls on the record issued at 0, under one schedule: the first reads
    and commits, then the second reads. *)
Lemma C2_second_verifier_gets_not_found_witness :
  List.length (filter is_success [ Answered VerificationSuccessful;
                                   Answered OtpNotFound ]) = 1%nat /\
  (forall c, In c [ Answered VerificationSuccessful; Answered OtpNotFound ] ->
             c = Answered VerificationSuccessful \/ c = Answered OtpNotFound) /\
  List.length [ Answered VerificationSuccessful; Answered OtpNotFound ]
  = List.length [1000; 1000].
Proof.
  assert (E : otps first_issue_db
              = [mkOtp 1 "U1" "login" "123456" 0 300000 false false None 0])
    by (vm_compute; reflexivity).
  apply (proj2 C2_second_verifier_gets_not_found first_issue_db
           (mkOtp 1 "U1" "login" "123456" 0 300000 false false None 0)
           (U1_code "123456") [1000; 1000]
           (fst (otp_verify (U1_code "123456") 1000 first_issue_db))).
  - exists [Issue (U1_login "k1") (at_ms 0) 123456]. reflexivity.
  - repeat split; discriminate.
  - rewrite E. left. reflexivity.
  - reflexivity.
  - reflexivity.
  - reflexivity.
  - reflexivity.
  - reflexivity.
  - intros o Ho _ _. rewrite E in Ho. destruct Ho as [<-|[]]. reflexivity.
  - intros now [<-|[<-|[]]]; simpl; lia.
  - intros o Ho Hne. rewrite E in Ho. destruct Ho as [<-|[]].
    exfalso. apply Hne. reflexivity.
  - discriminate.
  - apply (pool_steps_step _
             (first_issue_db,
              [ Holding (mkOtp 1 "U1" "login" "123456" 0 300000 false false None 0)
                        (U1_code "123456") 1000;
                Pending (U1_code "123456") 1000 ])).
    { apply (pool_step_at first_issue_db first_issue_db []
               (Pending (U1_code "123456") 1000) _
               [Pending (U1_code "123456") 1000]).
      vm_compute. reflexivity. }
    apply (pool_steps_step _
             (fst (otp_verify (U1_code "123456") 1000 first_issue_db),
              [ Answered VerificationSuccessful;
                Pending (U1_code "123456") 1000 ])).
    { apply (pool_step_at first_issue_db _ []
               (Holding (mkOtp 1 "U1" "login" "123456" 0 300000 false false None 0)
                        (U1_code "123456") 1000)
               (Answered VerificationSuccessful)
               [Pending (U1_code "123456") 1000]).
      vm_compute. reflexivity. }
    apply (pool_steps_step _
             (fst (otp_verify (U1_code "123456") 1000 first_issue_db),
              [ Answered VerificationSuccessful; Answered OtpNotFound ])).
    { apply (pool_step_at _ _ [Answered VerificationSuccessful]
               (Pending (U1_code "123456") 1000) (Answered OtpNotFound) []).
      vm_compute. reflexivity. }
    apply pool_steps_refl.
  - intros c [<-|[<-|[]]]; eauto.
Defined.

(** * Further instances *)

(** The lookup does not compare the stored user and purpose with those of
    the request: another user presenting the key is answered like the first,
    with an internal error. *)
Example replay_ignores_the_pair_of_the_request :
  otp_request (mkIssue "U2" "payment" "k1" "9.9.9.9") (at_ms 599999) 42
              first_issue_db
  = (first_issue_db, IssueInternalError).
Proof. vm_compute. reflexivity. Qed.

(** The unique key counts consumed records too: once a pair has a consumed
    unlocked record, consuming a second one is refused by the store.  In the
    sequence of the test script the correct code of the second request is
    answered with an internal error, and the record stays unconsumed. *)
Example unique_key_refuses_second_consumption :
  transcript test_sequence empty_db
  = [ ToIssue (Created (mkResponse "1" 300 2));
      ToIssue (Created (mkResponse "2" 300 1));
      ToVerify (InvalidCode 2);
      ToVerify (InvalidCode 1);
      ToVerify VerifyInternalError ] /\
  otps (run test_sequence empty_db)
  = [ mkOtp 1 "U1" "login" "123456" 0 300000 true false None 0;
      mkOtp 2 "U1" "login" "654321" 180000 480000 false false None 2 ].
Proof. split; vm_compute; reflexivity. Qed.

Example third_wrong_code_locks :
  otp_verify (U1_code "000000") 3000
    (run [ Issue (U1_login "k1") (at_ms 0) 123456;
           Verify (U1_code "000000") 1000;
           Verify (U1_code "000000") 2000 ] empty_db)
  = (with_otps
       (rewrite_row 1 (set_locked 3 603000)
          (otps (run [ Issue (U1_login "k1") (at_ms 0) 123456;
                       Verify (U1_code "000000") 1000;
                       Verify (U1_code "000000") 2000 ] empty_db)))
       (run [ Issue (U1_login "k1") (at_ms 0) 123456;
              Verify (U1_code "000000") 1000;
              Verify (U1_code "000000") 2000 ] empty_db),
     TooManyAttempts 600).
Proof.
  assert (E : otps (run [ Issue (U1_login "k1") (at_ms 0) 123456;
                          Verify (U1_code "000000") 1000;
                          Verify (U1_code "000000") 2000 ] empty_db)
              = [mkOtp 1 "U1" "login" "123456" 0 300000 false false None 2])
    by (vm_compute; reflexivity).
  apply (wrong_code_is_counted (U1_code "000000") 3000 _
           (mkOtp 1 "U1" "login" "123456" 0 300000 false false None 2)).
  - exists [ Issue (U1_login "k1") (at_ms 0) 123456;
             Verify (U1_code "000000") 1000;
             Verify (U1_code "000000") 2000 ]. reflexivity.
  - repeat split; discriminate.
  - vm_compute. reflexivity.
  - simpl. lia.
  - reflexivity.
  - discriminate.
  - simpl. lia.
  - intros o Ho Hne. rewrite E in Ho. destruct Ho as [<-|[]].
    exfalso. apply Hne. reflexivity.
Qed.

(** Only a clock that was set back leaves a lock that ends before its record
    expires; the arm that clears the lock is then entered. *)
Example unlock_arm_after_clock_set_back :
  otps (run clock_set_back empty_db)
  = [ mkOtp 1 "U1" "login" "123456" 1000000 1300000 false true (Some 600000) 3 ]
  /\
  snd (otp_verify (U1_code "000000") 700000 (run clock_set_back empty_db))
  = InvalidCode 2.
Proof.
  assert (E : otps (run clock_set_back empty_db)
              = [ mkOtp 1 "U1" "login" "123456" 1000000 1300000 false true
                        (Some 600000) 3 ])
    by (vm_compute; reflexivity).
  split; [exact E|].
  rewrite (unlock_arm_resets_counter (U1_code "000000") 700000 _
             (mkOtp 1 "U1" "login" "123456" 1000000 1300000 false true
                    (Some 600000) 3) 600000).
  - reflexivity.
  - exists clock_set_back. reflexivity.
  - repeat split; discriminate.
  - vm_compute. reflexivity.
  - simpl. lia.
  - reflexivity.
  - reflexivity.
  - lia.
  - discriminate.
  - intros o Ho Hne. rewrite E in Ho. destruct Ho as [<-|[]].
    exfalso. apply Hne. reflexivity.
Qed.

(** * The client address *)

Lemma first_segment_no_comma (s : string) :
  has_char ","%char (first_segment s) = false.
Proof.
  induction s as [|c s IH]; simpl; [reflexivity|].
  destruct (Ascii.eqb c ","%char) eqn:E; simpl; [reflexivity|].
  rewrite E, IH. reflexivity.
Qed.

Lemma truthy_Some (v : option string) :
  truthy v = true -> exists s, v = Some s /\ s <> "".
Proof.
  destruct v as [s|]; simpl; [|discriminate].
  intros H. exists s. split; [reflexivity|].
  apply negb_true_iff, String.eqb_neq in H. assumption.
Qed.

(** X1: the address is always a non-empty string.  It is [req.ip] when that
    is a non-empty string, else the socket address when that is one, else
    what precedes the first comma of the forwarded header when that is not
    empty, else "127.0.0.1". *)
Theorem X1_getClientIP_precedence (req : Transport) :
  exists s,
    getClientIP req = Some s /\ s <> "" /\
    (truthy (ip req) = true -> ip req = Some s) /\
    (truthy (ip req) = false -> truthy (remoteAddress req) = true ->
     remoteAddress req = Some s) /\
    (truthy (ip req) = false -> truthy (remoteAddress req) = false ->
     forall h, x_forwarded_for req = Some h ->
               first_segment h <> "" ->
               s = first_segment h /\ has_char ","%char s = false) /\
    (truthy (ip req) = false -> truthy (remoteAddress req) = false ->
     truthy (option_map first_segment (x_forwarded_for req)) = false ->
     s = "127.0.0.1").
Proof.
  assert (Hyes : forall a b, truthy a = true -> js_or a b = a)
    by (intros a b H; unfold js_or; rewrite H; reflexivity).
  assert (Hno : forall a b, truthy a = false -> js_or a b = b)
    by (intros a b H; unfold js_or; rewrite H; reflexivity).
  unfold getClientIP.
  destruct (truthy (ip req)) eqn:E1.
  { destruct (truthy_Some _ E1) as (s & Hs & Hne).
    rewrite (Hyes (ip req)) by assumption.
    rewrite (Hyes (ip req)) by assumption.
    rewrite (Hyes (ip req)) by assumption.
    exists s. repeat split; auto; discriminate. }
  rewrite (Hno (ip req)) by assumption.
  destruct (truthy (remoteAddress req)) eqn:E2.
  { destruct (truthy_Some _ E2) as (s & Hs & Hne).
    rewrite (Hyes (remoteAddress req)) by assumption.
    rewrite (Hyes (remoteAddress req)) by assumption.
    exists s. repeat split; auto; discriminate. }
  rewrite (Hno (remoteAddress req)) by assumption.
  destruct (truthy (option_map first_segment (x_forwarded_for req))) eqn:E3.
  { destruct (truthy_Some _ E3) as (s & Hs & Hne).
    rewrite Hyes by assumption.
    exists s. split; [assumption|]. split; [assumption|].
    split; [discriminate|]. split; [discriminate|]. split; [|discriminate].
    intros _ _ h Hh _. rewrite Hh in Hs. simpl in Hs. inversion Hs.
    split; [reflexivity|]. apply first_segment_no_comma. }
  rewrite Hno by assumption.
  exists "127.0.0.1". split; [reflexivity|]. split; [discriminate|].
  split; [discriminate|]. split; [discriminate|]. split; [|reflexivity].
  intros _ _ h Hh Hne. exfalso. rewrite Hh in E3. simpl in E3.
  apply negb_false_iff, String.eqb_eq in E3. contradiction.
Qed.

(** A request without [req.ip], with an empty socket address and a forwarded
    header of two addresses. *)
Lemma X1_getClientIP_precedence_witness :
  getClientIP (mkTransport None (Some "") (Some "10.0.0.1, 10.0.0.2"))
  = Some "10.0.0.1".
Proof.
  destruct (X1_getClientIP_precedence
              (mkTransport None (Some "") (Some "10.0.0.1, 10.0.0.2")))
    as (s & Hs & _ & _ & _ & Hh & _).
  rewrite Hs. f_equal.
  apply (Hh eq_refl eq_refl "10.0.0.1, 10.0.0.2" eq_refl).
  discriminate.
Defined.

(** * What a verification writes *)

Lemma set_used_of_used (r : OtpRow) : is_used r = true -> set_used r = r.
Proof. destruct r. simpl. intros ->. reflexivity. Qed.

Lemma UPDATE_otps_any_Done (i : Z) (set : OtpRow -> OtpRow) (db db' : DB) (n : nat) :
  UPDATE_otps i any_row set db = Done n db' ->
  db' = with_otps (rewrite_row i set (otps db)) db.
Proof.
  unfold UPDATE_otps, update_otp.
  destruct (existsb _ (otps db)); [discriminate|].
  intros H. inversion H. f_equal. unfold rewrite_row. apply map_ext.
  intros r. unfold hits, any_row. rewrite andb_true_r. reflexivity.
Qed.

Lemma UPDATE_otps_used_Done (i : Z) (db db' : DB) (n : nat) :
  UPDATE_otps i still_unused set_used db = Done n db' ->
  db' = with_otps (rewrite_row i set_used (otps db)) db /\
  n = List.length (filter (hits i still_unused) (otps db)).
Proof.
  unfold UPDATE_otps, update_otp.
  destruct (existsb _ (otps db)); [discriminate|].
  intros H. inversion H. split; [|reflexivity].
  f_equal. unfold rewrite_row. apply map_ext.
  intros r. unfold hits, still_unused.
  destruct (id r =? i); simpl; [|reflexivity].
  destruct (is_used r) eqn:E; simpl; [|reflexivity].
  symmetry. apply set_used_of_used. assumption.
Qed.

Lemma rewrite_row_twice (i : Z) (f g : OtpRow -> OtpRow) (t : list OtpRow) :
  (forall r, id (f r) = id r) ->
  rewrite_row i g (rewrite_row i f t) = rewrite_row i (fun r => g (f r)) t.
Proof.
  intros Hf. unfold rewrite_row. rewrite map_map. apply map_ext. intros r.
  destruct (id r =? i) eqn:E; [rewrite Hf, E|rewrite E]; reflexivity.
Qed.

Lemma with_otps_twice (t1 t2 : list OtpRow) (db : DB) :
  with_otps t2 (with_otps t1 db) = with_otps t2 db.
Proof. reflexivity. Qed.

(** The part of the handler after the lock test, on the record as it is
    stored: [stored] is the row of the table that the in-memory [otp] was
    read from, possibly unlocked in between. *)
Lemma check_code_cases (otp : OtpRow) (c : string) (now : Z) (db db' : DB)
    (res : VerifyResult) :
  is_used otp = false ->
  (exists r, In r (otps db) /\ id r = id otp /\ is_used r = false) ->
  check_code otp c now db = Done res db' ->
  (code otp = c /\ res = VerificationSuccessful /\
   db' = with_otps (rewrite_row (id otp) set_used (otps db)) db) \/
  (code otp <> c /\ attempt_count otp + 1 < 3 /\
   res = InvalidCode (3 - (attempt_count otp + 1)) /\
   db' = with_otps (rewrite_row (id otp) (set_attempts (attempt_count otp + 1))
                                (otps db)) db) \/
  (code otp <> c /\ 3 <= attempt_count otp + 1 /\
   res = TooManyAttempts 600 /\
   db' = with_otps (rewrite_row (id otp)
                      (set_locked (attempt_count otp + 1) (now + 600000))
                      (otps db)) db).
Proof.
  intros Hu (r & Hr & Hid & Hru). unfold check_code. rewrite Hu.
  destruct (code otp =? c)%string eqn:Ec.
  - apply String.eqb_eq in Ec. unfold bind.
    destruct (UPDATE_otps (id otp) still_unused set_used db) as [n db1|e] eqn:Eu;
      [|discriminate].
    apply UPDATE_otps_used_Done in Eu. destruct Eu as [-> ->].
    assert (Hf : In r (filter (hits (id otp) still_unused) (otps db))).
    { apply filter_In. split; [assumption|].
      unfold hits, still_unused. rewrite Hid, Z.eqb_refl, Hru. reflexivity. }
    destruct (filter _ (otps db)); [contradiction|]. simpl.
    intros H. inversion H. left. auto.
  - apply String.eqb_neq in Ec. cbv zeta.
    change (10 * 60 * 1000) with 600000.
    destruct (3 <=? attempt_count otp + 1) eqn:E3; unfold bind;
      (destruct (UPDATE_otps _ _ _ db) as [n db1|e] eqn:Eu; [|discriminate]);
      apply UPDATE_otps_any_Done in Eu; subst db1;
      intros H; inversion H; right.
    + right. apply Z.leb_le in E3. auto.
    + left. apply Z.leb_gt in E3. auto.
Qed.

Lemma lock_test_NoLock_or (otp : OtpRow) (now : Z) :
  lock_test otp now = NoLock \/
  (exists s, lock_test otp now = StillLocked s) \/
  lock_test otp now = LockLapsed.
Proof. destruct (lock_test otp now); eauto. Qed.

(** The outcome table of a verification: either nothing is written (an
    internal error, no unconsumed record, or a lock still running); or one
    of the six cases of [verify_case] applies to the selected record and the
    rows carrying its id are rewritten accordingly. *)
Lemma otp_verify_cases (req : VerifyRequest) (now : Z) (db db' : DB)
    (res : VerifyResult) :
  well_formed_verify req ->
  otp_verify req now db = (db', res) ->
  (db' = db /\
   (res = VerifyInternalError \/
    (res = OtpNotFound /\
     select_latest_unused (vreq_user_id req) (vreq_purpose req) db = None) \/
    (exists otp s,
        select_latest_unused (vreq_user_id req) (vreq_purpose req) db = Some otp /\
        now <= expires_at otp /\ lock_test otp now = StillLocked s /\
        res = TooManyAttempts s)))
  \/
  (exists otp f,
      select_latest_unused (vreq_user_id req) (vreq_purpose req) db = Some otp /\
      verify_case otp (vreq_code req) now f res /\
      db' = with_otps (rewrite_row (id otp) f (otps db)) db).
Proof.
  intros Hwf. rewrite otp_verify_well_formed by assumption.
  destruct (select_latest_unused (vreq_user_id req) (vreq_purpose req) db)
    as [otp|] eqn:Es.
  2:{ rewrite verify_nothing_selected by assumption.
      intros H. inversion H. left. auto. }
  rewrite (verify_selected _ _ _ _ Es).
  pose proof (select_latest_unused_Some _ _ _ _ Es) as (Hin & _ & Hu).
  destruct (verify_found otp (vreq_code req) now db) as [r dbx|e] eqn:Ev.
  2:{ intros H. inversion H. left. auto. }
  intros H. inversion H; subst r dbx. clear H.
  unfold verify_found in Ev.
  destruct (expires_at otp <? now) eqn:Ee.
  { apply Z.ltb_lt in Ee. unfold bind in Ev.
    destruct (UPDATE_otps _ _ _ db) as [n db1|e] eqn:Eu; [|discriminate].
    apply UPDATE_otps_any_Done in Eu. inversion Ev; subst.
    right. exists otp, set_used. split; [reflexivity|].
    split; [constructor; assumption|reflexivity]. }
  apply Z.ltb_ge in Ee.
  destruct (lock_test otp now) as [s| |] eqn:El.
  - inversion Ev; subst. left. split; [reflexivity|].
    right. right. exists otp, s. auto.
  - unfold bind in Ev.
    destruct (UPDATE_otps _ _ _ db) as [n db1|e] eqn:Eu; [|discriminate].
    apply UPDATE_otps_any_Done in Eu. subst db1.
    apply check_code_cases in Ev; [|exact Hu|].
    2:{ exists (set_unlocked otp). split; [|split; [reflexivity|exact Hu]].
        simpl. unfold rewrite_row. apply in_map_iff. exists otp.
        rewrite Z.eqb_refl. auto. }
    cbn [id code attempt_count otps with_otps] in Ev.
    rewrite !rewrite_row_twice in Ev by reflexivity.
    right. exists otp.
    destruct Ev as [(Hc & -> & ->)|[(Hc & Hn & -> & ->)|(Hc & Hn & _)]].
    + exists (fun r => set_used (set_unlocked r)).
      split; [reflexivity|]. split; [|reflexivity].
      apply case_success_unlocking; assumption.
    + exists (fun r => set_attempts 1 (set_unlocked r)).
      split; [reflexivity|]. split; [|reflexivity].
      apply case_wrong_unlocking; assumption.
    + exfalso. lia.
  - apply check_code_cases in Ev; [|exact Hu|exists otp; auto].
    right. exists otp.
    destruct Ev as [(Hc & -> & ->)|[(Hc & Hn & -> & ->)|(Hc & Hn & -> & ->)]].
    + exists set_used. split; [reflexivity|]. split; [|reflexivity].
      apply case_success; assumption.
    + exists (set_attempts (attempt_count otp + 1)).
      split; [reflexivity|]. split; [|reflexivity].
      apply case_wrong; assumption.
    + exists (set_locked (attempt_count otp + 1) (now + 600000)).
      split; [reflexivity|]. split; [|reflexivity].
      apply case_wrong_locking; assumption.
Qed.

(** * What a request writes *)

Lemma otp_request_Created (req : IssueRequest) (clk : Clock) (rnd : Z)
    (db db' : DB) (resp : Response) :
  otp_request req clk rnd db = (db', Created resp) ->
  let u := req_user_id req in
  let p := req_purpose req in
  let since := js_now clk - 15 * 60 * 1000 in
  let i := otps_auto_increment db in
  well_formed req /\
  select_idempotency (req_idempotency_key req) (db_now clk) db = [] /\
  count_requests u since (user_rate_limits db) < 3 /\
  count_requests (req_ip req) since (ip_rate_limits db) < 8 /\
  exists t1,
    ((select_active_otp u p (db_now clk) db = [] /\ t1 = otps db) \/
     (exists row rest,
         select_active_otp u p (db_now clk) db = row :: rest /\
         t1 = mark_used (id row) (otps db) /\
         existsb (fun r => hits (id row) any_row r
                           && existsb (fun o => negb (id o =? id row)
                                                && same_uk (set_used r) o)
                                      (otps db))
                 (otps db) = false)) /\
    existsb (same_uk (issued_row req clk rnd i)) t1 = false /\
    existsb (fun r => (idempotency_key r =? req_idempotency_key req)%string)
            (idempotency_keys db) = false /\
    resp = issued_response i
             (3 - count_requests u since (user_rate_limits db) - 1) /\
    db' = mkDB (t1 ++ [issued_row req clk rnd i]) (i + 1)
               (user_rate_limits db ++ [mkRate u (db_now clk)])
               (ip_rate_limits db ++ [mkRate (req_ip req) (db_now clk)])
               (idempotency_keys db ++ [issued_key req clk resp]).
Proof.
  intros Hc u p since i. unfold otp_request in Hc.
  destruct (missing (req_user_id req)) eqn:M1; [discriminate|].
  destruct (missing (req_purpose req)) eqn:M2; [discriminate|].
  destruct (missing (req_idempotency_key req)) eqn:M3; [discriminate|].
  simpl in Hc.
  assert (Hwf : well_formed req).
  { unfold missing in *. repeat split; apply String.eqb_neq; assumption. }
  destruct (issue req clk rnd db) as [x dbx|[s|]] eqn:Ei; inversion Hc; subst.
  apply issue_Created in Ei.
  destruct Ei as (Hmiss & info & db1 & db2 & Hck & Hinv & Hfresh & Hkey & -> & ->).
  apply checkRateLimits_Done in Hck. destruct Hck as (-> & -> & Hu & Hi).
  apply invalidate_active_otp_Done in Hinv.
  split; [assumption|]. split; [assumption|].
  split; [assumption|]. split; [assumption|].
  change (select_active_otp (req_user_id req) (req_purpose req) (db_now clk)
            (record_request (req_user_id req) (req_ip req) (db_now clk) db))
    with (select_active_otp u p (db_now clk) db) in Hinv.
  destruct (select_active_otp u p (db_now clk) db) as [|row rest] eqn:Es.
  - subst db2. exists (otps db). split; [left; auto|]. auto.
  - destruct Hinv as [Hclash ->]. exists (mark_used (id row) (otps db)).
    split; [right; exists row, rest; auto|]. auto.
Qed.

(** A request that is not served writes nothing; one that is served keeps
    the table but for at most one row marked used, and appends one row. *)
Lemma otp_request_rows (req : IssueRequest) (clk : Clock) (rnd : Z) (db : DB) :
  fst (otp_request req clk rnd db) = db \/
  exists row,
    (row = None \/ exists r, row = Some r /\ In r (otps db) /\ is_used r = false) /\
    otps (fst (otp_request req clk rnd db))
    = (match row with
       | Some r => mark_used (id r) (otps db)
       | None => otps db
       end) ++ [issued_row req clk rnd (otps_auto_increment db)].
Proof.
  destruct (otp_request req clk rnd db) as [db' res] eqn:E. simpl.
  destruct res as [resp| | | |];
    try (left; eapply otp_request_unchanged_unless_created;
         [exact E|intros resp'; discriminate]).
  right. apply otp_request_Created in E. cbv zeta in E.
  destruct E as (_ & _ & _ & _ & t1 & Ht1 & _ & _ & _ & ->). simpl.
  destruct Ht1 as [(_ & ->)|(row & rest & Es & -> & _)].
  - exists None. auto.
  - exists (Some row). split; [|reflexivity]. right. exists row.
    assert (Hin : In row (select_active_otp (req_user_id req) (req_purpose req)
                            (db_now clk) db)) by (rewrite Es; left; reflexivity).
    apply select_active_otp_In in Hin. tauto.
Qed.

(** * Further properties of verification *)

Lemma otp_verify_well_formed_or_missing (req : VerifyRequest) (now : Z) (db : DB) :
  well_formed_verify req \/ otp_verify req now db = (db, VerifyMissingFields).
Proof.
  unfold otp_verify, well_formed_verify, missing.
  destruct (vreq_user_id req =? "")%string eqn:E1; [right; reflexivity|].
  destruct (vreq_purpose req =? "")%string eqn:E2; [right; reflexivity|].
  destruct (vreq_code req =? "")%string eqn:E3; [right; reflexivity|].
  left. repeat split; apply String.eqb_neq; assumption.
Qed.

Lemma for_pair_true (u p : string) (r : OtpRow) :
  for_pair u p r = true <-> user_id r = u /\ purpose r = p.
Proof.
  unfold for_pair. rewrite andb_true_iff, !String.eqb_eq. tauto.
Qed.

Lemma verify_case_same_identity otp c now f res :
  verify_case otp c now f res -> forall r, same_identity r (f r).
Proof.
  intros H r. destruct H; repeat split.
Qed.

Lemma verify_case_not_still_locked otp c now f res :
  verify_case otp c now f res ->
  res = VerificationSuccessful ->
  code otp = c /\ now <= expires_at otp /\
  (forall until, is_locked otp = true -> locked_until otp = Some until ->
                 until <= now) /\
  forall r, is_used (f r) = true.
Proof.
  intros H E.
  assert (Hgate : forall until,
             lock_test otp now <> StillLocked (ceil_seconds (until - now)) ->
             is_locked otp = true -> locked_until otp = Some until ->
             until <= now).
  { intros lu Hg Hl Hu. unfold lock_test in Hg. rewrite Hl, Hu in Hg.
    destruct (now <? lu) eqn:En; [contradiction Hg; reflexivity|].
    apply Z.ltb_ge in En. assumption. }
  destruct H as [He|Hlive Hg Hc|Hlive Hg Hc|Hlive Hg Hc Hn|Hlive Hg Hc Hn
                 |Hlive Hg Hc]; try discriminate.
  - repeat split; auto. intros lu. apply Hgate. rewrite Hg. discriminate.
  - repeat split; auto. intros lu. apply Hgate. rewrite Hg. discriminate.
Qed.

(** X2: a verification succeeds only on the code that is stored: the record
    it selected is an unconsumed record of the pair whose code is the one
    given, which has not expired and whose lock, if any, has ended; and that
    record is consumed. *)
Theorem X2_success_requires_stored_code
    (req : VerifyRequest) (now : Z) (db db' : DB) :
  otp_verify req now db = (db', VerificationSuccessful) ->
  exists otp,
    select_latest_unused (vreq_user_id req) (vreq_purpose req) db = Some otp /\
    In otp (otps db) /\
    user_id otp = vreq_user_id req /\ purpose otp = vreq_purpose req /\
    is_used otp = false /\
    code otp = vreq_code req /\
    now <= expires_at otp /\
    (forall until, is_locked otp = true -> locked_until otp = Some until ->
                   until <= now) /\
    (forall r', In r' (otps db') -> id r' = id otp -> is_used r' = true).
Proof.
  intros E.
  assert (Hwf : well_formed_verify req).
  { destruct (otp_verify_well_formed_or_missing req now db) as [H|H];
      [exact H|]. rewrite H in E. discriminate. }
  destruct (otp_verify_cases req now db db' _ Hwf E)
    as [(_ & [H|[(H & _)|(o & s & _ & _ & _ & H)]])|(otp & f & Hs & Hc & ->)];
    try discriminate.
  pose proof (select_latest_unused_Some _ _ _ _ Hs) as (Hin & Hp & Hu).
  apply for_pair_true in Hp. destruct Hp as [Hp1 Hp2].
  destruct (verify_case_not_still_locked _ _ _ _ _ Hc eq_refl)
    as (Hcode & Hlive & Hlock & Hused).
  exists otp. repeat split; auto.
  intros r' Hr' Hid. simpl in Hr'. unfold rewrite_row in Hr'.
  apply in_map_iff in Hr'. destruct Hr' as (x & <- & Hx).
  destruct (id x =? id otp) eqn:Ex; [apply Hused|].
  apply Z.eqb_neq in Ex. contradiction.
Qed.

(** The code of the record issued at 0, given at 1 s. *)
Lemma X2_success_requires_stored_code_witness :
  exists otp,
    select_latest_unused "U1" "login" first_issue_db = Some otp /\
    In otp (otps first_issue_db) /\
    user_id otp = "U1" /\ purpose otp = "login" /\
    is_used otp = false /\
    code otp = "123456" /\
    1000 <= expires_at otp /\
    (forall until, is_locked otp = true -> locked_until otp = Some until ->
                   until <= 1000) /\
    (forall r', In r' (otps (fst (otp_verify (U1_code "123456") 1000
                                             first_issue_db))) ->
                id r' = id otp -> is_used r' = true).
Proof.
  apply (X2_success_requires_stored_code (U1_code "123456") 1000 first_issue_db).
  vm_compute. reflexivity.
Defined.

Lemma newest_from_max (rows : list OtpRow) :
  forall (b : option OtpRow) (r : OtpRow),
    fold_left (fun best x =>
                 match best with
                 | None => Some x
                 | Some b => if created_at b <? created_at x then Some x else Some b
                 end) rows b = Some r ->
    (forall b0, b = Some b0 -> created_at b0 <= created_at r) /\
    (forall x, In x rows -> created_at x <= created_at r).
Proof.
  induction rows as [|y rows IH]; simpl; intros b r H.
  - split; [|contradiction]. intros b0 Hb. rewrite Hb in H. inversion H. lia.
  - apply IH in H. destruct H as [H1 H2]. split.
    + intros b0 ->. destruct (created_at b0 <? created_at y) eqn:E.
      * apply Z.ltb_lt in E. specialize (H1 y eq_refl). lia.
      * apply (H1 b0 eq_refl).
    + intros x [Hx|Hx]; [subst x|auto].
      destruct b as [b0|]; [|apply (H1 y eq_refl)].
      destruct (created_at b0 <? created_at y) eqn:E.
      * apply (H1 y eq_refl).
      * apply Z.ltb_ge in E. specialize (H1 b0 eq_refl). lia.
Qed.

(** X3: a verification answers [OtpNotFound] exactly when the pair has no
    unconsumed record, and then writes nothing; otherwise the record it works
    on is an unconsumed record of the pair with the greatest [created_at]. *)
Theorem X3_verify_targets_newest_unconsumed
    (req : VerifyRequest) (now : Z) (db : DB) :
  well_formed_verify req ->
  (snd (otp_verify req now db) = OtpNotFound <->
   forall r, In r (otps db) ->
             for_pair (vreq_user_id req) (vreq_purpose req) r = true ->
             is_used r = true) /\
  (snd (otp_verify req now db) = OtpNotFound ->
   fst (otp_verify req now db) = db) /\
  (forall otp,
     select_latest_unused (vreq_user_id req) (vreq_purpose req) db = Some otp ->
     In otp (otps db) /\
     for_pair (vreq_user_id req) (vreq_purpose req) otp = true /\
     is_used otp = false /\
     forall r, In r (otps db) ->
               for_pair (vreq_user_id req) (vreq_purpose req) r = true ->
               is_used r = false -> created_at r <= created_at otp).
Proof.
  intros Hwf.
  assert (Hnf : snd (otp_verify req now db) = OtpNotFound ->
                select_latest_unused (vreq_user_id req) (vreq_purpose req) db
                = None /\ fst (otp_verify req now db) = db).
  { destruct (otp_verify req now db) as [db' res] eqn:E. simpl. intros ->.
    destruct (otp_verify_cases req now db db' _ Hwf E)
      as [(-> & [H|[(_ & H)|(o & s & _ & _ & _ & H)]])|(otp & f & _ & Hc & _)];
      try discriminate; auto.
    inversion Hc. }
  split; [split|split].
  - intros H. destruct (Hnf H) as [Hs _].
    unfold select_latest_unused in Hs. apply newest_None in Hs.
    intros r Hr Hp. destruct (is_used r) eqn:Eu; [reflexivity|exfalso].
    assert (Hf : In r (filter (fun r => for_pair (vreq_user_id req)
                                         (vreq_purpose req) r
                                       && negb (is_used r)) (otps db))).
    { apply filter_In. split; [assumption|]. rewrite Hp, Eu. reflexivity. }
    rewrite Hs in Hf. exact Hf.
  - intros H. rewrite otp_verify_well_formed by assumption.
    rewrite verify_nothing_selected; [reflexivity|].
    apply select_latest_unused_None. assumption.
  - intros H. apply (Hnf H).
  - intros otp Hs.
    pose proof (select_latest_unused_Some _ _ _ _ Hs) as (Hin & Hp & Hu).
    repeat split; auto.
    intros r Hr Hpr Hur. unfold select_latest_unused, newest in Hs.
    apply newest_from_max in Hs. destruct Hs as [_ Hmax]. apply Hmax.
    apply filter_In. split; [assumption|]. rewrite Hpr, Hur. reflexivity.
Qed.

(** After the lockout of ("U1", "login") and a new request, the new record
    is the one verified. *)
Lemma X3_verify_targets_newest_unconsumed_witness :
  select_latest_unused "U1" "login" (run reissue_history empty_db)
    = Some second_record /\
  created_at locked_record <= created_at second_record.
Proof.
  assert (E : select_latest_unused "U1" "login" (run reissue_history empty_db)
              = Some second_record) by (vm_compute; reflexivity).
  split; [exact E|].
  destruct (X3_verify_targets_newest_unconsumed (U1_code "654321") 5000
              (run reissue_history empty_db)) as (_ & _ & H).
  { repeat split; discriminate. }
  destruct (H second_record E) as (_ & _ & _ & Hmax).
  apply Hmax.
  - vm_compute. left. reflexivity.
  - reflexivity.
  - reflexivity.
Defined.

(** ** Row-wise invariants of the handlers *)

Section Rowwise.

Variable Q : OtpRow -> Prop.
Hypothesis Q_used : forall r, Q r -> Q (set_used r).

Lemma UPDATE_otps_all_rows (i : Z) guard (set : OtpRow -> OtpRow) :
  (forall r, Q r -> Q (set r)) ->
  preserves (all_rows Q) (UPDATE_otps i guard set).
Proof.
  intros Hset db H. unfold UPDATE_otps, update_otp.
  destruct (existsb _ (otps db)); [exact I|].
  intros r' Hr'. simpl in Hr'. apply in_map_iff in Hr'.
  destruct Hr' as (r & <- & Hr). destruct (hits i guard r); auto.
Qed.

Lemma same_otps_all_rows {A} (m : Tx A) :
  (forall db, match m db with
              | Done _ db' => otps db' = otps db
              | Raised _ => True
              end) ->
  preserves (all_rows Q) m.
Proof.
  intros Hm db H. specialize (Hm db).
  destruct (m db) as [a db'|e]; [|exact I].
  unfold all_rows. rewrite Hm. assumption.
Qed.

Lemma issue_all_rows req clk rnd :
  (forall i, Q (issued_row req clk rnd i)) ->
  preserves (all_rows Q) (issue req clk rnd).
Proof.
  intros Hnew. unfold issue.
  apply preserves_bind; [apply preserves_query|]. intros sel.
  destruct sel as [|row rest];
    [|apply preserves_bind; [apply preserves_throw|intros; apply preserves_ret]].
  apply preserves_bind.
  { apply same_otps_all_rows. intros db. rewrite checkRateLimits_eq. cbv zeta.
    destruct (3 <=? _); [destruct (oldest_request _ _ _); exact I|].
    destruct (8 <=? _); [destruct (oldest_request _ _ _); exact I|].
    reflexivity. }
  intros info. apply preserves_bind.
  { unfold invalidate_active_otp.
    apply preserves_bind; [apply preserves_query|]. intros l.
    destruct l as [|row rest]; [apply preserves_ret|].
    apply preserves_bind; [|intros; apply preserves_ret].
    apply UPDATE_otps_all_rows, Q_used. }
  intros _. apply preserves_bind.
  { intros db H. unfold INSERT_otps, insert_otp.
    destruct (existsb _ (otps db)); [exact I|].
    intros r Hr. simpl in Hr. apply in_app_iff in Hr.
    destruct Hr as [Hr|[<-|[]]]; [auto|]. apply (Hnew (otps_auto_increment db)). }
  intros i. apply preserves_bind; [|intros; apply preserves_ret].
  apply same_otps_all_rows. intros db. unfold INSERT_idempotency_keys.
  destruct (existsb _ _); [exact I|reflexivity].
Qed.

Lemma verify_all_rows req now :
  (forall r, Q r -> Q (set_unlocked r)) ->
  (forall n r, Q r -> Q (set_attempts n r)) ->
  (forall n r, Q r -> Q (set_locked n (now + 10 * 60 * 1000) r)) ->
  preserves (all_rows Q) (verify req now).
Proof.
  intros Hun Hat Hlk.
  assert (Hcheck : forall otp c, preserves (all_rows Q) (check_code otp c now)).
  { intros otp c. unfold check_code.
    destruct (is_used otp); [apply preserves_ret|].
    destruct (code otp =? c)%string.
    - apply preserves_bind; [apply UPDATE_otps_all_rows, Q_used|].
      intros n. destruct (Nat.eqb n 0); apply preserves_ret.
    - destruct (3 <=? attempt_count otp + 1);
        (apply preserves_bind; [|intros; apply preserves_ret]);
        apply UPDATE_otps_all_rows; auto. }
  unfold verify. apply preserves_bind; [apply preserves_query|]. intros sel.
  destruct sel as [otp|]; [|apply preserves_ret].
  unfold verify_found. destruct (expires_at otp <? now).
  - apply preserves_bind; [|intros; apply preserves_ret].
    apply UPDATE_otps_all_rows, Q_used.
  - destruct (lock_test otp now); [apply preserves_ret| |apply Hcheck].
    apply preserves_bind; [|intros; apply Hcheck].
    apply UPDATE_otps_all_rows, Hun.
Qed.

End Rowwise.

Lemma history_locked_by (t : Z) (db : DB) :
  history t db -> all_rows (locked_by t) db.
Proof.
  induction 1 as [t|t db e Hh IH Ht].
  - intros r [].
  - assert (IH' : all_rows (locked_by (event_time e)) db).
    { intros r Hr lu Hu. specialize (IH r Hr lu Hu). lia. }
    destruct e as [req clk rnd|req now]; simpl in *.
    + unfold otp_request. destruct (_ || _); [assumption|].
      pose proof (issue_all_rows (locked_by (js_now clk))
                    (fun r H => H) req clk rnd
                    ltac:(intros i lu Hu; discriminate) db IH') as P.
      destruct (issue req clk rnd db) as [r db'|[s|]]; assumption.
    + unfold otp_verify. destruct (_ || _); [assumption|].
      pose proof (verify_all_rows (locked_by now) (fun r H => H) req now
                    ltac:(intros r _ lu Hu; discriminate)
                    ltac:(intros n r H; exact H)
                    ltac:(intros n r _ lu Hu; simpl in Hu; inversion Hu; lia)
                    db IH') as P.
      destruct (verify req now db) as [r db'|e]; assumption.
Qed.

(** X4: while the lock of the selected record runs, every code, the stored
    one included, is answered [TooManyAttempts] with the time left rounded up
    to seconds, and nothing is written.  In a history whose clock does not
    run backwards that time is between 1 and 600 seconds. *)
Theorem X4_running_lock_refuses_every_code
    (req : VerifyRequest) (now : Z) (db : DB) (otp : OtpRow) (until : Z) :
  well_formed_verify req ->
  select_latest_unused (vreq_user_id req) (vreq_purpose req) db = Some otp ->
  now <= expires_at otp ->
  is_locked otp = true -> locked_until otp = Some until -> now < until ->
  otp_verify req now db = (db, TooManyAttempts (ceil_seconds (until - now))) /\
  (forall t, history t db -> t <= now ->
             1 <= ceil_seconds (until - now) <= 600).
Proof.
  intros Hwf Hs Hlive Hl Hu Hnow. split.
  - rewrite otp_verify_well_formed by assumption.
    rewrite (verify_selected _ _ _ _ Hs). unfold verify_found.
    destruct (expires_at otp <? now) eqn:E; [apply Z.ltb_lt in E; lia|].
    unfold lock_test. rewrite Hl, Hu.
    apply Z.ltb_lt in Hnow. rewrite Hnow. reflexivity.
  - intros t Hh Ht.
    pose proof (select_latest_unused_Some _ _ _ _ Hs) as (Hin & _ & _).
    pose proof (history_locked_by t db Hh otp Hin until Hu) as Hby.
    pose proof (ceil_seconds_rounds_up (until - now)) as Hc.
    unfold rounds_up_to in Hc. lia.
Qed.

(** The stored code given at 4 s, during the lock that ends at 603 s. *)
Lemma X4_running_lock_refuses_every_code_witness :
  otp_verify (U1_code "123456") 4000 (run lockout_history empty_db)
  = (run lockout_history empty_db, TooManyAttempts (ceil_seconds (603000 - 4000)))
  /\ 1 <= ceil_seconds (603000 - 4000) <= 600.
Proof.
  destruct (X4_running_lock_refuses_every_code (U1_code "123456") 4000
              (run lockout_history empty_db) locked_record 603000)
    as [H1 H2].
  - repeat split; discriminate.
  - vm_compute. reflexivity.
  - simpl. lia.
  - reflexivity.
  - reflexivity.
  - lia.
  - split; [exact H1|].
    apply (H2 3000); [apply lockout_history_is_chronological|lia].
Defined.

(** X5: a verification writes to the [otps] table only: the rate-limit
    tables, the idempotency keys and the id counter are kept.  No row is
    added or removed, no row changes its id, user, purpose, code, creation or
    expiry time, and a row whose id is not that of the selected record is
    kept as it is. *)
Theorem X5_verify_touches_one_record
    (req : VerifyRequest) (now : Z) (db : DB) :
  let db' := fst (otp_verify req now db) in
  user_rate_limits db' = user_rate_limits db /\
  ip_rate_limits db' = ip_rate_limits db /\
  idempotency_keys db' = idempotency_keys db /\
  otps_auto_increment db' = otps_auto_increment db /\
  exists g,
    otps db' = map g (otps db) /\
    (forall r, same_identity r (g r)) /\
    (forall r, select_latest_unused (vreq_user_id req) (vreq_purpose req) db
               = None -> g r = r) /\
    (forall otp r,
        select_latest_unused (vreq_user_id req) (vreq_purpose req) db
        = Some otp -> id r <> id otp -> g r = r).
Proof.
  intros db'. subst db'.
  assert (Hsame : fst (otp_verify req now db) = db ->
    user_rate_limits (fst (otp_verify req now db)) = user_rate_limits db /\
    ip_rate_limits (fst (otp_verify req now db)) = ip_rate_limits db /\
    idempotency_keys (fst (otp_verify req now db)) = idempotency_keys db /\
    otps_auto_increment (fst (otp_verify req now db)) = otps_auto_increment db /\
    exists g,
      otps (fst (otp_verify req now db)) = map g (otps db) /\
      (forall r, same_identity r (g r)) /\
      (forall r, select_latest_unused (vreq_user_id req) (vreq_purpose req) db
                 = None -> g r = r) /\
      (forall otp r,
          select_latest_unused (vreq_user_id req) (vreq_purpose req) db
          = Some otp -> id r <> id otp -> g r = r)).
  { intros ->. repeat split; try reflexivity.
    exists (fun r => r). rewrite map_id. repeat split; reflexivity. }
  destruct (otp_verify_well_formed_or_missing req now db) as [Hwf|Hm];
    [|apply Hsame; rewrite Hm; reflexivity].
  destruct (otp_verify req now db) as [dbx res] eqn:E.
  destruct (otp_verify_cases req now db dbx res Hwf E)
    as [(-> & _)|(otp & f & Hs & Hc & ->)]; [apply Hsame; reflexivity|].
  simpl. repeat split; try reflexivity.
  exists (fun r => if id r =? id otp then f r else r).
  split; [reflexivity|]. split; [|split].
  - intros r. destruct (id r =? id otp).
    + apply (verify_case_same_identity _ _ _ _ _ Hc).
    + repeat split.
  - intros r Hn. rewrite Hn in Hs. discriminate.
  - intros o r Ho Hne. rewrite Hs in Ho. inversion Ho; subst o.
    apply Z.eqb_neq in Hne. rewrite Hne. reflexivity.
Qed.

(** A wrong code for ("U1", "login") while a record of ("U1", "payment") is
    stored: the record of the other pair is kept. *)
Lemma X5_verify_touches_one_record_witness :
  exists g,
    otps (fst (otp_verify (U1_code "000000") 130000
                          (run three_requests empty_db)))
    = map g (otps (run three_requests empty_db)) /\
    g (mkOtp 2 "U1" "payment" "222222" 60000 360000 false false None 0)
    = mkOtp 2 "U1" "payment" "222222" 60000 360000 false false None 0.
Proof.
  destruct (X5_verify_touches_one_record (U1_code "000000") 130000
              (run three_requests empty_db))
    as (_ & _ & _ & _ & g & Hg & _ & _ & Hother).
  exists g. split; [exact Hg|].
  apply (Hother (mkOtp 1 "U1" "login" "111111" 0 300000 false false None 0)).
  - vm_compute. reflexivity.
  - discriminate.
Defined.

(** X8: an answer that reports a failure comes with no write.  A request
    that is not answered [Created] leaves the database as it was; a
    verification that changes the database answers [OtpExpired],
    [VerificationSuccessful], [InvalidCode] or [TooManyAttempts 600]. *)
Theorem X8_failures_write_nothing :
  (forall req clk rnd db,
     (forall resp, snd (otp_request req clk rnd db) <> Created resp) ->
     fst (otp_request req clk rnd db) = db) /\
  (forall req now db,
     fst (otp_verify req now db) <> db ->
     snd (otp_verify req now db) = OtpExpired \/
     snd (otp_verify req now db) = VerificationSuccessful \/
     (exists n, snd (otp_verify req now db) = InvalidCode n) \/
     snd (otp_verify req now db) = TooManyAttempts 600).
Proof.
  split.
  - intros req clk rnd db H.
    destruct (otp_request req clk rnd db) as [db' r] eqn:E. simpl in *.
    eapply otp_request_unchanged_unless_created; eassumption.
  - intros req now db Hne.
    destruct (otp_verify_well_formed_or_missing req now db) as [Hwf|Hm];
      [|rewrite Hm in Hne; contradiction Hne; reflexivity].
    destruct (otp_verify req now db) as [dbx res] eqn:E. simpl in *.
    destruct (otp_verify_cases req now db dbx res Hwf E)
      as [(-> & _)|(otp & f & _ & Hc & _)]; [contradiction Hne; reflexivity|].
    destruct Hc; eauto.
Qed.

(** In the sequence of the test script the third request of "U1" passes the
    limiter and then fails on the unique key: no rate-limit entry is left. *)
Lemma X8_failures_write_nothing_witness :
  fst (otp_request (U1_login "k3") (at_ms 310000) 777777
                   (run test_sequence empty_db))
  = run test_sequence empty_db.
Proof.
  apply (proj1 X8_failures_write_nothing).
  intros resp. vm_compute. discriminate.
Defined.

(** * Invariants of histories, with housekeeping *)

(** Deleting rows keeps a key column free of repetitions. *)
Lemma rows_deleted_keep_key {Row Key : Type} (column : Row -> Key)
    (kept : Row -> bool) (table : list Row) :
  NoDup (map column table) -> NoDup (map column (filter kept table)).
Proof.
  induction table as [|row table IH]; simpl; intros Hkey; [constructor|].
  inversion Hkey as [|? ? Hrow Hrest]; subst.
  destruct (kept row); simpl; [|auto].
  constructor; [|auto].
  intros Hin. apply Hrow. apply in_map_iff in Hin.
  destruct Hin as (other & Hsame & Hin). apply filter_In in Hin.
  rewrite <- Hsame. apply in_map. tauto.
Qed.

Lemma CleanupExpiredData_table_ok (now : Z) (db : DB) :
  table_ok db -> table_ok (CleanupExpiredData now db).
Proof.
  intros [Huk Hpk Hai Hlk Hik]. constructor; simpl.
  - intros r1 r2 H1 H2. apply filter_In in H1, H2. apply Huk; tauto.
  - apply rows_deleted_keep_key. assumption.
  - intros r Hr. apply filter_In in Hr. apply Hai. tauto.
  - intros r Hr. apply filter_In in Hr. apply Hlk. tauto.
  - apply rows_deleted_keep_key. assumption.
Qed.

Lemma operate_table_ok (db : DB) (op : Operation) :
  table_ok db -> table_ok (operate db op).
Proof.
  destruct op as [e|now]; simpl;
    [apply step_table_ok|apply CleanupExpiredData_table_ok].
Qed.

Lemma maintained_table_ok (db : DB) : maintained db -> table_ok db.
Proof.
  intros [ops <-].
  assert (G : forall d, table_ok d -> table_ok (fold_left operate ops d)).
  { induction ops as [|op ops IH]; intros d H; simpl; [assumption|].
    apply IH, operate_table_ok, H. }
  apply G, empty_db_table_ok.
Qed.

Lemma reachable_maintained (db : DB) : reachable db -> maintained db.
Proof.
  intros [events <-]. exists (map Handle events). unfold run.
  generalize empty_db. induction events as [|e events IH]; intros d; simpl;
    [reflexivity|apply IH].
Qed.

(** X14: housekeeping keeps what the requests and verifications maintain.
    In every state reached by requests, verifications and calls of
    [CleanupExpiredData], in any order, a pair has at most one unconsumed
    record per lock flag, ids are not repeated and stay below the id counter,
    every locked record carries the end of its lock, and no idempotency key
    is stored twice. *)
Theorem X14_housekeeping_keeps_invariants (db : DB) :
  maintained db ->
  single_active db /\
  NoDup (map id (otps db)) /\
  (forall r, In r (otps db) -> id r < otps_auto_increment db) /\
  (forall r, In r (otps db) -> is_locked r = true -> locked_until r <> None) /\
  NoDup (map idempotency_key (idempotency_keys db)).
Proof.
  intros H. apply maintained_table_ok in H.
  destruct H as [Huk Hpk Hai Hlk Hik].
  split; [|auto].
  intros r1 r2 H1 H2 Hu Hp U1 U2 Hl.
  apply (same_id_same_row (otps db)); try assumption.
  apply Huk; try assumption.
  apply same_uk_true. repeat split; congruence.
Qed.

(** The lockout followed by a housekeeping at 400 s and a new request. *)
Lemma X14_housekeeping_keeps_invariants_witness :
  single_active
    (fold_left operate
       (map Handle lockout_history
        ++ [Housekeeping 400000;
            Handle (Issue (U1_login "k2") (at_ms 401000) 654321)])
       empty_db).
Proof.
  apply X14_housekeeping_keeps_invariants.
  eexists. reflexivity.
Defined.

Lemma rewrite_row_In (i : Z) (f : OtpRow -> OtpRow) (t : list OtpRow)
    (r' : OtpRow) :
  In r' (rewrite_row i f t) ->
  (In r' t /\ id r' <> i) \/ (exists r, In r t /\ id r = i /\ r' = f r).
Proof.
  unfold rewrite_row. intros H. apply in_map_iff in H.
  destruct H as (x & Hx & Hin). destruct (id x =? i) eqn:E.
  - right. exists x. apply Z.eqb_eq in E. auto.
  - left. subst r'. apply Z.eqb_neq in E. auto.
Qed.

Lemma rewrite_row_keeps (i : Z) (f : OtpRow -> OtpRow) (t : list OtpRow)
    (r : OtpRow) :
  In r t -> id r <> i -> In r (rewrite_row i f t).
Proof.
  intros Hin Hne. unfold rewrite_row. apply in_map_iff. exists r.
  apply Z.eqb_neq in Hne. rewrite Hne. auto.
Qed.

Lemma lock_test_NoLock_unlocked (otp : OtpRow) (now : Z) :
  lock_coherent otp -> lock_test otp now = NoLock -> is_locked otp = false.
Proof.
  unfold lock_coherent, lock_test. intros Hc H.
  destruct (is_locked otp); [|reflexivity].
  destruct (locked_until otp) as [lu|]; [|exfalso; apply Hc; reflexivity].
  destruct (now <? lu); discriminate.
Qed.

Lemma verify_case_counter_ok otp c now f res :
  verify_case otp c now f res ->
  lock_coherent otp -> counter_ok otp -> counter_ok (f otp).
Proof.
  intros H Hc Hk.
  destruct H as [He|Hlive Hg Hcode|Hlive Hg Hcode|Hlive Hg Hcode Hn
                 |Hlive Hg Hcode Hn|Hlive Hg Hcode];
    unfold counter_ok in *; simpl; try assumption; try lia.
  - rewrite (lock_test_NoLock_unlocked _ _ Hc Hg) in *. lia.
  - rewrite (lock_test_NoLock_unlocked _ _ Hc Hg) in Hk. lia.
Qed.

Lemma step_counter_ok (db : DB) (e : Event) :
  table_ok db -> all_rows counter_ok db -> all_rows counter_ok (step db e).
Proof.
  intros Hok H. destruct e as [req clk rnd|req now]; simpl.
  - unfold otp_request. destruct (_ || _); [assumption|].
    pose proof (issue_all_rows counter_ok (fun r Hr => Hr) req clk rnd
                  ltac:(intros i; unfold counter_ok; simpl; lia) db H) as P.
    destruct (issue req clk rnd db) as [r db'|[s|]]; assumption.
  - destruct (otp_verify_well_formed_or_missing req now db) as [Hwf|Hm];
      [|rewrite Hm; assumption].
    destruct (otp_verify req now db) as [dbx res] eqn:E. simpl.
    destruct (otp_verify_cases req now db dbx res Hwf E)
      as [(-> & _)|(otp & f & Hs & Hc & ->)]; [assumption|].
    pose proof (select_latest_unused_Some _ _ _ _ Hs) as (Hin & _ & _).
    intros r' Hr'. simpl in Hr'. apply rewrite_row_In in Hr'.
    destruct Hr' as [[Hr' _]|(r & Hr & Hid & ->)]; [auto|].
    rewrite (same_id_same_row (otps db) r otp (ok_primary_key db Hok) Hr Hin Hid).
    apply (verify_case_counter_ok _ _ _ _ _ Hc); [|auto].
    apply (ok_lock db Hok otp Hin).
Qed.

(** X7: in every state reached by requests, verifications and housekeeping,
    the attempt counter of a locked record is 3 and that of any other record
    is 0, 1 or 2. *)
Theorem X7_attempt_counter_bounds (db : DB) (r : OtpRow) :
  maintained db -> In r (otps db) ->
  (is_locked r = true -> attempt_count r = 3) /\
  (is_locked r = false -> 0 <= attempt_count r < 3).
Proof.
  intros [ops <-].
  assert (G : forall d, table_ok d -> all_rows counter_ok d ->
                        all_rows counter_ok (fold_left operate ops d)).
  { induction ops as [|op ops IH]; intros d Hok H; simpl; [assumption|].
    apply IH; [apply operate_table_ok, Hok|].
    destruct op as [e|now]; simpl; [apply step_counter_ok; assumption|].
    intros x Hx. simpl in Hx. apply filter_In in Hx. apply H. tauto. }
  intros Hin.
  assert (Hk : counter_ok r).
  { apply (G empty_db empty_db_table_ok); [intros x []|assumption]. }
  unfold counter_ok in Hk. destruct (is_locked r); split; intros; try discriminate; auto.
Qed.

(** The record locked by three wrong codes. *)
Lemma X7_attempt_counter_bounds_witness :
  attempt_count locked_record = 3.
Proof.
  apply (X7_attempt_counter_bounds (run lockout_history empty_db) locked_record).
  - apply reachable_maintained. exists lockout_history. reflexivity.
  - vm_compute. left. reflexivity.
  - reflexivity.
Defined.

Lemma step_keeps_consumed (db : DB) (e : Event) (r : OtpRow) :
  table_ok db -> In r (otps db) -> is_used r = true -> In r (otps (step db e)).
Proof.
  intros Hok Hin Hu.
  assert (Hother : forall o, In o (otps db) -> is_used o = false -> id r <> id o).
  { intros o Ho Huo Hid.
    rewrite (same_id_same_row (otps db) r o (ok_primary_key db Hok) Hin Ho Hid)
      in Hu. congruence. }
  destruct e as [req clk rnd|req now]; simpl.
  - destruct (otp_request_rows req clk rnd db) as [->|(row & Hrow & ->)];
      [assumption|].
    apply in_app_iff. left.
    destruct Hrow as [->|(o & -> & Ho & Huo)]; [assumption|].
    apply rewrite_row_keeps; auto.
  - destruct (otp_verify_well_formed_or_missing req now db) as [Hwf|Hm];
      [|rewrite Hm; assumption].
    destruct (otp_verify req now db) as [dbx res] eqn:E. simpl.
    destruct (otp_verify_cases req now db dbx res Hwf E)
      as [(-> & _)|(otp & f & Hs & Hc & ->)]; [assumption|].
    pose proof (select_latest_unused_Some _ _ _ _ Hs) as (Ho & _ & Huo).
    simpl. apply rewrite_row_keeps; auto.
Qed.

(** X6: consumed is final.  A record that is stored as used stays in the
    table exactly as it is, whatever requests and verifications follow: it is
    never reopened, unlocked, counted or rewritten. *)
Theorem X6_consumed_record_is_final (db : DB) (r : OtpRow) (events : list Event) :
  reachable db -> In r (otps db) -> is_used r = true ->
  In r (otps (run events db)).
Proof.
  intros Hr. apply reachable_table_ok in Hr. revert db Hr.
  induction events as [|e events IH]; intros db Hok Hin Hu; simpl; [assumption|].
  apply IH; [apply step_table_ok, Hok| |assumption].
  apply step_keeps_consumed; assumption.
Qed.

(** The record consumed by the second request of the test script is there,
    unchanged, after the wrong codes and the refused correct code. *)
Lemma X6_consumed_record_is_final_witness :
  In (mkOtp 1 "U1" "login" "123456" 0 300000 true false None 0)
     (otps (run [ Verify (U1_code "000000") 240000;
                  Verify (U1_code "000000") 260000;
                  Verify (U1_code "654321") 280000 ]
                (run [ Issue (U1_login "k1") (at_ms 0) 123456;
                       Issue (U1_login "k2") (at_ms 180000) 654321 ]
                     empty_db))).
Proof.
  apply X6_consumed_record_is_final.
  - eexists. reflexivity.
  - vm_compute. left. reflexivity.
  - reflexivity.
Defined.

(** * Further properties of requests *)

Lemma existsb_false_iff {A : Type} (f : A -> bool) (l : list A) :
  existsb f l = false <-> forall x, In x l -> f x = false.
Proof.
  split.
  - intros H x Hx. destruct (f x) eqn:E; [|reflexivity].
    rewrite <- H. symmetry. apply existsb_exists. eauto.
  - intros H. apply not_true_iff_false. intros E.
    apply existsb_exists in E. destruct E as (x & Hx & E).
    rewrite (H x Hx) in E. discriminate.
Qed.

Lemma otp_verify_auto_increment (req : VerifyRequest) (now : Z) (db : DB) :
  otps_auto_increment (fst (otp_verify req now db)) = otps_auto_increment db.
Proof.
  destruct (otp_verify_well_formed_or_missing req now db) as [Hwf|Hm];
    [|rewrite Hm; reflexivity].
  destruct (otp_verify req now db) as [dbx res] eqn:E. simpl.
  destruct (otp_verify_cases req now db dbx res Hwf E)
    as [(-> & _)|(otp & f & _ & _ & ->)]; reflexivity.
Qed.

Lemma step_auto_increment (db : DB) (e : Event) :
  otps_auto_increment db <= otps_auto_increment (step db e).
Proof.
  destruct e as [req clk rnd|req now]; simpl.
  - destruct (otp_request req clk rnd db) as [db' res] eqn:E. simpl.
    destruct res as [resp| | | |];
      try (rewrite (otp_request_unchanged_unless_created _ _ _ _ _ _ E);
           [lia|intros resp'; discriminate]).
    apply otp_request_Created in E. cbv zeta in E.
    destruct E as (_ & _ & _ & _ & t1 & _ & _ & _ & _ & ->). simpl. lia.
  - rewrite otp_verify_auto_increment. lia.
Qed.

Lemma reachable_auto_increment (db : DB) :
  reachable db -> 1 <= otps_auto_increment db.
Proof.
  intros [events <-].
  assert (G : forall d, 1 <= otps_auto_increment d ->
                        1 <= otps_auto_increment (run events d)).
  { induction events as [|e events IH]; intros d H; simpl; [assumption|].
    apply IH. pose proof (step_auto_increment d e). lia. }
  apply G. simpl. lia.
Qed.

(** X9: what a served request leaves.  The answer carries [ttl] 300, a quota
    of 0, 1 or 2, and as [otp_id] the decimal rendering of the id of the new
    record, an id above every id stored before.  The new record is the last
    row of the table: unconsumed, unlocked, never attempted, expiring 300 s
    after the JavaScript clock, with a six-digit code.  The table has one row
    more and the id counter is one higher. *)
Theorem X9_served_request_postcondition
    (req : IssueRequest) (clk : Clock) (rnd : Z) (db db' : DB) (resp : Response) :
  reachable db ->
  otp_request req clk rnd db = (db', Created resp) ->
  exists fresh before,
    otps db' = before ++ [fresh] /\
    List.length before = List.length (otps db) /\
    (forall r, In r (otps db) -> id r < id fresh) /\
    otps_auto_increment db' = id fresh + 1 /\
    ttl resp = 300 /\
    0 <= remaining_requests resp <= 2 /\
    otp_id resp = to_decimal (id fresh) /\
    decimal_value (otp_id resp) = id fresh /\
    user_id fresh = req_user_id req /\ purpose fresh = req_purpose req /\
    is_used fresh = false /\ is_locked fresh = false /\
    locked_until fresh = None /\ attempt_count fresh = 0 /\
    created_at fresh = db_now clk /\
    expires_at fresh = js_now clk + 300000 /\
    String.length (code fresh) = 6%nat /\ all_chars is_digit (code fresh).
Proof.
  intros Hr E.
  pose proof (reachable_auto_increment db Hr) as Hpos.
  apply reachable_table_ok in Hr.
  apply otp_request_Created in E. cbv zeta in E.
  destruct E as (_ & _ & Hu & _ & t1 & Ht1 & _ & _ & -> & ->).
  exists (issued_row req clk rnd (otps_auto_increment db)), t1.
  assert (Hcount : 0 <= count_requests (req_user_id req)
                          (js_now clk - 15 * 60 * 1000) (user_rate_limits db))
    by (unfold count_requests; lia).
  pose proof (code_string_shape (rnd mod 1000000)
                (Z.mod_pos_bound rnd 1000000 ltac:(lia))) as [Hlen Hdig].
  change (5 * 60 * 1000) with 300000.
  unfold issued_response, issued_row.
  cbn [otps otps_auto_increment ttl remaining_requests otp_id id user_id purpose
       is_used is_locked locked_until attempt_count created_at expires_at code].
  split; [reflexivity|]. split.
  { destruct Ht1 as [(_ & ->)|(row & rest & _ & -> & _)]; [reflexivity|].
    unfold mark_used, rewrite_row. apply length_map. }
  split; [apply (ok_auto_increment db Hr)|].
  split; [reflexivity|]. split; [reflexivity|]. split; [lia|].
  split; [reflexivity|]. split; [apply to_decimal_value; lia|].
  repeat split; assumption.
Qed.

(** The first request of "U1" for "login". *)
Lemma X9_served_request_postcondition_witness :
  exists fresh before,
    otps first_issue_db = before ++ [fresh] /\
    List.length before = List.length (otps empty_db) /\
    (forall r, In r (otps empty_db) -> id r < id fresh) /\
    otps_auto_increment first_issue_db = id fresh + 1 /\
    ttl (mkResponse "1" 300 2) = 300 /\
    0 <= remaining_requests (mkResponse "1" 300 2) <= 2 /\
    otp_id (mkResponse "1" 300 2) = to_decimal (id fresh) /\
    decimal_value (otp_id (mkResponse "1" 300 2)) = id fresh /\
    user_id fresh = "U1" /\ purpose fresh = "login" /\
    is_used fresh = false /\ is_locked fresh = false /\
    locked_until fresh = None /\ attempt_count fresh = 0 /\
    created_at fresh = 0 /\
    expires_at fresh = 0 + 300000 /\
    String.length (code fresh) = 6%nat /\ all_chars is_digit (code fresh).
Proof.
  apply (X9_served_request_postcondition (U1_login "k1") (at_ms 0) 123456
           empty_db first_issue_db (mkResponse "1" 300 2)).
  - exists []. reflexivity.
  - vm_compute. reflexivity.
Defined.

Lemma filter_no_key (t : list IdemRow) (k : string) (P : IdemRow -> bool) :
  existsb (fun r => (idempotency_key r =? k)%string) t = false ->
  filter (fun r => (idempotency_key r =? k)%string && P r) t = [].
Proof.
  intros H. apply filter_absent_key. intros Hin.
  apply in_map_iff in Hin. destruct Hin as (r & Hk & Hr).
  rewrite existsb_false_iff in H. specialize (H r Hr).
  apply String.eqb_neq in H. contradiction.
Qed.

Lemma step_keeps_keys (db : DB) (e : Event) (row : IdemRow) :
  In row (idempotency_keys db) -> In row (idempotency_keys (step db e)).
Proof.
  intros Hin. destruct e as [req clk rnd|req now]; simpl.
  - destruct (otp_request req clk rnd db) as [db' res] eqn:E. simpl.
    destruct res as [resp| | | |];
      try (rewrite (otp_request_unchanged_unless_created _ _ _ _ _ _ E)
             by (intros resp'; discriminate); assumption).
    apply otp_request_Created in E. cbv zeta in E.
    destruct E as (_ & _ & _ & _ & t1 & _ & _ & _ & _ & Hdb). subst db'.
    simpl. apply in_or_app. left. assumption.
  - destruct (otp_verify_well_formed_or_missing req now db) as [Hwf|Hm];
      [|rewrite Hm; assumption].
    destruct (otp_verify req now db) as [dbx res] eqn:E. simpl.
    destruct (otp_verify_cases req now db dbx res Hwf E)
      as [(Hd & _)|(otp & f & _ & _ & Hd)]; subst dbx; assumption.
Qed.

Lemma run_keeps_keys (events : list Event) (db : DB) (row : IdemRow) :
  In row (idempotency_keys db) -> In row (idempotency_keys (run events db)).
Proof.
  revert db. induction events as [|e events IH]; intros db Hin; [assumption|].
  simpl. apply IH. apply step_keeps_keys. assumption.
Qed.

(** A stored key, answered by the lookup or not, keeps its request from
    being served. *)
Lemma stored_key_never_serves
    (req : IssueRequest) (clk : Clock) (rnd : Z) (db : DB) (row : IdemRow) :
  In row (idempotency_keys db) ->
  idempotency_key row = req_idempotency_key req ->
  fst (otp_request req clk rnd db) = db /\
  forall resp, snd (otp_request req clk rnd db) <> Created resp.
Proof.
  intros Hin Hkey.
  assert (Hnc : forall resp, snd (otp_request req clk rnd db) <> Created resp).
  { destruct (select_idempotency (req_idempotency_key req) (db_now clk) db)
      as [|first rest] eqn:Hsel.
    - intros resp.
      apply (stale_key_blocks_issuance req clk rnd db row Hin Hkey Hsel).
    - intros resp. unfold otp_request. destruct (_ || _); [discriminate|].
      rewrite (issue_replay req clk rnd db first rest Hsel). discriminate. }
  split; [|exact Hnc].
  destruct (otp_request req clk rnd db) as [db' res] eqn:E. simpl in *.
  apply (otp_request_unchanged_unless_created _ _ _ _ _ _ E). exact Hnc.
Qed.

(** X10: a key serves once.  Once a request has been served, in every state
    that requests and verifications lead to from there, a request that
    presents its idempotency key is never served and never answered from the
    stored payload, and it writes nothing; while the database clock is before
    the JavaScript time of the first request plus 600 s, it is answered an
    internal error. *)
Theorem X10_key_serves_once
    (req : IssueRequest) (clk : Clock) (rnd : Z) (db db' : DB) (resp : Response)
    (events : list Event) (req2 : IssueRequest) (clk2 : Clock) (rnd2 : Z) :
  otp_request req clk rnd db = (db', Created resp) ->
  req_idempotency_key req2 = req_idempotency_key req ->
  fst (otp_request req2 clk2 rnd2 (run events db')) = run events db' /\
  (forall r,
      snd (otp_request req2 clk2 rnd2 (run events db')) <> Created r /\
      snd (otp_request req2 clk2 rnd2 (run events db')) <> Replayed r) /\
  (well_formed req2 ->
   db_now clk2 < js_now clk + 600000 ->
   otp_request req2 clk2 rnd2 (run events db')
   = (run events db', IssueInternalError)).
Proof.
  intros E Hk.
  apply otp_request_Created in E. cbv zeta in E.
  destruct E as (_ & _ & _ & _ & t1 & _ & _ & _ & _ & Hdb).
  assert (Hin : In (issued_key req clk resp) (idempotency_keys (run events db'))).
  { apply run_keeps_keys. subst db'. simpl. apply in_or_app. right.
    left. reflexivity. }
  assert (Hkey : idempotency_key (issued_key req clk resp)
                 = req_idempotency_key req2) by (rewrite Hk; reflexivity).
  destruct (stored_key_never_serves req2 clk2 rnd2 _ _ Hin Hkey) as [Hfst Hnc].
  split; [exact Hfst|]. split.
  - intros r. split; [apply Hnc|apply otp_request_never_replays].
  - intros Hwf Hlive.
    rewrite otp_request_well_formed by assumption.
    destruct (select_idempotency_finds (req_idempotency_key req2) (db_now clk2)
                (run events db') (issued_key req clk resp) Hin Hkey)
      as (first & rest & Hsel).
    { simpl. change (10 * 60 * 1000) with 600000. assumption. }
    rewrite (issue_replay req2 clk2 rnd2 _ first rest Hsel). reflexivity.
Qed.

(** The request of "U1", its code entered at 1 s, and the request repeated
    at 599.999 s. *)
Lemma X10_key_serves_once_witness :
  otp_request (U1_login "k1") (at_ms 599999) 5
    (run [Verify (U1_code "123456") 1000] first_issue_db)
  = (run [Verify (U1_code "123456") 1000] first_issue_db, IssueInternalError).
Proof.
  apply (X10_key_serves_once (U1_login "k1") (at_ms 0) 123456
           empty_db first_issue_db (mkResponse "1" 300 2)
           [Verify (U1_code "123456") 1000] (U1_login "k1") (at_ms 599999) 5).
  - vm_compute. reflexivity.
  - reflexivity.
  - repeat split; discriminate.
  - simpl. lia.
Defined.

(** ** When an admitted request is served *)

Lemma admitted_request_runs (req : IssueRequest) (clk : Clock) (rnd : Z) (db : DB) :
  select_idempotency (req_idempotency_key req) (db_now clk) db = [] ->
  count_requests (req_user_id req) (js_now clk - 900000) (user_rate_limits db) < 3 ->
  count_requests (req_ip req) (js_now clk - 900000) (ip_rate_limits db) < 8 ->
  issue req clk rnd db
  = (invalidate_active_otp (req_user_id req) (req_purpose req) (db_now clk) ;;;
     insertId <- INSERT_otps (req_user_id req) (req_purpose req)
                             (generateOTP rnd) (js_now clk + 5 * 60 * 1000)
                             (db_now clk) ;;
     INSERT_idempotency_keys
       (issued_key req clk
          (issued_response insertId
             (3 - count_requests (req_user_id req) (js_now clk - 900000)
                                 (user_rate_limits db) - 1))) ;;;
     ret (Created
            (issued_response insertId
               (3 - count_requests (req_user_id req) (js_now clk - 900000)
                                   (user_rate_limits db) - 1))))
      (record_request (req_user_id req) (req_ip req) (db_now clk) db).
Proof.
  intros Hmiss Hu Hi. unfold issue. unfold bind at 1. unfold query at 1.
  rewrite Hmiss. unfold bind at 1. rewrite checkRateLimits_eq. cbv zeta.
  change (15 * 60 * 1000) with 900000.
  apply Z.leb_gt in Hu, Hi. rewrite Hu, Hi. reflexivity.
Qed.

Lemma admitted_request_not_limited (req : IssueRequest) (clk : Clock) (rnd : Z)
    (db db' : DB) (res : IssueResult) :
  well_formed req ->
  select_idempotency (req_idempotency_key req) (db_now clk) db = [] ->
  count_requests (req_user_id req) (js_now clk - 900000) (user_rate_limits db) < 3 ->
  count_requests (req_ip req) (js_now clk - 900000) (ip_rate_limits db) < 8 ->
  otp_request req clk rnd db = (db', res) ->
  (exists resp, res = Created resp) \/ (res = IssueInternalError /\ db' = db).
Proof.
  intros Hwf Hmiss Hu Hi. rewrite otp_request_well_formed by assumption.
  rewrite admitted_request_runs by assumption. unfold bind.
  destruct (invalidate_active_otp _ _ _ _) as [[] db2|e] eqn:Ev.
  2:{ unfold invalidate_active_otp, bind, query, ret in Ev.
      destruct (select_active_otp _ _ _ _) as [|row rest]; [discriminate|].
      unfold UPDATE_otps in Ev.
      destruct (update_otp _ _ _ _) as [[t n]|]; inversion Ev.
      intros H. inversion H. auto. }
  destruct (INSERT_otps _ _ _ _ _ db2) as [i db3|e] eqn:Eo.
  2:{ unfold INSERT_otps in Eo. destruct (insert_otp _ _); inversion Eo.
      intros H. inversion H. auto. }
  destruct (INSERT_idempotency_keys _ db3) as [[] db4|e] eqn:Ek.
  2:{ unfold INSERT_idempotency_keys in Ek.
      destruct (existsb _ _); inversion Ek.
      intros H. inversion H. auto. }
  unfold ret. intros H. inversion H. eauto.
Qed.

(** A request past the lookup and the limiter is decided by the keys of the
    schema. *)
Lemma admitted_request_decided
    (req : IssueRequest) (clk : Clock) (rnd : Z) (db : DB) :
  table_ok db ->
  well_formed req ->
  select_idempotency (req_idempotency_key req) (db_now clk) db = [] ->
  count_requests (req_user_id req) (js_now clk - 900000) (user_rate_limits db) < 3 ->
  count_requests (req_ip req) (js_now clk - 900000) (ip_rate_limits db) < 8 ->
  ((exists resp, snd (otp_request req clk rnd db) = Created resp) <->
   keys_admit req clk db) /\
  ((forall resp, snd (otp_request req clk rnd db) <> Created resp) ->
   otp_request req clk rnd db = (db, IssueInternalError)).
Proof.
  intros Hm Hwf Hmiss Hu Hi.
  pose proof Hm as [Huk Hpk Hai Hlk Hik].
  set (u := req_user_id req) in *. set (p := req_purpose req) in *.
  assert (Hactive : forall r, In r (otps db) -> for_pair u p r = true ->
                              is_used r = false -> is_locked r = false ->
                              db_now clk < expires_at r ->
                              In r (select_active_otp u p (db_now clk) db)).
  { intros r Hr Hp Hur Hlr He. apply select_active_otp_In.
    apply for_pair_true in Hp. tauto. }
  assert (Hsame : forall a b, In a (otps db) -> In b (otps db) ->
                              for_pair u p a = true -> for_pair u p b = true ->
                              is_used a = is_used b -> is_locked a = is_locked b ->
                              a = b).
  { intros a b Ha Hb Hpa Hpb Hua Hla.
    apply (same_id_same_row (otps db)); try assumption.
    apply Huk; try assumption. apply same_uk_true.
    apply for_pair_true in Hpa, Hpb. unfold u, p in *. intuition congruence. }
  split; [split|].
  - (* served: the keys admitted the writes *)
    intros (resp & Hres).
    destruct (otp_request req clk rnd db) as [db' res] eqn:E. simpl in Hres.
    subst res. apply otp_request_Created in E. cbv zeta in E. fold u p in E.
    destruct E as (_ & _ & _ & _ & t1 & Ht1 & Hfresh & Hkey & _ & _).
    rewrite existsb_false_iff in Hfresh. rewrite existsb_false_iff in Hkey.
    assert (H2 : forall r, In r (otps db) -> for_pair u p r = true ->
                           is_used r = false -> is_locked r = false ->
                           db_now clk < expires_at r).
    { intros r Hr Hp Hur Hlr.
      destruct (Z_lt_ge_dec (db_now clk) (expires_at r)) as [H|H]; [exact H|].
      exfalso.
      assert (Hin1 : In r t1).
      { destruct Ht1 as [(_ & ->)|(row & rest & Es & -> & _)]; [assumption|].
        apply rewrite_row_keeps; [assumption|].
        intros Hid.
        assert (Hrow : In row (select_active_otp u p (db_now clk) db))
          by (rewrite Es; left; reflexivity).
        apply select_active_otp_In in Hrow.
        destruct Hrow as (Hrow & _ & _ & _ & _ & Hlive).
        rewrite (same_id_same_row (otps db) r row Hpk Hr Hrow Hid) in H. lia. }
      specialize (Hfresh r Hin1).
      apply for_pair_true in Hp. destruct Hp as [Hp1 Hp2].
      assert (S : same_uk (issued_row req clk rnd (otps_auto_increment db)) r
                  = true).
      { apply same_uk_true. simpl. fold u p. auto. }
      congruence. }
    split; [|split; [exact H2|]].
    + intros row Hrow Hk. specialize (Hkey row Hrow).
      apply String.eqb_neq in Hkey. contradiction.
    + intros r o Hr Ho Hpr Hpo Hur Hlr Huo.
      destruct (is_locked o) eqn:Elo; [reflexivity|exfalso].
      pose proof (Hactive r Hr Hpr Hur Hlr (H2 r Hr Hpr Hur Hlr)) as Hsel.
      destruct Ht1 as [(Es & _)|(row & rest & Es & _ & Hclash)];
        [rewrite Es in Hsel; contradiction|].
      assert (Hrow : In row (select_active_otp u p (db_now clk) db))
        by (rewrite Es; left; reflexivity).
      apply select_active_otp_In in Hrow.
      destruct Hrow as (Hrow & Hru & Hrp & Hrused & Hrl & _).
      rewrite existsb_false_iff in Hclash. specialize (Hclash row Hrow).
      unfold hits, any_row in Hclash. rewrite Z.eqb_refl in Hclash.
      simpl in Hclash. rewrite existsb_false_iff in Hclash.
      specialize (Hclash o Ho).
      assert (Hne : id o <> id row).
      { intros Hid.
        rewrite (same_id_same_row (otps db) o row Hpk Ho Hrow Hid) in Huo.
        congruence. }
      apply Z.eqb_neq in Hne. rewrite Hne in Hclash. simpl in Hclash.
      apply for_pair_true in Hpo. destruct Hpo as [Hpo1 Hpo2].
      assert (S : same_uk (set_used row) o = true).
      { apply same_uk_true. simpl. repeat split; unfold u, p in *; congruence. }
      congruence.
  - (* the keys admit the writes: served *)
    intros (Hk & H2 & H3).
    destruct (otp_request req clk rnd db) as [db' res] eqn:E. simpl.
    destruct (admitted_request_not_limited req clk rnd db db' res
                Hwf Hmiss Hu Hi E) as [H|[-> ->]]; [exact H|exfalso].
    rewrite otp_request_well_formed in E by assumption.
    rewrite admitted_request_runs in E by assumption. fold u p in E.
    set (db1 := record_request u (req_ip req) (db_now clk) db) in *.
    assert (Hok1 : table_ok db1) by (constructor; assumption).
    unfold bind in E.
    assert (Ev : exists db2,
               invalidate_active_otp u p (db_now clk) db1 = Done tt db2 /\
               idempotency_keys db2 = idempotency_keys db /\
               forall x, In x (otps db2) ->
                         same_uk (issued_row req clk rnd (otps_auto_increment db2)) x
                         = false).
    { unfold invalidate_active_otp, bind, query, ret.
      change (select_active_otp u p (db_now clk) db1)
        with (select_active_otp u p (db_now clk) db).
      destruct (select_active_otp u p (db_now clk) db) as [|row rest] eqn:Es.
      - exists db1. split; [reflexivity|]. split; [reflexivity|].
        intros x Hx. destruct (same_uk _ x) eqn:S; [exfalso|reflexivity].
        apply same_uk_true in S. simpl in S. destruct S as (S1 & S2 & S3 & S4).
        assert (Hpx : for_pair u p x = true)
          by (apply for_pair_true; unfold u, p in *; split; congruence).
        pose proof (Hactive x Hx Hpx (eq_sym S3) (eq_sym S4)
                      (H2 x Hx Hpx (eq_sym S3) (eq_sym S4))) as Hsel.
        contradiction.
      - assert (Hrow : In row (select_active_otp u p (db_now clk) db))
          by (rewrite Es; left; reflexivity).
        apply select_active_otp_In in Hrow.
        destruct Hrow as (Hrow & Hru & Hrp & Hrused & Hrl & Hlive).
        assert (Hprow : for_pair u p row = true)
          by (apply for_pair_true; auto).
        rewrite (update_otp_accepted row set_used db1 Hok1 Hrow);
          [|intros o Ho Hne|reflexivity].
        + eexists. split; [reflexivity|]. split; [reflexivity|].
          intros x Hx. simpl in Hx. apply rewrite_row_In in Hx.
          destruct (same_uk _ x) eqn:S; [exfalso|reflexivity].
          apply same_uk_true in S. simpl in S. destruct S as (S1 & S2 & S3 & S4).
          destruct Hx as [[Hx Hne]|(r & Hr & Hid & ->)]; [|discriminate].
          assert (Hpx : for_pair u p x = true)
            by (apply for_pair_true; unfold u, p in *; split; congruence).
          apply Hne. f_equal.
          apply Hsame; auto; unfold u, p in *; congruence.
        + destruct (same_uk (set_used row) o) eqn:S; [exfalso|reflexivity].
          apply same_uk_true in S. simpl in S. destruct S as (S1 & S2 & S3 & S4).
          assert (Hpo : for_pair u p o = true)
            by (apply for_pair_true; unfold u, p in *; split; congruence).
          pose proof (H3 row o Hrow Ho Hprow Hpo Hrused Hrl (eq_sym S3)) as Hlo.
          congruence. }
    destruct Ev as (db2 & Ev & Hkeys & Hfree). rewrite Ev in E.
    unfold INSERT_otps, insert_otp in E. cbv zeta in E.
    change (mkOtp (otps_auto_increment db2) u p (generateOTP rnd) (db_now clk)
                  (js_now clk + 5 * 60 * 1000) false false None 0)
      with (issued_row req clk rnd (otps_auto_increment db2)) in E.
    rewrite (proj2 (existsb_false_iff _ _) Hfree) in E.
    unfold INSERT_idempotency_keys in E.
    cbn [idempotency_keys idempotency_key issued_key] in E.
    rewrite Hkeys in E.
    rewrite (proj2 (existsb_false_iff _ _)) in E; [discriminate|].
    intros row Hrow. apply String.eqb_neq. apply Hk. assumption.
  - intros Hn.
    destruct (otp_request req clk rnd db) as [db' res] eqn:E. simpl in Hn.
    destruct (admitted_request_not_limited req clk rnd db db' res
                Hwf Hmiss Hu Hi E) as [(resp & ->)|[-> ->]];
      [exfalso; apply (Hn resp)|]; reflexivity.
Qed.

(** X13: the fate of a request that reaches the writes (required fields
    present, key not answered by the lookup, both limits respected) is decided
    by the keys of the schema alone.  It is served exactly when its
    idempotency key is not stored, every unconsumed unlocked record of the
    pair is unexpired, and, if the pair has such a record, it has no consumed
    unlocked record; otherwise it is answered an internal error and nothing
    is written. *)
Theorem X13_admitted_request_outcome
    (req : IssueRequest) (clk : Clock) (rnd : Z) (db : DB) :
  maintained db ->
  well_formed req ->
  select_idempotency (req_idempotency_key req) (db_now clk) db = [] ->
  count_requests (req_user_id req) (js_now clk - 900000) (user_rate_limits db) < 3 ->
  count_requests (req_ip req) (js_now clk - 900000) (ip_rate_limits db) < 8 ->
  ((exists resp, snd (otp_request req clk rnd db) = Created resp) <->
   keys_admit req clk db) /\
  ((forall resp, snd (otp_request req clk rnd db) <> Created resp) ->
   otp_request req clk rnd db = (db, IssueInternalError)).
Proof.
  intros Hm Hwf Hmiss Hu Hi.
  apply maintained_table_ok in Hm.
  apply admitted_request_decided; assumption.
Qed.

(** The request of "U1" repeated at 600 s, when its key has expired and is
    still stored. *)
Lemma X13_admitted_request_outcome_witness :
  ((exists resp,
       snd (otp_request (U1_login "k1") (at_ms 600000) 5 first_issue_db)
       = Created resp) <->
   keys_admit (U1_login "k1") (at_ms 600000) first_issue_db) /\
  ((forall resp,
       snd (otp_request (U1_login "k1") (at_ms 600000) 5 first_issue_db)
       <> Created resp) ->
   otp_request (U1_login "k1") (at_ms 600000) 5 first_issue_db
   = (first_issue_db, IssueInternalError)).
Proof.
  apply (X13_admitted_request_outcome (U1_login "k1") (at_ms 600000) 5
           first_issue_db).
  - exists [Handle (Issue (U1_login "k1") (at_ms 0) 123456)]. reflexivity.
  - repeat split; discriminate.
  - reflexivity.
  - vm_compute. reflexivity.
  - vm_compute. reflexivity.
Defined.

(** * The admission contract of the limiter *)




(** * The rate limiter over histories *)

Lemma filter_length_le {A : Type} (f g : A -> bool) (l : list A) :
  (forall x, In x l -> f x = true -> g x = true) ->
  (List.length (filter f l) <= List.length (filter g l))%nat.
Proof.
  induction l as [|x l IH]; simpl; intros H; [lia|].
  assert (IH' : (List.length (filter f l) <= List.length (filter g l))%nat)
    by (apply IH; intros y Hy; apply H; auto).
  destruct (f x) eqn:Ef.
  - rewrite (H x) by auto. simpl. lia.
  - destruct (g x); simpl; lia.
Qed.

Lemma entries_between_le_count (key : string) (since a b : Z) (t : list RateRow) :
  since <= a -> entries_between key a b t <= count_requests key since t.
Proof.
  intros H. unfold entries_between, count_requests. apply inj_le.
  apply filter_length_le. intros r _ Hr. apply in_window_true.
  rewrite !andb_true_iff, String.eqb_eq, !Z.leb_le in Hr.
  destruct Hr as [[Hk Ha] _]. split; [assumption|lia].
Qed.

Lemma entries_between_app (key : string) (a b : Z) (t : list RateRow) (r : RateRow) :
  entries_between key a b (t ++ [r]) <= entries_between key a b t + 1 /\
  (~ (a <= request_timestamp r <= b) ->
   entries_between key a b (t ++ [r]) = entries_between key a b t).
Proof.
  unfold entries_between. rewrite filter_app, length_app. simpl.
  destruct (rate_key r =? key)%string; simpl.
  2:{ split; [lia|intros _; lia]. }
  destruct (a <=? request_timestamp r) eqn:Ea; simpl.
  2:{ split; [lia|intros _; lia]. }
  destruct (request_timestamp r <=? b) eqn:Eb; simpl.
  2:{ split; [lia|intros _; lia]. }
  apply Z.leb_le in Ea, Eb. split; [lia|]. intros H. lia.
Qed.

Lemma entries_between_filter (key : string) (a b : Z) (P : RateRow -> bool)
    (t : list RateRow) :
  entries_between key a b (filter P t) <= entries_between key a b t.
Proof.
  unfold entries_between. apply inj_le.
  induction t as [|x t IH]; simpl; [lia|].
  destruct (P x); simpl; destruct (_ && _); simpl; lia.
Qed.

Lemma window_bounded_filter (limit : Z) (P : RateRow -> bool) (t : list RateRow) :
  window_bounded limit t -> window_bounded limit (filter P t).
Proof.
  intros H key a. pose proof (entries_between_filter key a (a + 900000) P t).
  specialize (H key a). lia.
Qed.

(** Recording an entry at [now] for a key counted below the limit keeps
    every span of 900 s within the limit. *)
Lemma window_bounded_record (limit now : Z) (key : string) (t : list RateRow) :
  window_bounded limit t ->
  count_requests key (now - 900000) t < limit ->
  window_bounded limit (t ++ [mkRate key now]).
Proof.
  intros Hb Hc k a.
  destruct (entries_between_app k a (a + 900000) t (mkRate key now)) as [Hle Heq].
  simpl in Heq.
  destruct (Z_le_gt_dec a now) as [Ha|Ha];
    [destruct (Z_le_gt_dec now (a + 900000)) as [Hb'|Hb']|].
  - destruct (String.eqb_spec k key) as [->|Hk].
    + pose proof (entries_between_le_count key (now - 900000) a (a + 900000) t).
      lia.
    + unfold entries_between in *. rewrite filter_app, length_app. simpl.
      apply String.eqb_neq in Hk. rewrite String.eqb_sym, Hk. simpl.
      specialize (Hb k a). unfold entries_between in Hb. lia.
  - rewrite Heq by lia. apply Hb.
  - rewrite Heq by lia. apply Hb.
Qed.

Lemma otp_verify_rate_tables (req : VerifyRequest) (now : Z) (db : DB) :
  user_rate_limits (fst (otp_verify req now db)) = user_rate_limits db /\
  ip_rate_limits (fst (otp_verify req now db)) = ip_rate_limits db.
Proof.
  destruct (otp_verify_well_formed_or_missing req now db) as [Hwf | Hm];
    [|rewrite Hm; simpl; auto].
  destruct (otp_verify req now db) as [db' res] eqn:E. simpl.
  destruct (otp_verify_cases req now db db' res Hwf E)
    as [ [Hd _] | (otp & f & _ & _ & Hd) ]; subst db'; simpl; auto.
Qed.

(** X11: over any history of requests, verifications and housekeeping runs
    in which every request's database clock agrees with its JavaScript
    clock, no user has more than three recorded requests, and no address more
    than eight, in any span of 900 s. *)
Theorem X11_rate_window_bound (ops : list Operation) :
  Forall synchronized ops ->
  window_bounded 3 (user_rate_limits (fold_left operate ops empty_db)) /\
  window_bounded 8 (ip_rate_limits (fold_left operate ops empty_db)).
Proof.
  induction ops as [|op ops IH] using rev_ind; intros Hs.
  - split; intros key a; unfold entries_between; simpl; lia.
  - apply Forall_app in Hs. destruct Hs as [Hs Hop].
    inversion Hop as [|? ? Hsync _]; subst. clear Hop.
    destruct (IH Hs) as [IHu IHi]. clear IH Hs.
    rewrite fold_left_app. simpl.
    set (db := fold_left operate ops empty_db) in *.
    destruct op as [[req clk rnd|req now]|now]; simpl.
    + destruct (otp_request req clk rnd db) as [db' res] eqn:E. simpl.
      destruct res as [resp| | | |];
        try (rewrite (otp_request_unchanged_unless_created _ _ _ _ _ _ E)
               by (intros resp'; discriminate); auto).
      apply otp_request_Created in E. cbv zeta in E.
      change (15 * 60 * 1000) with 900000 in E.
      destruct E as (_ & _ & Hu & Hi & t1 & _ & _ & _ & _ & ->). simpl.
      simpl in Hsync. rewrite Hsync.
      split; apply window_bounded_record; assumption.
    + destruct (otp_verify_rate_tables req now db) as [-> ->]. auto.
    + split; apply window_bounded_filter; assumption.
Qed.

(** Three requests of "U1", then housekeeping. *)
Lemma X11_rate_window_bound_witness :
  window_bounded 3
    (user_rate_limits
       (fold_left operate (map Handle three_requests ++ [Housekeeping 1000000])
                  empty_db)) /\
  window_bounded 8
    (ip_rate_limits
       (fold_left operate (map Handle three_requests ++ [Housekeeping 1000000])
                  empty_db)).
Proof.
  apply (X11_rate_window_bound
           (map Handle three_requests ++ [Housekeeping 1000000])).
  repeat constructor.
Defined.

(** ** The cooldown answered *)

Lemma otp_request_RateLimited (req : IssueRequest) (clk : Clock) (rnd : Z)
    (db db' : DB) (s : Z) :
  otp_request req clk rnd db = (db', RateLimited s) ->
  checkRateLimits (req_user_id req) (req_ip req) clk db = Raised (Rejected s).
Proof.
  unfold otp_request. destruct (_ || _); [discriminate|].
  unfold issue, bind, query.
  destruct (select_idempotency _ _ db) as [|row rest]; [|discriminate].
  destruct (checkRateLimits _ _ clk db) as [info db1|[s'|]];
    [| intros H; inversion H; reflexivity | discriminate].
  destruct (invalidate_active_otp _ _ _ db1) as [[] db2|e] eqn:Ev.
  2:{ unfold invalidate_active_otp, bind, query, ret, UPDATE_otps in Ev.
      destruct (select_active_otp _ _ _ _) as [|row rest]; [discriminate|].
      destruct (update_otp _ _ _ _) as [[t n]|]; inversion Ev. discriminate. }
  destruct (INSERT_otps _ _ _ _ _ db2) as [i db3|e] eqn:Eo.
  2:{ unfold INSERT_otps in Eo. destruct (insert_otp _ _); inversion Eo.
      discriminate. }
  destruct (INSERT_idempotency_keys _ db3) as [[] db4|e] eqn:Ek.
  2:{ unfold INSERT_idempotency_keys in Ek.
      destruct (existsb _ _); inversion Ek. discriminate. }
  discriminate.
Qed.

Lemma ceil_seconds_bounds (ms : Z) :
  (0 <= ms -> 0 <= ceil_seconds ms) /\
  (ms <= 900000 -> ceil_seconds ms <= 900).
Proof.
  pose proof (ceil_seconds_rounds_up ms) as H. unfold rounds_up_to in H.
  split; intros; lia.
Qed.

(** X12: the cooldown of a 429 answer is never negative, and it is at most
    900 s when no recorded request carries a timestamp later than the
    JavaScript clock of the call. *)
Theorem X12_cooldown_bounds (req : IssueRequest) (clk : Clock) (rnd : Z)
    (db db' : DB) (s : Z) :
  otp_request req clk rnd db = (db', RateLimited s) ->
  0 <= s /\
  (none_later (js_now clk) (user_rate_limits db) ->
   none_later (js_now clk) (ip_rate_limits db) -> s <= 900).
Proof.
  intros E. apply otp_request_RateLimited in E.
  rewrite checkRateLimits_eq in E. cbv zeta in E.
  change (15 * 60 * 1000) with 900000 in E.
  assert (Hgen : forall key t oldest,
             oldest_request key (js_now clk - 900000) t = Some oldest ->
             Raised (Rejected (ceil_seconds (oldest + 900000 - js_now clk)))
             = (Raised (Rejected s) : Outcome RateLimitInfo) ->
             0 < count_requests key (js_now clk - 900000) t ->
             0 <= s /\ (none_later (js_now clk) t -> s <= 900)).
  { intros key t oldest Ho Hs Hpos.
    assert (Es : s = ceil_seconds (oldest + 900000 - js_now clk))
      by (inversion Hs; reflexivity).
    destruct (oldest_request_spec key _ t Hpos)
      as (ts & Ho' & (r & Hr & _ & Hge & Hts) & _).
    assert (Ets : ts = oldest) by congruence.
    destruct (ceil_seconds_bounds (oldest + 900000 - js_now clk)) as [Hlo Hhi].
    split; [lia|]. intros Hl. specialize (Hl r Hr). lia. }
  destruct (3 <=? _) eqn:E3.
  - apply Z.leb_le in E3.
    destruct (oldest_request _ _ (user_rate_limits db)) as [oldest|] eqn:Ho;
      [|discriminate].
    destruct (Hgen _ _ _ Ho E) as [Hlo Hhi]; [lia|]. split; auto.
  - destruct (8 <=? _) eqn:E8; [|discriminate].
    apply Z.leb_le in E8.
    destruct (oldest_request _ _ (ip_rate_limits db)) as [oldest|] eqn:Ho;
      [|discriminate].
    destruct (Hgen _ _ _ Ho E) as [Hlo Hhi]; [lia|]. split; auto.
Qed.

(** The fourth request of "U1" at 200.5 s. *)
Lemma X12_cooldown_bounds_witness :
  0 <= 700 /\
  (none_later 200500 (user_rate_limits (run three_requests empty_db)) ->
   none_later 200500 (ip_rate_limits (run three_requests empty_db)) ->
   700 <= 900).
Proof.
  apply (X12_cooldown_bounds fourth_request (at_ms 200500) 444444
           (run three_requests empty_db) (run three_requests empty_db) 700).
  vm_compute. reflexivity.
Defined.

(** ** Retrying when the cooldown ends *)

Lemma ceil_seconds_whole (s : Z) : ceil_seconds (1000 * s) = s.
Proof.
  unfold ceil_seconds. replace (- (1000 * s)) with ((- s) * 1000) by lia.
  rewrite Z.div_mul by lia. lia.
Qed.

Lemma issue_rejected_by_user_limit (req : IssueRequest) (clk : Clock) (rnd : Z)
    (db : DB) (oldest : Z) :
  well_formed req ->
  select_idempotency (req_idempotency_key req) (db_now clk) db = [] ->
  3 <= count_requests (req_user_id req) (js_now clk - 900000) (user_rate_limits db) ->
  oldest_request (req_user_id req) (js_now clk - 900000) (user_rate_limits db)
  = Some oldest ->
  otp_request req clk rnd db
  = (db, RateLimited (ceil_seconds (oldest + 900000 - js_now clk))).
Proof.
  intros Hwf Hmiss Hc Ho. rewrite otp_request_well_formed by assumption.
  unfold issue. unfold bind at 1. unfold query at 1. rewrite Hmiss.
  unfold bind at 1. rewrite checkRateLimits_eq. cbv zeta.
  change (15 * 60 * 1000) with 900000.
  apply Z.leb_le in Hc. rewrite Hc, Ho. reflexivity.
Qed.

(** From the oldest counted entry on, the window holds the same entries. *)
Lemma window_from_oldest (key : string) (since oldest : Z) (t : list RateRow) :
  oldest_in_window key since t oldest ->
  filter (in_window key oldest) t = filter (in_window key since) t.
Proof.
  intros [(r0 & _ & _ & Hge & Hts) Hmin]. apply filter_ext_in. intros r Hr.
  unfold in_window. destruct (rate_key r =? key)%string eqn:Ek; [simpl|reflexivity].
  apply String.eqb_eq in Ek.
  destruct (since <=? request_timestamp r) eqn:Es.
  - apply Z.leb_le. apply Z.leb_le in Es. auto.
  - apply Z.leb_gt. apply Z.leb_gt in Es. lia.
Qed.

(** X15: a request refused by the user limit with a cooldown of a whole
    number [s] of seconds is refused again, with cooldown 0, when it is
    repeated exactly [s] seconds later: the entry whose age ends the cooldown
    is still counted at that instant. *)
Theorem X15_refused_when_cooldown_ends
    (req : IssueRequest) (clk clk' : Clock) (rnd rnd' : Z) (db : DB)
    (oldest s : Z) :
  well_formed req ->
  select_idempotency (req_idempotency_key req) (db_now clk) db = [] ->
  select_idempotency (req_idempotency_key req) (db_now clk') db = [] ->
  3 <= count_requests (req_user_id req) (js_now clk - 900000) (user_rate_limits db) ->
  oldest_request (req_user_id req) (js_now clk - 900000) (user_rate_limits db)
  = Some oldest ->
  oldest + 900000 - js_now clk = 1000 * s ->
  js_now clk' = js_now clk + 1000 * s ->
  otp_request req clk rnd db = (db, RateLimited s) /\
  otp_request req clk' rnd' db = (db, RateLimited 0).
Proof.
  intros Hwf Hmiss Hmiss' Hc Ho Hs Hclk'.
  split.
  - rewrite (issue_rejected_by_user_limit req clk rnd db oldest) by assumption.
    rewrite Hs, ceil_seconds_whole. reflexivity.
  - destruct (oldest_request_spec (req_user_id req) (js_now clk - 900000)
                (user_rate_limits db)) as (ts & Ho' & Hw); [lia|].
    rewrite Ho in Ho'. inversion Ho'; subst ts. clear Ho'.
    pose proof (window_from_oldest _ _ _ _ Hw) as Hsame.
    assert (Esince : js_now clk' - 900000 = oldest) by lia.
    rewrite (issue_rejected_by_user_limit req clk' rnd' db oldest);
      try assumption.
    + replace (oldest + 900000 - js_now clk') with (1000 * 0) by lia.
      rewrite ceil_seconds_whole. reflexivity.
    + rewrite Esince. unfold count_requests in *. rewrite Hsame. assumption.
    + rewrite Esince. unfold oldest_request in *. rewrite Hsame. assumption.
Qed.

(** After three requests of "U1" at 0, 60 and 120 s, the fourth at 200 s is
    told to wait 700 s, and is refused again at 900 s. *)
Lemma X15_refused_when_cooldown_ends_witness :
  otp_request fourth_request (at_ms 200000) 444444 (run three_requests empty_db)
  = (run three_requests empty_db, RateLimited 700) /\
  otp_request fourth_request (at_ms 900000) 555555 (run three_requests empty_db)
  = (run three_requests empty_db, RateLimited 0).
Proof.
  apply (X15_refused_when_cooldown_ends fourth_request (at_ms 200000)
           (at_ms 900000) 444444 555555 (run three_requests empty_db) 0 700).
  - repeat split; discriminate.
  - reflexivity.
  - reflexivity.
  - vm_compute. discriminate.
  - reflexivity.
  - reflexivity.
  - reflexivity.
Defined.

(** * Housekeeping between requests *)

Lemma filter_absorb {A : Type} (P Q : A -> bool) (l : list A) :
  (forall x, In x l -> P x = true -> Q x = true) ->
  filter P (filter Q l) = filter P l.
Proof.
  induction l as [|x l IH]; simpl; intros H; [reflexivity|].
  assert (IH' : filter P (filter Q l) = filter P l)
    by (apply IH; intros y Hy; apply H; auto).
  destruct (Q x) eqn:EQ; simpl.
  - rewrite IH'. reflexivity.
  - destruct (P x) eqn:EP; [|assumption].
    rewrite (H x) in EQ by auto. discriminate.
Qed.

Lemma existsb_false_filter {A : Type} (f : A -> bool) (Q : A -> bool) (l : list A) :
  existsb f l = false -> existsb f (filter Q l) = false.
Proof.
  rewrite !existsb_false_iff. intros H x Hx. apply filter_In in Hx.
  apply H. tauto.
Qed.

Lemma select_idempotency_cleanup (key : string) (now c : Z) (db : DB) :
  c <= now ->
  select_idempotency key now (CleanupExpiredData c db)
  = select_idempotency key now db.
Proof.
  intros Hc. unfold select_idempotency, CleanupExpiredData. simpl.
  apply filter_absorb. intros r _ Hr.
  apply andb_true_iff in Hr. destruct Hr as [_ Hr]. apply Z.ltb_lt in Hr.
  unfold key_is_garbage. apply negb_true_iff. apply Z.ltb_ge. lia.
Qed.

Lemma select_active_otp_cleanup (u p : string) (now c : Z) (db : DB) :
  c <= now ->
  select_active_otp u p now (CleanupExpiredData c db)
  = select_active_otp u p now db.
Proof.
  intros Hc. unfold select_active_otp, CleanupExpiredData. simpl.
  apply filter_absorb. intros r _ Hr.
  rewrite !andb_true_iff in Hr. destruct Hr as [[[_ Hu] _] He].
  apply Z.ltb_lt in He. apply negb_true_iff in Hu.
  unfold otp_is_garbage. rewrite Hu. simpl. rewrite orb_false_r.
  apply negb_true_iff. apply Z.ltb_ge. lia.
Qed.

Lemma in_window_cleanup (key : string) (now c : Z) (t : list RateRow) :
  c <= now ->
  filter (in_window key (now - 900000))
         (filter (fun r => negb (rate_is_garbage c r)) t)
  = filter (in_window key (now - 900000)) t.
Proof.
  intros Hc. apply filter_absorb. intros r _ Hr.
  apply in_window_true in Hr. destruct Hr as [_ Hr].
  unfold rate_is_garbage. apply negb_true_iff. apply Z.ltb_ge. lia.
Qed.

Lemma checkRateLimits_cleanup (u ip : string) (clk : Clock) (c : Z) (db : DB) :
  c <= js_now clk ->
  count_requests u (js_now clk - 900000)
                 (user_rate_limits (CleanupExpiredData c db))
  = count_requests u (js_now clk - 900000) (user_rate_limits db) /\
  count_requests ip (js_now clk - 900000)
                 (ip_rate_limits (CleanupExpiredData c db))
  = count_requests ip (js_now clk - 900000) (ip_rate_limits db) /\
  oldest_request u (js_now clk - 900000)
                 (user_rate_limits (CleanupExpiredData c db))
  = oldest_request u (js_now clk - 900000) (user_rate_limits db) /\
  oldest_request ip (js_now clk - 900000)
                 (ip_rate_limits (CleanupExpiredData c db))
  = oldest_request ip (js_now clk - 900000) (ip_rate_limits db).
Proof.
  intros Hc. unfold count_requests, oldest_request, CleanupExpiredData. simpl.
  rewrite !in_window_cleanup by assumption. auto.
Qed.

Lemma invalidate_active_otp_runs (u p : string) (now : Z) (db : DB) :
  match select_active_otp u p now db with
  | row :: _ =>
      existsb (fun r => hits (id row) any_row r
                        && existsb (fun o => negb (id o =? id row)
                                             && same_uk (set_used r) o) (otps db))
              (otps db) = false ->
      invalidate_active_otp u p now db
      = Done tt (with_otps (mark_used (id row) (otps db)) db)
  | [] => invalidate_active_otp u p now db = Done tt db
  end.
Proof.
  unfold invalidate_active_otp, bind, query, ret.
  destruct (select_active_otp u p now db) as [|row rest]; [reflexivity|].
  intros H. unfold UPDATE_otps, update_otp. rewrite H. f_equal. f_equal.
  unfold mark_used, rewrite_row. apply map_ext. intros r.
  unfold hits, any_row. rewrite andb_true_r. reflexivity.
Qed.

(** The converse of [otp_request_Created]. *)
Lemma otp_request_serves (req : IssueRequest) (clk : Clock) (rnd : Z) (db : DB)
    (t1 : list OtpRow) :
  let u := req_user_id req in
  let p := req_purpose req in
  let since := js_now clk - 900000 in
  let i := otps_auto_increment db in
  let resp := issued_response i
                (3 - count_requests u since (user_rate_limits db) - 1) in
  well_formed req ->
  select_idempotency (req_idempotency_key req) (db_now clk) db = [] ->
  count_requests u since (user_rate_limits db) < 3 ->
  count_requests (req_ip req) since (ip_rate_limits db) < 8 ->
  ((select_active_otp u p (db_now clk) db = [] /\ t1 = otps db) \/
   (exists row rest,
       select_active_otp u p (db_now clk) db = row :: rest /\
       t1 = mark_used (id row) (otps db) /\
       existsb (fun r => hits (id row) any_row r
                         && existsb (fun o => negb (id o =? id row)
                                              && same_uk (set_used r) o)
                                    (otps db))
               (otps db) = false)) ->
  existsb (same_uk (issued_row req clk rnd i)) t1 = false ->
  existsb (fun r => (idempotency_key r =? req_idempotency_key req)%string)
          (idempotency_keys db) = false ->
  otp_request req clk rnd db
  = (mkDB (t1 ++ [issued_row req clk rnd i]) (i + 1)
          (user_rate_limits db ++ [mkRate u (db_now clk)])
          (ip_rate_limits db ++ [mkRate (req_ip req) (db_now clk)])
          (idempotency_keys db ++ [issued_key req clk resp]),
     Created resp).
Proof.
  intros u p since i resp Hwf Hmiss Hu Hi Ht1 Hfresh Hkey.
  rewrite otp_request_well_formed by assumption.
  rewrite admitted_request_runs by assumption.
  set (db1 := record_request (req_user_id req) (req_ip req) (db_now clk) db).
  unfold bind at 1.
  assert (Ev : invalidate_active_otp (req_user_id req) (req_purpose req)
                 (db_now clk) db1 = Done tt (with_otps t1 db1)).
  { pose proof (invalidate_active_otp_runs (req_user_id req) (req_purpose req)
                  (db_now clk) db1) as H.
    change (select_active_otp (req_user_id req) (req_purpose req) (db_now clk) db1)
      with (select_active_otp u p (db_now clk) db) in H.
    change (otps db1) with (otps db) in H.
    destruct Ht1 as [(Es & ->)|(row & rest & Es & -> & Hclash)];
      rewrite Es in H.
    - rewrite H. destruct db; reflexivity.
    - apply H. assumption. }
  rewrite Ev. unfold bind at 1. unfold INSERT_otps, insert_otp.
  change (otps (with_otps t1 db1)) with t1.
  change (otps_auto_increment (with_otps t1 db1)) with i.
  change (mkOtp i (req_user_id req) (req_purpose req) (generateOTP rnd)
                (db_now clk) (js_now clk + 5 * 60 * 1000) false false None 0)
    with (issued_row req clk rnd i).
  rewrite Hfresh. unfold bind at 1. unfold INSERT_idempotency_keys.
  cbn [idempotency_keys idempotency_key issued_key with_otps db1 record_request].
  rewrite Hkey. reflexivity.
Qed.

(** X16: a housekeeping run no later than the clocks of a request leaves its
    answer as it was, unless that answer was an internal error. *)
Theorem X16_housekeeping_keeps_request_answers
    (req : IssueRequest) (clk : Clock) (rnd : Z) (db : DB) (c : Z) :
  c <= js_now clk -> c <= db_now clk ->
  snd (otp_request req clk rnd db) <> IssueInternalError ->
  snd (otp_request req clk rnd (CleanupExpiredData c db))
  = snd (otp_request req clk rnd db).
Proof.
  intros Hjs Hdb Hne.
  destruct (otp_request req clk rnd db) as [db' res] eqn:E. simpl in Hne |- *.
  pose proof (select_idempotency_cleanup (req_idempotency_key req) (db_now clk)
                c db Hdb) as Hlook.
  destruct (checkRateLimits_cleanup (req_user_id req) (req_ip req) clk c db Hjs)
    as (Hcu & Hci & Hou & Hoi).
  destruct res as [resp|resp|s| |].
  - (* served *)
    apply otp_request_Created in E. cbv zeta in E.
    change (15 * 60 * 1000) with 900000 in E.
    destruct E as (Hwf & Hmiss & Hu & Hi & t1 & Ht1 & Hfresh & Hkey & -> & _).
    set (Q := fun r => negb (otp_is_garbage c r)).
    assert (Hsub : forall i x, In x (mark_used i (filter Q (otps db))) ->
                               In x (mark_used i (otps db))).
    { intros i x Hx. unfold mark_used, rewrite_row in Hx |- *.
      apply in_map_iff in Hx. destruct Hx as (y & Hxy & Hy).
      apply filter_In in Hy. apply in_map_iff. exists y. tauto. }
    erewrite otp_request_serves with
      (t1 := match select_active_otp (req_user_id req) (req_purpose req)
                     (db_now clk) db with
             | row :: _ => mark_used (id row) (filter Q (otps db))
             | [] => filter Q (otps db)
             end).
    + cbv zeta. cbn [snd]. rewrite Hcu. reflexivity.
    + assumption.
    + rewrite Hlook. assumption.
    + rewrite Hcu. assumption.
    + rewrite Hci. assumption.
    + rewrite select_active_otp_cleanup by assumption.
      destruct Ht1 as [(Es & _)|(row & rest & Es & _ & Hclash)]; rewrite Es.
      * left. auto.
      * right. exists row, rest. split; [reflexivity|]. split; [reflexivity|].
        change (otps (CleanupExpiredData c db)) with (filter Q (otps db)).
        rewrite existsb_false_iff in Hclash |- *.
        intros r Hr. apply filter_In in Hr. destruct Hr as [Hr _].
        specialize (Hclash r Hr).
        apply andb_false_iff in Hclash. apply andb_false_iff.
        destruct Hclash as [H|H]; [left; assumption|right].
        apply existsb_false_filter. assumption.
    + change (otps_auto_increment (CleanupExpiredData c db))
        with (otps_auto_increment db).
      rewrite existsb_false_iff in Hfresh |- *.
      intros x Hx. apply Hfresh.
      destruct Ht1 as [(Es & ->)|(row & rest & Es & -> & _)];
        rewrite Es in Hx.
      * apply filter_In in Hx. tauto.
      * apply (Hsub _ _ Hx).
    + apply existsb_false_filter. assumption.
  - (* never answered from the stored payload *)
    exfalso. apply (otp_request_never_replays req clk rnd db resp).
    rewrite E. reflexivity.
  - (* rate limited *)
    pose proof E as Hck. apply otp_request_RateLimited in Hck.
    unfold otp_request in E |- *.
    destruct (_ || _); [discriminate|simpl].
    unfold issue, bind, query in E |- *. rewrite Hlook.
    destruct (select_idempotency _ _ db) as [|row rest]; [|discriminate].
    assert (Hck' : checkRateLimits (req_user_id req) (req_ip req) clk
                     (CleanupExpiredData c db) = Raised (Rejected s)).
    { rewrite checkRateLimits_eq in Hck |- *. cbv zeta in Hck |- *.
      change (15 * 60 * 1000) with 900000 in Hck |- *.
      rewrite Hcu, Hci, Hou, Hoi.
      destruct (3 <=? _); [destruct (oldest_request _ _ _); congruence|].
      destruct (8 <=? _); [destruct (oldest_request _ _ _); congruence|].
      discriminate. }
    rewrite Hck'. reflexivity.
  - (* missing fields *)
    unfold otp_request in E |- *.
    destruct (_ || _); [reflexivity|exfalso].
    unfold issue, bind, query in E.
    destruct (select_idempotency _ _ db) as [|row rest]; [|discriminate].
    destruct (checkRateLimits _ _ clk db) as [info db1|[s|]]; try discriminate.
    destruct (invalidate_active_otp _ _ _ db1) as [[] db2|[s|]]; try discriminate.
    destruct (INSERT_otps _ _ _ _ _ db2) as [i db3|[s|]]; try discriminate.
    destruct (INSERT_idempotency_keys _ db3) as [[] db4|[s|]]; discriminate.
  - contradiction.
Qed.

(** The code of "U1" is used, housekeeping runs at 400 s, and "U1" asks for
    a new code at 601 s. *)
Lemma X16_housekeeping_keeps_request_answers_witness :
  snd (otp_request (U1_login "k2") (at_ms 601000) 654321
                   (CleanupExpiredData 400000 used_code_db))
  = snd (otp_request (U1_login "k2") (at_ms 601000) 654321 used_code_db).
Proof.
  apply (X16_housekeeping_keeps_request_answers (U1_login "k2") (at_ms 601000)
           654321 used_code_db 400000).
  - simpl. lia.
  - simpl. lia.
  - vm_compute. discriminate.
Defined.

(** * Housekeeping between verifications *)

Lemma filter_swap {A : Type} (P Q : A -> bool) (l : list A) :
  filter P (filter Q l) = filter Q (filter P l).
Proof.
  induction l as [|x l IH]; simpl; [reflexivity|].
  destruct (Q x) eqn:EQ, (P x) eqn:EP; simpl; rewrite ?EQ, ?EP, IH; reflexivity.
Qed.

Lemma newest_tracks (Q : OtpRow -> bool) (rows : list OtpRow) :
  forall b b', tracks Q b b' ->
    tracks Q
      (fold_left (fun best x =>
                    match best with
                    | None => Some x
                    | Some b => if created_at b <? created_at x then Some x
                                else Some b
                    end) rows b)
      (fold_left (fun best x =>
                    match best with
                    | None => Some x
                    | Some b => if created_at b <? created_at x then Some x
                                else Some b
                    end) (filter Q rows) b').
Proof.
  induction rows as [|e rows IH]; simpl; intros b b' H; [assumption|].
  destruct (Q e) eqn:Qe; simpl; apply IH; clear IH.
  - destruct b as [x|], b' as [y|]; simpl in H |- *; try contradiction.
    + destruct H as (Hle & Qy & Hxy).
      destruct (created_at x <? created_at e) eqn:Ex;
        destruct (created_at y <? created_at e) eqn:Ey; simpl;
        try apply Z.ltb_lt in Ex; try apply Z.ltb_ge in Ex;
        try apply Z.ltb_lt in Ey; try apply Z.ltb_ge in Ey.
      * split; [lia|]. split; auto.
      * lia.
      * split; [lia|]. split; [assumption|]. intros Qx.
        specialize (Hxy Qx). subst y. lia.
      * split; [lia|]. split; assumption.
    + destruct (created_at x <? created_at e) eqn:Ex; simpl.
      * split; [lia|]. split; auto.
      * apply Z.ltb_ge in Ex. split; [lia|]. split; [assumption|].
        intros Qx. congruence.
    + split; [lia|]. split; auto.
  - destruct b as [x|], b' as [y|]; simpl in H |- *; try contradiction.
    + destruct H as (Hle & Qy & Hxy).
      destruct (created_at x <? created_at e) eqn:Ex; simpl.
      * apply Z.ltb_lt in Ex. split; [lia|]. split; [assumption|].
        intros Q'. congruence.
      * split; [lia|]. split; assumption.
    + destruct (created_at x <? created_at e); simpl; assumption.
    + assumption.
Qed.

Lemma newest_filter (Q : OtpRow -> bool) (rows : list OtpRow) (r : OtpRow) :
  newest rows = Some r -> Q r = true -> newest (filter Q rows) = Some r.
Proof.
  intros H Qr. pose proof (newest_tracks Q rows None None I) as T.
  fold (newest rows) in T. fold (newest (filter Q rows)) in T.
  rewrite H in T. destruct (newest (filter Q rows)) as [y|]; simpl in T.
  - destruct T as (_ & _ & Hy). rewrite (Hy Qr). reflexivity.
  - congruence.
Qed.

(** The newest unconsumed record of a pair survives housekeeping unless it
    has expired by then. *)
Lemma select_latest_unused_cleanup (u p : string) (c : Z) (db : DB) :
  match select_latest_unused u p db with
  | Some otp =>
      c <= expires_at otp ->
      select_latest_unused u p (CleanupExpiredData c db) = Some otp
  | None => select_latest_unused u p (CleanupExpiredData c db) = None
  end.
Proof.
  destruct (select_latest_unused u p db) as [otp|] eqn:Es.
  - intros Hc. pose proof (select_latest_unused_Some _ _ _ _ Es) as (_ & _ & Hu).
    unfold select_latest_unused, CleanupExpiredData in Es |- *. simpl.
    rewrite filter_swap. apply newest_filter; [assumption|].
    unfold otp_is_garbage. rewrite Hu. simpl. rewrite orb_false_r.
    apply negb_true_iff. apply Z.ltb_ge. lia.
  - unfold select_latest_unused, CleanupExpiredData in Es |- *. simpl.
    apply newest_None in Es. rewrite filter_swap, Es. reflexivity.
Qed.

Section Smaller.

(** A database whose records are among those of [db]. *)
Variables (i : Z) (guard : OtpRow -> bool) (set : OtpRow -> OtpRow).

Lemma UPDATE_otps_smaller (db dbc db' : DB) (n : nat) :
  incl (otps dbc) (otps db) ->
  UPDATE_otps i guard set db = Done n db' ->
  exists nc dbc',
    UPDATE_otps i guard set dbc = Done nc dbc' /\
    incl (otps dbc') (otps db') /\
    (forall r, In r (otps dbc) ->
               In (if hits i guard r then set r else r) (otps dbc')) /\
    ((exists r, In r (otps dbc) /\ hits i guard r = true) -> nc <> 0%nat).
Proof.
  intros Hincl. unfold UPDATE_otps, update_otp.
  destruct (existsb _ (otps db)) eqn:Ec; [discriminate|].
  intros H. inversion H; subst. clear H.
  assert (Ec' : existsb
                  (fun r => hits i guard r
                            && existsb (fun o => negb (id o =? i)
                                                 && same_uk (set r) o)
                                       (otps dbc))
                  (otps dbc) = false).
  { rewrite existsb_false_iff in Ec |- *. intros r Hr.
    specialize (Ec r (Hincl r Hr)).
    apply andb_false_iff in Ec. apply andb_false_iff.
    destruct Ec as [Hh|Hh]; [left; assumption|right].
    rewrite existsb_false_iff in Hh |- *. intros o Ho. apply Hh. auto. }
  rewrite Ec'. eexists. eexists. split; [reflexivity|]. simpl.
  split; [|split].
  - intros x Hx. apply in_map_iff in Hx. destruct Hx as (y & Hy & Hin).
    apply in_map_iff. exists y. auto.
  - intros r Hr. apply in_map_iff. exists r. auto.
  - intros (r & Hr & Hh) Hz.
    apply length_zero_iff_nil in Hz.
    assert (Hin : In r (filter (hits i guard) (otps dbc)))
      by (apply filter_In; auto).
    rewrite Hz in Hin. contradiction.
Qed.

End Smaller.

Lemma check_code_smaller (o : OtpRow) (code_given : string) (now : Z)
    (db dbc db' : DB) (res : VerifyResult) :
  incl (otps dbc) (otps db) ->
  (exists r, In r (otps dbc) /\ id r = id o /\ is_used r = false) ->
  check_code o code_given now db = Done res db' ->
  exists dbc', check_code o code_given now dbc = Done res dbc'.
Proof.
  intros Hincl (r & Hr & Hid & Hu). unfold check_code, bind, ret.
  destruct (is_used o); [intros H; inversion H; eauto|].
  assert (Hhit : hits (id o) still_unused r = true).
  { unfold hits, still_unused. rewrite Hid, Z.eqb_refl, Hu. reflexivity. }
  destruct (code o =? code_given)%string.
  - destruct (UPDATE_otps (id o) still_unused set_used db) as [n db1|e] eqn:E;
      [|discriminate].
    destruct (UPDATE_otps_smaller _ _ _ db dbc db1 n Hincl E)
      as (nc & dbc' & Ec & _ & _ & Hnc).
    destruct (UPDATE_otps_smaller _ _ _ db db db1 n (incl_refl _) E)
      as (n' & db1' & E' & _ & _ & Hn).
    rewrite E in E'. inversion E'; subst n' db1'. clear E'.
    rewrite Ec.
    assert (Hn0 : n <> 0%nat) by (apply Hn; exists r; auto).
    assert (Hnc0 : nc <> 0%nat) by (apply Hnc; exists r; auto).
    apply Nat.eqb_neq in Hn0, Hnc0. rewrite Hn0, Hnc0.
    intros H. inversion H. eauto.
  - cbv zeta. destruct (3 <=? attempt_count o + 1).
    + destruct (UPDATE_otps (id o) any_row _ db) as [n db1|e] eqn:E;
        [|discriminate].
      destruct (UPDATE_otps_smaller _ _ _ db dbc db1 n Hincl E)
        as (nc & dbc' & Ec & _).
      rewrite Ec. intros H. inversion H. eauto.
    + destruct (UPDATE_otps (id o) any_row _ db) as [n db1|e] eqn:E;
        [|discriminate].
      destruct (UPDATE_otps_smaller _ _ _ db dbc db1 n Hincl E)
        as (nc & dbc' & Ec & _).
      rewrite Ec. intros H. inversion H. eauto.
Qed.

Lemma verify_found_smaller (otp : OtpRow) (code_given : string) (now : Z)
    (db dbc db' : DB) (res : VerifyResult) :
  incl (otps dbc) (otps db) ->
  In otp (otps dbc) -> is_used otp = false ->
  now <= expires_at otp ->
  verify_found otp code_given now db = Done res db' ->
  exists dbc', verify_found otp code_given now dbc = Done res dbc'.
Proof.
  intros Hincl Hin Hu Hlive. unfold verify_found.
  apply Z.ltb_ge in Hlive. rewrite Hlive.
  destruct (lock_test otp now) as [s| |].
  - unfold ret. intros H. inversion H. eauto.
  - unfold bind.
    destruct (UPDATE_otps (id otp) any_row set_unlocked db) as [n db1|e] eqn:E;
      [|discriminate].
    destruct (UPDATE_otps_smaller _ _ _ db dbc db1 n Hincl E)
      as (nc & dbc1 & Ec & Hincl1 & Hrow & _).
    rewrite Ec. apply check_code_smaller; [assumption|].
    specialize (Hrow otp Hin).
    unfold hits, any_row in Hrow. rewrite Z.eqb_refl in Hrow. simpl in Hrow.
    exists (set_unlocked otp). auto.
  - apply check_code_smaller; [assumption|]. exists otp. auto.
Qed.



(** * A served request, then its code *)

Lemma generateOTP_not_empty (rnd : Z) : generateOTP rnd <> "".
Proof.
  rewrite generateOTP_is_code_string. intros H.
  destruct (code_string_shape (rnd mod 1000000)) as [Hlen _].
  { apply Z.mod_pos_bound. lia. }
  rewrite H in Hlen. discriminate.
Qed.

Lemma newest_app_newer (rows : list OtpRow) (r : OtpRow) :
  (forall x, In x rows -> created_at x < created_at r) ->
  newest (rows ++ [r]) = Some r.
Proof.
  intros H. unfold newest. rewrite fold_left_app. simpl.
  fold (newest rows). destruct (newest rows) as [b|] eqn:E; [|reflexivity].
  apply newest_In in E. specialize (H b E).
  apply Z.ltb_lt in H. rewrite H. reflexivity.
Qed.

Lemma mark_used_origin (i : Z) (t : list OtpRow) (x : OtpRow) :
  In x (mark_used i t) ->
  exists y, In y t /\ id x = id y /\ user_id x = user_id y /\
            purpose x = purpose y /\ created_at x = created_at y.
Proof.
  unfold mark_used, rewrite_row. intros H. apply in_map_iff in H.
  destruct H as (y & Hy & Hin). exists y. split; [assumption|].
  destruct (id y =? i); subst x; simpl; auto.
Qed.

(** X18: on a database of the handlers and housekeeping, after a request was
    served while every stored record of its pair was created earlier, a
    verification of the pair with the code just generated, no later than
    300 s after the request, succeeds when the pair has no consumed unlocked
    record, and is answered an internal error, writing nothing, when it has
    one; it has one whenever the request superseded a record. *)
Theorem X18_served_code_round_trip
    (req : IssueRequest) (clk : Clock) (rnd : Z) (db db' : DB)
    (resp : Response) (now : Z) :
  maintained db ->
  otp_request req clk rnd db = (db', Created resp) ->
  (forall r, In r (otps db) ->
             for_pair (req_user_id req) (req_purpose req) r = true ->
             created_at r < db_now clk) ->
  now <= js_now clk + 300000 ->
  ((forall o, In o (otps db') ->
              for_pair (req_user_id req) (req_purpose req) o = true ->
              is_used o = true -> is_locked o = true) ->
   snd (otp_verify (mkVerify (req_user_id req) (req_purpose req)
                             (generateOTP rnd)) now db')
   = VerificationSuccessful) /\
  ((exists o, In o (otps db') /\
              for_pair (req_user_id req) (req_purpose req) o = true /\
              is_used o = true /\ is_locked o = false) ->
   otp_verify (mkVerify (req_user_id req) (req_purpose req) (generateOTP rnd))
              now db'
   = (db', VerifyInternalError)) /\
  (select_active_otp (req_user_id req) (req_purpose req) (db_now clk) db <> [] ->
   otp_verify (mkVerify (req_user_id req) (req_purpose req) (generateOTP rnd))
              now db'
   = (db', VerifyInternalError)).
Proof.
  intros Hm E Hold Hnow.
  apply maintained_table_ok in Hm. destruct Hm as [_ _ Hai _ _].
  apply otp_request_Created in E. cbv zeta in E.
  destruct E as ((Hu & Hp & _) & _ & _ & _ & t1 & Ht1 & Hfresh & _ & _ & Hdb').
  set (i := otps_auto_increment db) in *.
  set (new := issued_row req clk rnd i) in *.
  set (v := mkVerify (req_user_id req) (req_purpose req) (generateOTP rnd)).
  assert (Hotps : otps db' = t1 ++ [new]) by (rewrite Hdb'; reflexivity).
  assert (Hwf : well_formed_verify v).
  { repeat split; try assumption. apply generateOTP_not_empty. }
  assert (Horigin : forall x, In x t1 ->
            exists y, In y (otps db) /\ id x = id y /\ user_id x = user_id y /\
                      purpose x = purpose y /\ created_at x = created_at y).
  { intros x Hx.
    destruct Ht1 as [(_ & ->)|(row & rest & _ & -> & _)].
    - exists x. auto.
    - apply (mark_used_origin _ _ _ Hx). }
  assert (Hids : forall x, In x t1 -> id x < i).
  { intros x Hx. destruct (Horigin x Hx) as (y & Hy & -> & _). apply Hai, Hy. }
  assert (Hpair : for_pair (req_user_id req) (req_purpose req) new = true).
  { apply for_pair_true. split; reflexivity. }
  assert (Hsel : select_latest_unused (req_user_id req) (req_purpose req) db'
                 = Some new).
  { unfold select_latest_unused. rewrite Hotps, filter_app. simpl.
    rewrite Hpair. simpl. apply newest_app_newer.
    intros x Hx. apply filter_In in Hx. destruct Hx as [Hx Hpx].
    apply andb_true_iff in Hpx. destruct Hpx as [Hpx _].
    destruct (Horigin x Hx) as (y & Hy & _ & Hyu & Hyp & ->).
    simpl. apply Hold; [assumption|].
    apply for_pair_true in Hpx. apply for_pair_true.
    destruct Hpx. split; congruence. }
  assert (Hrun : verify v now db'
                 = (affectedRows <- UPDATE_otps i still_unused set_used ;;
                    if Nat.eqb affectedRows 0 then ret CodeUsed
                    else ret VerificationSuccessful) db').
  { rewrite (verify_selected v now db' new Hsel). unfold verify_found.
    assert (Hlive : (expires_at new <? now) = false).
    { apply Z.ltb_ge. simpl. lia. }
    rewrite Hlive. unfold lock_test, check_code. simpl.
    rewrite String.eqb_refl. reflexivity. }
  assert (Hhit : hits i still_unused new = true).
  { unfold hits, still_unused. simpl. rewrite Z.eqb_refl. reflexivity. }
  assert (Hbad : (exists o, In o (otps db') /\
                            for_pair (req_user_id req) (req_purpose req) o = true /\
                            is_used o = true /\ is_locked o = false) ->
                 otp_verify v now db' = (db', VerifyInternalError)).
  { intros (o & Ho & Hpo & Huo & Hlo).
    rewrite otp_verify_well_formed by assumption. rewrite Hrun.
    unfold bind, UPDATE_otps, update_otp.
    replace (existsb _ (otps db')) with true; [reflexivity|].
    symmetry. apply existsb_exists. exists new. split.
    { rewrite Hotps. apply in_or_app. right. left. reflexivity. }
    rewrite Hhit. simpl. apply existsb_exists. exists o.
    split; [assumption|].
    assert (Hoi : id o <> i).
    { rewrite Hotps in Ho. apply in_app_or in Ho.
      destruct Ho as [Ho|[Ho|[]]]; [specialize (Hids o Ho); lia|].
      subst o. discriminate. }
    apply Z.eqb_neq in Hoi. rewrite Hoi. simpl.
    apply same_uk_true. simpl. apply for_pair_true in Hpo.
    destruct Hpo. auto. }
  split; [|split].
  - intros Hnone. rewrite otp_verify_well_formed by assumption. rewrite Hrun.
    unfold bind, UPDATE_otps, update_otp.
    replace (existsb _ (otps db')) with false.
    + assert (Hn : List.length (filter (hits i still_unused) (otps db'))
                   <> 0%nat).
      { intros Hz. apply length_zero_iff_nil in Hz.
        assert (Hin : In new (filter (hits i still_unused) (otps db'))).
        { apply filter_In. split; [|assumption].
          rewrite Hotps. apply in_or_app. right. left. reflexivity. }
        rewrite Hz in Hin. contradiction. }
      apply Nat.eqb_neq in Hn. rewrite Hn. reflexivity.
    + symmetry. apply existsb_false_iff. intros r Hr.
      destruct (hits i still_unused r) eqn:Hh; [simpl|reflexivity].
      apply existsb_false_iff. intros o Ho.
      destruct (id o =? i) eqn:Eo; [reflexivity|simpl].
      destruct (same_uk (set_used r) o) eqn:S; [exfalso|reflexivity].
      assert (Hr' : r = new).
      { rewrite Hotps in Hr. apply in_app_or in Hr.
        destruct Hr as [Hr|[Hr|[]]]; [|auto].
        unfold hits in Hh. apply andb_true_iff in Hh. destruct Hh as [Hh _].
        apply Z.eqb_eq in Hh. specialize (Hids r Hr). lia. }
      subst r. apply same_uk_true in S. simpl in S.
      destruct S as (S1 & S2 & S3 & S4).
      assert (Hpo : for_pair (req_user_id req) (req_purpose req) o = true).
      { apply for_pair_true. split; congruence. }
      specialize (Hnone o Ho Hpo (eq_sym S3)). congruence.
  - exact Hbad.
  - intros Hact. apply Hbad.
    destruct Ht1 as [(Es & _)|(row & rest & Es & -> & _)]; [contradiction|].
    assert (Hrow : In row (select_active_otp (req_user_id req) (req_purpose req)
                             (db_now clk) db)) by (rewrite Es; left; reflexivity).
    apply select_active_otp_In in Hrow.
    destruct Hrow as (Hrow & Hru & Hrp & _ & Hrl & _).
    exists (set_used row). split; [|split; [|split]].
    + rewrite Hotps. apply in_or_app. left.
      unfold mark_used, rewrite_row. apply in_map_iff. exists row.
      rewrite Z.eqb_refl. auto.
    + apply for_pair_true. simpl. auto.
    + reflexivity.
    + simpl. assumption.
Qed.

(** "U1" asks for a second code 1 s after the first, and enters it. *)
Lemma X18_served_code_round_trip_witness :
  otp_verify (U1_code "654321") 2000
    (fst (otp_request (U1_login "k2") (at_ms 1000) 654321 first_issue_db))
  = (fst (otp_request (U1_login "k2") (at_ms 1000) 654321 first_issue_db),
     VerifyInternalError).
Proof.
  apply (X18_served_code_round_trip (U1_login "k2") (at_ms 1000) 654321
           first_issue_db
           (fst (otp_request (U1_login "k2") (at_ms 1000) 654321 first_issue_db))
           (mkResponse "2" 300 1) 2000).
  - exists [Handle (Issue (U1_login "k1") (at_ms 0) 123456)]. reflexivity.
  - vm_compute. reflexivity.
  - assert (E : otps first_issue_db
                = [mkOtp 1 "U1" "login" "123456" 0 300000 false false None 0])
      by (vm_compute; reflexivity).
    rewrite E. intros r [<-|[]] _. simpl. lia.
  - simpl. lia.
  - vm_compute. discriminate.
Defined.

(** * Housekeeping runs in sequence *)


